(** * CAISO historical LMP retrieval: a shallow embedding of
      [isodata/caiso.py] and the properties of [CAISO.get_historical_lmp].

    The development follows the source top-down:
    - [Calendar]: civil dates, the US/Pacific zone, [tz_convert],
      [pd.DateOffset] and [strftime], as far as lines 193-201 use them;
    - [Effects]: the error-and-trace monad in which [requests.get],
      [print] and [time.sleep] are recorded;
    - [Keys]: the values of the key columns as [pd.read_csv] types them,
      numbers or text, and the order pandas sorts them by;
    - [Frames]: the part of pandas that lines 237-271 use
      ([pivot_table], [reset_index], [rename], column assignment and
      column selection);
    - [CAISO]: the method itself;
    - [Retrieval]: the trace of a run of failed attempts and the URL of
      line 221;
    - [Py] and [Feeds]: the other accessors of the class (the latest
      status, fuel mix and demand, the fuel mix and the demand of a past
      day) and the helpers [_make_timestamp] and [_get_historical];
    - the theorems. *)

From Stdlib Require Import ZArith List String Ascii Bool Lia.
From Stdlib Require Import Sorting.Sorted Sorting.Permutation.
From Stdlib Require Import Structures.OrdersEx Structures.OrdersFacts.
Import ListNotations.
Local Open Scope string_scope.
Local Open Scope Z_scope.

(** ** Calendar arithmetic *)

Module Calendar.

(** Days since 1970-01-01 of a proleptic Gregorian date. *)
Definition days_from_civil (y m d : Z) : Z :=
  let y' := if m <=? 2 then y - 1 else y in
  let era := y' / 400 in
  let yoe := y' - era * 400 in
  let mp := if 2 <? m then m - 3 else m + 9 in
  let doy := (153 * mp + 2) / 5 + d - 1 in
  let doe := yoe * 365 + yoe / 4 - yoe / 100 + doy in
  era * 146097 + doe - 719468.

(** The inverse: (year, month, day) of a day number. *)
Definition civil_from_days (z : Z) : Z * Z * Z :=
  let z := z + 719468 in
  let era := z / 146097 in
  let doe := z - era * 146097 in
  let yoe := (doe - doe / 1460 + doe / 36524 - doe / 146096) / 365 in
  let doy := doe - (365 * yoe + yoe / 4 - yoe / 100) in
  let mp := (5 * doy + 2) / 153 in
  let d := doy - (153 * mp + 2) / 5 + 1 in
  let m := if mp <? 10 then mp + 3 else mp - 9 in
  let y := yoe + era * 400 in
  (if m <=? 2 then y + 1 else y, m, d).

(** Day of the week, 0 = Sunday; 1970-01-01 was a Thursday. *)
Definition weekday (day : Z) : Z := (day + 4) mod 7.

(** The first Sunday on or after [day]. *)
Definition sunday_on_or_after (day : Z) : Z := day + (7 - weekday day) mod 7.

Definition SECONDS_PER_DAY : Z := 86400.

(** The zones the method touches: its [default_timezone] and UTC. *)
Inductive tzinfo := UTC | US_Pacific.

(** US/Pacific as the zone database has it (America/Los_Angeles).  Clocks
    change at 02:00: daylight saving begins at 02:00 standard time (10:00
    UTC) and ends at 02:00 daylight time (09:00 UTC), unless said
    otherwise. *)
Definition begins_on (day : Z) : Z := day * SECONDS_PER_DAY + 10 * 3600.

Definition ends_on (day : Z) : Z := day * SECONDS_PER_DAY + 9 * 3600.

(** The last Sunday of month [m] of year [y]. *)
Definition last_sunday (y m : Z) : Z :=
  let next := if m =? 12 then days_from_civil (y + 1) 1 1 else days_from_civil y (m + 1) 1 in
  sunday_on_or_after (next - 7).

(** The rule in force since 2007: from the second Sunday of March to the
    first Sunday of November. *)
Definition dst_start (y : Z) : Z :=
  (sunday_on_or_after (days_from_civil y 3 1) + 7) * SECONDS_PER_DAY + 10 * 3600.

Definition dst_end (y : Z) : Z :=
  sunday_on_or_after (days_from_civil y 11 1) * SECONDS_PER_DAY + 9 * 3600.

(** The part of the UTC year [y] with daylight saving time, from its
    first instant to the first instant after it, by the rules of the
    years:
    - since 2007 as above;
    - 1987-2006 from the first Sunday of April, 1976-1986 and 1967-1973
      from the last Sunday of April, in 1975 from February 23 and in 1974
      from January 6, each to the last Sunday of October;
    - 1950-1966 (California) from the last Sunday of April, 01:00, to the
      last Sunday of September, from 1962 of October;
    - 1948 from March 14, 02:01, to January 1, 1949, 02:00;
    - war time from February 9, 1942 to September 30, 1945;
    - 1918 and 1919 from the last Sunday of March to the last Sunday of
      October;
    - none in the other years. *)
Definition dst_period (y : Z) : option (Z * Z) :=
  let new_year := days_from_civil y 1 1 * SECONDS_PER_DAY in
  let year_end := days_from_civil (y + 1) 1 1 * SECONDS_PER_DAY in
  let october := ends_on (last_sunday y 10) in
  if 2007 <=? y then Some (dst_start y, dst_end y)
  else if 1987 <=? y then Some (begins_on (sunday_on_or_after (days_from_civil y 4 1)), october)
  else if 1976 <=? y then Some (begins_on (last_sunday y 4), october)
  else if y =? 1975 then Some (begins_on (days_from_civil 1975 2 23), october)
  else if y =? 1974 then Some (begins_on (days_from_civil 1974 1 6), october)
  else if 1967 <=? y then Some (begins_on (last_sunday y 4), october)
  else if 1962 <=? y then Some (last_sunday y 4 * SECONDS_PER_DAY + 9 * 3600, october)
  else if 1950 <=? y
  then Some (last_sunday y 4 * SECONDS_PER_DAY + 9 * 3600, ends_on (last_sunday y 9))
  else if y =? 1949 then Some (new_year, ends_on (days_from_civil 1949 1 1))
  else if y =? 1948 then Some (begins_on (days_from_civil 1948 3 14) + 60, year_end)
  else if 1946 <=? y then None
  else if y =? 1945 then Some (new_year, ends_on (days_from_civil 1945 9 30))
  else if 1943 <=? y then Some (new_year, year_end)
  else if y =? 1942 then Some (begins_on (days_from_civil 1942 2 9), year_end)
  else if (1918 <=? y) && (y <=? 1919)
  then Some (begins_on (last_sunday y 3), october)
  else None.

Definition year_of (epoch : Z) : Z :=
  let '(y, _, _) := civil_from_days (epoch / SECONDS_PER_DAY) in y.

Definition PST : Z := -8 * 3600.
Definition PDT : Z := -7 * 3600.

(** Local mean time of Los Angeles, 7:52:58 behind UTC, which the zone
    keeps until standard time begins on 1883-11-18 at 20:00 UTC. *)
Definition LMT : Z := - (7 * 3600 + 52 * 60 + 58).

Definition standard_time_begins : Z :=
  days_from_civil 1883 11 18 * SECONDS_PER_DAY + 20 * 3600.

(** Offset from UTC, in seconds, that zone [z] observes at instant [epoch]. *)
Definition utcoffset (z : tzinfo) (epoch : Z) : Z :=
  match z with
  | UTC => 0
  | US_Pacific =>
      if epoch <? standard_time_begins then LMT
      else
        match dst_period (year_of epoch) with
        | Some (first, after_last) =>
            if (first <=? epoch) && (epoch <? after_last) then PDT else PST
        | None => PST
        end
  end.

(** A timezone-aware [pd.Timestamp], to the second: the instant counted
    from the epoch in UTC, and the zone it is displayed in. *)
Record Timestamp := { epoch : Z; tz : tzinfo }.

(** [ts.tz_convert(z)]: same instant, other zone. *)
Definition tz_convert (z : tzinfo) (ts : Timestamp) : Timestamp :=
  {| epoch := epoch ts; tz := z |}.

(** Wall-clock reading of [ts] in its zone, as seconds since 1970-01-01T00:00
    on that clock. *)
Definition wall (ts : Timestamp) : Z := epoch ts + utcoffset (tz ts) (epoch ts).

(** Attach zone [z] to a wall-clock reading.  Where the reading is valid
    with the standard offset that one is taken; otherwise the daylight
    offset if it is valid with that, or local mean time if with that; a
    reading inside a gap keeps the standard offset. *)
Definition tz_localize (z : tzinfo) (w : Z) : Timestamp :=
  match z with
  | UTC => {| epoch := w; tz := UTC |}
  | US_Pacific =>
      let std := w - PST in
      let dst := w - PDT in
      let lmt := w - LMT in
      if utcoffset US_Pacific std =? PST then {| epoch := std; tz := z |}
      else if utcoffset US_Pacific dst =? PDT then {| epoch := dst; tz := z |}
      else if utcoffset US_Pacific lmt =? LMT then {| epoch := lmt; tz := z |}
      else {| epoch := std; tz := z |}
  end.

(** [ts + pd.DateOffset(n)].  An offset built without keywords is [n] days
    as a [timedelta]: pandas returns [ts + timedelta(n)], which moves the
    instant by [n] times 24 hours and keeps the zone. *)
Definition add_DateOffset (ts : Timestamp) (n : Z) : Timestamp :=
  {| epoch := epoch ts + n * SECONDS_PER_DAY; tz := tz ts |}.

(** [n] calendar days later on the wall clock of the timestamp's own zone,
    the reading being re-attached to that zone (what
    [ts + pd.DateOffset(days=n)] computes). *)
Definition add_calendar_days (ts : Timestamp) (n : Z) : Timestamp :=
  tz_localize (tz ts) (wall ts + n * SECONDS_PER_DAY).

(** Decimal digits. *)
Definition digit (n : Z) : ascii := ascii_of_nat (48 + Z.to_nat (n mod 10)).

Fixpoint digits_aux (fuel : nat) (n : Z) (acc : string) : string :=
  match fuel with
  | O => acc
  | S fuel' =>
      let acc' := String (digit n) acc in
      if n <? 10 then acc' else digits_aux fuel' (n / 10) acc'
  end.

(** [str(n)] for an integer. *)
Definition str_of_Z (n : Z) : string :=
  if n <? 0 then "-" ++ digits_aux (S (Z.to_nat (Z.log2 (- n)))) (- n) ""
  else digits_aux (S (Z.to_nat (Z.log2 n))) n "".

(** Zero-padded field of [strftime], [width] digits at least. *)
Fixpoint zero_pad (width : nat) (s : string) : string :=
  match width with
  | O => s
  | S w => if Nat.ltb (String.length s) width then zero_pad w ("0" ++ s) else s
  end.

Definition pad (width : nat) (n : Z) : string := zero_pad width (str_of_Z n).

(** [ts.strftime("%Y%m%dT%H:%M-0000")]. *)
Definition strftime_oasis (ts : Timestamp) : string :=
  let w := wall ts in
  let '(y, m, d) := civil_from_days (w / SECONDS_PER_DAY) in
  let sod := w mod SECONDS_PER_DAY in
  pad 4 y ++ pad 2 m ++ pad 2 d ++ "T" ++ pad 2 (sod / 3600) ++ ":"
    ++ pad 2 (sod mod 3600 / 60) ++ "-0000".

End Calendar.

(** ** Errors, effects and the trace of a call *)

Module Effects.

(** The exceptions a call can end in. *)
Inductive exn :=
| RuntimeError (msg : string)
| KeyError (msg : string)
| ValueError (msg : string)
| TypeError (msg : string)
| BadZipFile (msg : string)
| ConnectionError (msg : string)
| UnboundLocalError (msg : string)
| OverflowError (msg : string).

Inductive result (A : Type) :=
| Ok (a : A)
| Raise (e : exn).
Arguments Ok {A} a.
Arguments Raise {A} e.

(** What a call does to the outside world, in order. *)
Inductive event :=
| Get (url : string)          (* requests.get(url) *)
| Print (msg : string)        (* print(msg) *)
| Sleep (secs : Z).           (* time.sleep(secs) *)

(** The world a call runs in: how many GETs the process has issued so far
    (the server's answer may depend on it) and the events so far. *)
Record world := { requests_made : nat; trace : list event }.

Definition M (A : Type) : Type := world -> result A * world.

Definition ret {A} (a : A) : M A := fun w => (Ok a, w).

Definition raise {A} (e : exn) : M A := fun w => (Raise e, w).

Definition bind {A B} (m : M A) (k : A -> M B) : M B :=
  fun w => match m w with
           | (Ok a, w') => k a w'
           | (Raise e, w') => (Raise e, w')
           end.

Definition lift {A} (r : result A) : M A := fun w => (r, w).

Definition emit (e : event) : M unit :=
  fun w => (Ok tt, {| requests_made := requests_made w;
                      trace := (trace w ++ [e])%list |}).

Definition print (msg : string) : M unit := emit (Print msg).

(** [time.sleep] counts the nanoseconds of the pause in a 64-bit integer:
    this is the greatest number of seconds that fits. *)
Definition longest_sleep : Z := 9223372036.

(** [time.sleep(secs)] for an integer: a length that does not fit is
    refused, and so is a negative one. *)
Definition time_sleep (secs : Z) : M unit :=
  if longest_sleep <? Z.abs secs
  then raise (OverflowError "timestamp too large to convert to C _PyTime_t")
  else if secs <? 0 then raise (ValueError "sleep length must be non-negative")
  else emit (Sleep secs).

(** The world after [gets] more requests and the events [evs]. *)
Definition after (w : world) (gets : nat) (evs : list event) : world :=
  {| requests_made := gets + requests_made w; trace := (trace w ++ evs)%list |}.

Definition is_get (e : event) : bool :=
  match e with Get _ => true | _ => false end.

Definition is_sleep (e : event) : bool :=
  match e with Sleep _ => true | _ => false end.

Definition is_sleep_of (secs : Z) (e : event) : bool :=
  match e with Sleep s => s =? secs | _ => false end.

Definition count (p : event -> bool) (t : list event) : nat :=
  List.length (filter p t).

End Effects.

Import Effects.

Declare Scope monad_scope.
Notation "x <- m ;; k" := (bind m (fun x => k))
  (at level 61, m at next level, right associativity) : monad_scope.
Notation "m ;;; k" := (bind m (fun _ => k))
  (at level 61, right associativity) : monad_scope.

(** ** [isodata.base] *)

Module Base.

(** Modelled from the spec: the [Markets] enumeration of [isodata.base],
    which is not among the sources.  The spec (section 3) names the three
    variants a price query maps; [OtherMarket] stands for any other value
    a caller passes for [market], which compares unequal to all three. *)
Inductive Markets :=
| DAY_AHEAD_HOURLY
| REAL_TIME_15_MIN
| REAL_TIME_HOURLY
| OtherMarket (repr : string).

Definition Markets_eqb (a b : Markets) : bool :=
  match a, b with
  | DAY_AHEAD_HOURLY, DAY_AHEAD_HOURLY => true
  | REAL_TIME_15_MIN, REAL_TIME_15_MIN => true
  | REAL_TIME_HOURLY, REAL_TIME_HOURLY => true
  | OtherMarket r, OtherMarket r' => String.eqb r r'
  | _, _ => false
  end.

End Base.

(** ** Sorted, duplicate-free key lists *)

Module Keys.

Section SortUniq.
Context {A : Type} (cmp : A -> A -> comparison).

Fixpoint insert_uniq (x : A) (l : list A) : list A :=
  match l with
  | [] => [x]
  | y :: l' =>
      match cmp x y with
      | Lt => x :: l
      | Eq => l
      | Gt => y :: insert_uniq x l'
      end
  end.

(** The distinct elements of [l] in ascending order. *)
Definition sort_uniq (l : list A) : list A := fold_right insert_uniq [] l.

End SortUniq.

(** A comparison that decides a strict total order. *)
Record total_order {A : Type} (cmp : A -> A -> comparison) : Prop := {
  cmp_eq : forall x y, cmp x y = Eq <-> x = y;
  cmp_antisym : forall x y, cmp y x = CompOpp (cmp x y);
  cmp_trans : forall x y z, cmp x y = Lt -> cmp y z = Lt -> cmp x z = Lt
}.

(** Tuples compare component by component, leftmost first. *)
Definition lex {A B} (ca : A -> A -> comparison) (cb : B -> B -> comparison)
    (x y : A * B) : comparison :=
  match ca (fst x) (fst y) with
  | Eq => cb (snd x) (snd y)
  | o => o
  end.

(** Strings compare by code unit, as Python's [str] does. *)
Definition str_cmp : string -> string -> comparison := String_as_OT.compare.

(** The numbers that a column of numbers holds (dtype int64, float64 or
    bool), with the order of their values, by which pandas sorts them and
    tells them apart. *)
Class Numbers (N : Type) := {
  num_cmp : N -> N -> comparison;
  num_order : total_order num_cmp
}.

(** Whole numbers are such numbers. *)
#[export] Instance Z_numbers : Numbers Z :=
  {| num_cmp := Z.compare;
     num_order := {| cmp_eq := Z.compare_eq_iff;
                     cmp_antisym := Z.compare_antisym;
                     cmp_trans := Z.lt_trans |} |}.

(** A value of a column that [pd.read_csv] read without being told a
    dtype: a number when all fields of the column read as numbers, the
    text of the field otherwise. *)
Inductive scalar (N : Type) :=
| Str (s : string)
| Number (n : N).
Arguments Str {N} s.
Arguments Number {N} n.

Section Scalars.
Context {N : Type} `{Numbers N}.

(** Numbers compare by value and strings as strings; in a column that
    holds both, pandas sorts the numbers before the strings. *)
Definition scalar_cmp (a b : scalar N) : comparison :=
  match a, b with
  | Number x, Number y => num_cmp x y
  | Number _, Str _ => Lt
  | Str _, Number _ => Gt
  | Str s, Str t => str_cmp s t
  end.

Definition scalar_eqb (a b : scalar N) : bool :=
  match scalar_cmp a b with Eq => true | _ => false end.

(** (INTERVALSTARTTIME_GMT, NODE) *)
Definition row_key : Type := scalar N * scalar N.

(** (INTERVALSTARTTIME_GMT, NODE, LMP_TYPE) *)
Definition group_key : Type := scalar N * scalar N * scalar N.

Definition row_key_cmp : row_key -> row_key -> comparison := lex scalar_cmp scalar_cmp.

Definition group_key_cmp : group_key -> group_key -> comparison :=
  lex row_key_cmp scalar_cmp.

Definition row_key_lt (a b : row_key) : Prop := row_key_cmp a b = Lt.

Definition row_key_eqb (a b : row_key) : bool :=
  match row_key_cmp a b with Eq => true | _ => false end.

Definition group_key_eqb (a b : group_key) : bool :=
  match group_key_cmp a b with Eq => true | _ => false end.

End Scalars.

Arguments row_key : clear implicits.
Arguments group_key : clear implicits.

End Keys.

Import Keys.

(** ** The pandas operations of lines 237-271 *)

Module Frames.

Import Calendar Base.

Section Frames.
(** Prices are carried around, never computed with: any type will do.
    A missing cell (NaN) is [None]. *)
Context {N : Type} `{Numbers N} {V : Type}.

(** One row of the frame that [pd.read_csv(..., usecols=[...])] yields:
    the three key columns and the price column ([MW] or [PRC]).  An
    empty field is missing ([None]). *)
Record raw_row := {
  INTERVALSTARTTIME_GMT : option (scalar N);
  NODE : option (scalar N);
  LMP_TYPE : option (scalar N);
  PRICE : option V
}.

Definition key_of (r : raw_row) : option (group_key N) :=
  match INTERVALSTARTTIME_GMT r, NODE r, LMP_TYPE r with
  | Some t, Some n, Some c => Some (t, n, c)
  | _, _, _ => None
  end.

Definition has_key (k : group_key N) (r : raw_row) : bool :=
  match key_of r with
  | Some k' => group_key_eqb k k'
  | None => false
  end.

(** The keys of the rows that have all three; a row with a missing key
    field belongs to no group. *)
Fixpoint keys_of (data : list raw_row) : list (group_key N) :=
  match data with
  | [] => []
  | r :: data' =>
      match key_of r with
      | Some k => k :: keys_of data'
      | None => keys_of data'
      end
  end.

(** [data.groupby([INTERVALSTARTTIME_GMT, NODE, LMP_TYPE], sort=True,
    dropna=True)]: the distinct keys in ascending order, each with its
    rows in input order. *)
Definition groupby (data : list raw_row) : list (group_key N * list raw_row) :=
  map (fun k => (k, filter (has_key k) data))
      (sort_uniq group_key_cmp (keys_of data)).

(** [GroupBy.first]: the first entry that is not null. *)
Fixpoint first (l : list (option V)) : option V :=
  match l with
  | [] => None
  | Some v :: _ => Some v
  | None :: l' => first l'
  end.

(** [grouped.agg("first")] on the one value column. *)
Definition agg_first (groups : list (group_key N * list raw_row))
    : list (group_key N * option V) :=
  map (fun g => (fst g, first (map PRICE (snd g)))) groups.

Definition notna (v : option V) : bool :=
  match v with Some _ => true | None => false end.

(** [agged.dropna(how="all")]: groups whose aggregate is null go. *)
Definition dropna_rows (agged : list (group_key N * option V))
    : list (group_key N * option V) :=
  filter (fun g => notna (snd g)) agged.

(** Value of group [k], NaN where there is no such group. *)
Fixpoint lookup (k : group_key N) (agged : list (group_key N * option V)) : option V :=
  match agged with
  | [] => None
  | (k', v) :: agged' => if group_key_eqb k k' then v else lookup k agged'
  end.

(** A pivoted table: the (INTERVALSTARTTIME_GMT, NODE) index and, per
    LMP_TYPE label, the column of prices aligned with the index. *)
Record Pivot := {
  index : list (row_key N);
  values : list (scalar N * list (option V))
}.

(** [agged.unstack(LMP_TYPE)] followed by [sort_index(axis=1)]. *)
Definition unstack (agged : list (group_key N * option V)) : Pivot :=
  let idx := sort_uniq row_key_cmp (map (fun g => fst (fst g)) agged) in
  let labels := sort_uniq scalar_cmp (map (fun g => snd (fst g)) agged) in
  {| index := idx;
     values := map (fun c => (c, map (fun k => lookup (k, c) agged) idx)) labels |}.

(** [table.dropna(how="all", axis=1)]: columns that are null throughout go. *)
Definition dropna_columns (p : Pivot) : Pivot :=
  {| index := index p;
     values := filter (fun col => existsb notna (snd col)) (values p) |}.

(** [df.pivot_table(index=[INTERVALSTARTTIME_GMT, NODE], columns=LMP_TYPE,
    values=PRICE_COL, aggfunc="first")]. *)
Definition pivot_table (data : list raw_row) : Pivot :=
  dropna_columns (unstack (dropna_rows (agg_first (groupby data)))).

(** Three views of the steps above, for stating what they compute:
    the first price that is not null among the rows with key [k], in
    input order; the aggregated groups the table is unstacked from; and
    the column labels of the unstacked table. *)
Definition cell_of (data : list raw_row) (k : group_key N) : option V :=
  first (map PRICE (filter (has_key k) data)).

Definition agged (data : list raw_row) : list (group_key N * option V) :=
  dropna_rows (agg_first (groupby data)).

Definition unstacked_labels (data : list raw_row) : list (scalar N) :=
  sort_uniq scalar_cmp (map (fun g => snd (fst g)) (agged data)).

(** The entry of a pivoted table at row [k], column [c]; [None] when the
    table has no such row or no such column. *)
Fixpoint at_key (k : row_key N) (idx : list (row_key N)) (col : list (option V))
    : option (option V) :=
  match idx, col with
  | k' :: idx', v :: col' =>
      if row_key_eqb k k' then Some v else at_key k idx' col'
  | _, _ => None
  end.

(** The first entry under label [c]; labels are the values of a column
    ([LMP_TYPE]) or the names in the head line of a file. *)
Fixpoint assoc {B} (c : scalar N) (cols : list (scalar N * B)) : option B :=
  match cols with
  | [] => None
  | (c', b) :: cols' => if scalar_eqb c c' then Some b else assoc c cols'
  end.

Definition pivot_cell (p : Pivot) (k : row_key N) (c : scalar N) : option (option V) :=
  match assoc c (values p) with
  | Some col => at_key k (index p) col
  | None => None
  end.

(** *** Data frames *)

Inductive cell :=
| Text (s : string)
| Numeral (n : N)
| Stamp (ts : Timestamp)
| Obj (m : Markets)
| Num (v : option V).

(** A key as the entry of a column. *)
Definition of_scalar (k : scalar N) : cell :=
  match k with
  | Str s => Text s
  | Number n => Numeral n
  end.

(** A frame with a default (0..n-1) index: its columns in order, labels
    not necessarily distinct, each as long as the frame. *)
Record DataFrame := {
  nrows : nat;
  columns : list (scalar N * list cell)
}.

Definition labels (df : DataFrame) : list (scalar N) := map fst (columns df).

(** Whether the name [l] is among the labels. *)
Definition mem (l : string) (ls : list (scalar N)) : bool := existsb (scalar_eqb (Str l)) ls.

(** [table.reset_index()]: the index levels become the leading columns;
    refused when a column already carries a level's name. *)
Definition reset_index (p : Pivot) : result DataFrame :=
  let ls := map fst (values p) in
  if mem "NODE" ls then Raise (ValueError "cannot insert NODE, already exists")
  else if mem "INTERVALSTARTTIME_GMT" ls
  then Raise (ValueError "cannot insert INTERVALSTARTTIME_GMT, already exists")
  else Ok {| nrows := List.length (index p);
             columns := (Str "INTERVALSTARTTIME_GMT", map (fun k => of_scalar (fst k)) (index p))
                        :: (Str "NODE", map (fun k => of_scalar (snd k)) (index p))
                        :: map (fun col => (fst col, map Num (snd col))) (values p) |}.

Definition rename_label (mapper : list (scalar N * string)) (l : scalar N) : scalar N :=
  match assoc l mapper with
  | Some l' => Str l'
  | None => l
  end.

(** [df.rename(columns=mapper)]; labels may coincide afterwards. *)
Definition rename (mapper : list (scalar N * string)) (df : DataFrame) : DataFrame :=
  {| nrows := nrows df;
     columns := map (fun col => (rename_label mapper (fst col), snd col)) (columns df) |}.

Definition labelled (l : string) (col : scalar N * list cell) : bool :=
  scalar_eqb (Str l) (fst col).

(** [df[l] = col]: every column labelled [l] is replaced, or the column
    is appended when there is none. *)
Definition setitem (l : string) (col : list cell) (df : DataFrame) : DataFrame :=
  {| nrows := nrows df;
     columns :=
       if mem l (labels df)
       then map (fun c => if labelled l c then (Str l, col) else c) (columns df)
       else (columns df ++ [(Str l, col)])%list |}.

(** [df[[l1; ...; ln]]]: for each label in turn all columns that carry
    it; a label that no column carries is a [KeyError]. *)
Fixpoint getitem_list (ls : list string) (df : DataFrame)
    : result (list (scalar N * list cell)) :=
  match ls with
  | [] => Ok []
  | l :: ls' =>
      match filter (labelled l) (columns df) with
      | [] => Raise (KeyError (l ++ " not in index"))
      | cols =>
          match getitem_list ls' df with
          | Ok rest => Ok (cols ++ rest)%list
          | Raise e => Raise e
          end
      end
  end.

Definition select (ls : list string) (df : DataFrame) : result DataFrame :=
  match getitem_list ls df with
  | Ok cols => Ok {| nrows := nrows df; columns := cols |}
  | Raise e => Raise e
  end.

(** The first column labelled [l]. *)
Definition column (l : string) (df : DataFrame) : option (list cell) :=
  assoc (Str l) (columns df).

(** [pd.to_datetime(series).dt.tz_convert(zone)], given what
    [pd.to_datetime] makes of the column: it raises, or it reads an
    instant in each entry. *)
Definition to_datetime_tz (to_datetime : list cell -> result (cell -> Z)) (zone : tzinfo)
    (series : list cell) : result (list cell) :=
  match to_datetime series with
  | Raise e => Raise e
  | Ok instant =>
      Ok (map (fun c => Stamp (tz_convert zone {| epoch := instant c; tz := UTC |})) series)
  end.

(** Boolean indexing of one column. *)
Fixpoint keep {B} (mask : list bool) (col : list B) : list B :=
  match mask, col with
  | true :: mask', x :: col' => x :: keep mask' col'
  | false :: mask', _ :: col' => keep mask' col'
  | _, _ => []
  end.

Definition isin (nodes : list string) (c : cell) : bool :=
  match c with
  | Text s => existsb (String.eqb s) nodes
  | _ => false
  end.

(** Modelled from the spec: [utils.filter_lmp_nodes], which is not among
    the sources; section 4.5 has it "filter rows to only the originally
    requested node identifiers". *)
Definition filter_lmp_nodes (df : DataFrame) (nodes : list string) : DataFrame :=
  match column "Node" df with
  | Some node_col =>
      let mask := map (isin nodes) node_col in
      {| nrows := List.length (filter (fun b => b) mask);
         columns := map (fun col => (fst col, keep mask (snd col))) (columns df) |}
  | None => df
  end.

End Frames.

Arguments raw_row : clear implicits.
Arguments Pivot : clear implicits.
Arguments cell : clear implicits.
Arguments DataFrame : clear implicits.

End Frames.
(** ** [class CAISO] *)

Module CAISO.

Import Calendar Base Frames.

Definition default_timezone : tzinfo := US_Pacific.

Definition trading_hubs_nodes : list string :=
  ["TH_NP15_GEN-APND"; "TH_SP15_GEN-APND"; "TH_ZP26_GEN-APND"].

(** What the method reads of a [requests.Response]. *)
Record Response := { status_code : Z; content : list Byte.byte }.

(** The collaborators outside the repository:
    - [server n url]: what the [n]-th GET of the process, for [url], meets:
      a response, or a network failure raised by [requests.get];
    - [read_zipped_csv payload price_col]: [ZipFile(io.BytesIO(payload))]
      and [pd.read_csv] of its first member with [usecols] the three key
      columns and [price_col], or the exception either raises;
    - [to_datetime series]: [pd.to_datetime(series)] as far as
      [.dt.tz_convert] can use it.  The column is converted as a whole:
      either the conversion fails (an entry that does not parse, entries
      with different UTC offsets, entries without a zone, a column of
      numbers, an empty column), with the exception that
      [pd.to_datetime], [.dt] or [tz_convert] raises, or it reads an
      instant (seconds since the epoch) in each entry. *)
Record Env (N V : Type) := {
  server : nat -> string -> result Response;
  read_zipped_csv : list Byte.byte -> string -> result (list (raw_row N V));
  to_datetime : list (cell N V) -> result (cell N V -> Z)
}.
Arguments server {N V} _ _ _.
Arguments read_zipped_csv {N V} _ _ _.
Arguments to_datetime {N V} _ _.

(** The [date] argument: a calendar date (its day number; midnight, no
    zone) or a timestamp that already has a zone. *)
Inductive date_arg :=
| NaiveDate (day : Z)
| Aware (ts : Timestamp).

(** Modelled from the spec: [utils._handle_date], which is not among the
    sources; section 4.2 has it "resolve the start date to a
    timezone-aware instant in the operator's local zone", the date being
    "optionally already timezone-aware". *)
Definition _handle_date (date : date_arg) (zone : tzinfo) : Timestamp :=
  match date with
  | NaiveDate day => tz_localize zone (day * SECONDS_PER_DAY)
  | Aware ts => ts
  end.

(** Lines 189-190: [if nodes is None: nodes = self.trading_hubs_nodes]. *)
Definition nodes_or_default (nodes : option (list string)) : list string :=
  match nodes with
  | None => trading_hubs_nodes
  | Some nodes => nodes
  end.

(** Lines 203-219: query name, market run id, version and price column. *)
Definition market_params (market : Markets) : result (string * string * Z * string) :=
  if Markets_eqb market DAY_AHEAD_HOURLY then Ok ("PRC_LMP", "DAM", 12, "MW")
  else if Markets_eqb market REAL_TIME_15_MIN then Ok ("PRC_RTPD_LMP", "RTPD", 3, "PRC")
  else if Markets_eqb market REAL_TIME_HOURLY then Ok ("PRC_HASP_LMP", "HASP", 3, "MW")
  else Raise (RuntimeError "LMP Market is not supported").

(** Line 221. *)
Definition oasis_url (query_name : string) (version : Z) (start end_ : string)
    (market_run_id nodes_str : string) : string :=
  "http://oasis.caiso.com/oasisapi/SingleZip?resultformat=6&queryname=" ++ query_name
    ++ "&version=" ++ str_of_Z version
    ++ "&startdatetime=" ++ start
    ++ "&enddatetime=" ++ end_
    ++ "&market_run_id=" ++ market_run_id
    ++ "&node=" ++ nodes_str.

(** Lines 255-262, the [columns] mapping of [rename]. *)
Definition canonical_names {N : Type} : list (scalar N * string) :=
  [(Str "INTERVALSTARTTIME_GMT", "Time"); (Str "NODE", "Node"); (Str "LMP", "LMP");
   (Str "MCE", "Energy"); (Str "MCC", "Congestion"); (Str "MCL", "Loss")].

(** Line 271, the columns selected. *)
Definition canonical_columns : list string :=
  ["Time"; "Market"; "Node"; "LMP"; "Energy"; "Congestion"; "Loss"].

(** What one failed attempt of the retry loop (lines 225-233) leaves in
    the trace. *)
Definition failed_attempt (url : string) (code retry_num : Z) : list event :=
  [Get url;
   Print ("Failed to get data from CAISO. Error: " ++ str_of_Z code);
   Print ("Retrying " ++ str_of_Z retry_num ++ "...");
   Sleep 5].

Local Open Scope monad_scope.

Section Method.
Context {N : Type} `{Numbers N} {V : Type} (env : Env N V).

(** [requests.get(url)] *)
Definition requests_get (url : string) : M Response :=
  fun w => (server env (requests_made w) url,
            {| requests_made := S (requests_made w);
               trace := (trace w ++ [Get url])%list |}).

(** Lines 224-233, the [while retry_num < 3] loop; [r] is the variable
    the loop assigns, unbound ([None]) before the first turn.  [fuel]
    bounds the turns; 3 is enough ([while_retry_fuel]). *)
Fixpoint while_retry (fuel : nat) (url : string) (retry_num : Z)
    (r : option Response) : M (option Response) :=
  if retry_num <? 3 then
    match fuel with
    | O => ret None
    | S fuel' =>
        r <- requests_get url ;;
        if status_code r =? 200 then ret (Some r)
        else
          let retry_num := retry_num + 1 in
          print ("Failed to get data from CAISO. Error: " ++ str_of_Z (status_code r)) ;;;
          print ("Retrying " ++ str_of_Z retry_num ++ "...") ;;;
          time_sleep 5 ;;;
          while_retry fuel' url retry_num (Some r)
    end
  else ret r.

(** Lines 254-271: from the pivoted table to the frame in canonical form. *)
Definition normalize (market : Markets) (p : Pivot N V) : result (DataFrame N V) :=
  match reset_index p with
  | Raise e => Raise e
  | Ok df =>
      let df := rename canonical_names df in
      match filter (labelled "Time") (columns df) with
      | [(_, series)] =>
          match to_datetime_tz (to_datetime env) default_timezone series with
          | Raise e => Raise e
          | Ok times =>
              let df := setitem "Time" times df in
              let df := setitem "Market" (repeat (Obj market) (nrows df)) df in
              select canonical_columns df
          end
      | _ => Raise (ValueError "to assemble mappings requires at least that [year, month, day] be specified")
      end
  end.

(** Views of the frame [normalize] builds, for stating what it returns:
    the price columns of the pivoted table under their new names, the
    time column before its conversion, the node column, and the [Market]
    columns of the result (the constant column, once, or once per price
    column that was itself called [Market]). *)
Definition renamed (p : Pivot N V) : list (scalar N * list (cell N V)) :=
  map (fun col => (rename_label canonical_names (fst col), map Num (snd col))) (values p).

Definition time_column (p : Pivot N V) : list (cell N V) :=
  map (fun k => of_scalar (fst k)) (index p).

Definition node_column (p : Pivot N V) : list (cell N V) :=
  map (fun k => of_scalar (snd k)) (index p).

Definition market_columns (market : Markets) (p : Pivot N V)
    : list (scalar N * list (cell N V)) :=
  let col := (Str "Market", repeat (Obj market) (List.length (index p))) in
  match filter (labelled "Market") (renamed p) with
  | [] => [col]
  | c :: cs => map (fun _ => col) (c :: cs)
  end.

(** Lines 193-245: the query is built and sent, and the CSV of the
    answer is read. *)
Definition query_csv (date : date_arg) (market : Markets) (nodes : list string)
    : M (list (raw_row N V)) :=
  let start := _handle_date date default_timezone in
  let nodes_str := String.concat "," nodes in
  let start := tz_convert UTC start in
  let end_ := add_DateOffset start 1 in
  let start := strftime_oasis start in
  let end_ := strftime_oasis end_ in
  params <- lift (market_params market) ;;
  let '(query_name, market_run_id, version, PRICE_COL) := params in
  let url := oasis_url query_name version start end_ market_run_id nodes_str in
  r <- while_retry 3 url 0 None ;;
  match r with
  | None => raise (UnboundLocalError "local variable 'r' referenced before assignment")
  | Some r => lift (read_zipped_csv env (content r) PRICE_COL)
  end.

(** [CAISO.get_historical_lmp(date, market, nodes, sleep)], lines 173-277. *)
Definition get_historical_lmp (date : date_arg) (market : Markets)
    (nodes : option (list string)) (sleep : Z) : M (DataFrame N V) :=
  let nodes := nodes_or_default nodes in
  df <- query_csv date market nodes ;;
  let df := pivot_table df in
  df <- lift (normalize market df) ;;
  let data := filter_lmp_nodes df nodes in
  time_sleep sleep ;;;
  ret df.

End Method.

Definition initial_world : world := {| requests_made := 0; trace := [] |}.

End CAISO.

(** ** The reading of section 4.2 of the specification *)

Module Spec.

Import Calendar CAISO.

(** "Start + exactly one calendar day (not 24 hours)" in the operator's
    local zone: the day is added on the local wall clock. *)
Definition end_by_local_calendar_day (date : date_arg) : Timestamp :=
  add_calendar_days (_handle_date date default_timezone) 1.

End Spec.

(** ** Scenarios *)

Module Scenario.

Import Calendar Base Frames CAISO.

(** A row of a file whose key columns are text. *)
Definition row (t n c : string) (v : option Z) : raw_row Z Z :=
  {| INTERVALSTARTTIME_GMT := Some (Str t); NODE := Some (Str n);
     LMP_TYPE := Some (Str c); PRICE := v |}.

(** A row of a file whose nodes are all digits: [pd.read_csv] reads the
    column as numbers. *)
Definition numbered_row (t : string) (n : Z) (c : string) (v : option Z) : raw_row Z Z :=
  {| INTERVALSTARTTIME_GMT := Some (Str t); NODE := Some (Number n);
     LMP_TYPE := Some (Str c); PRICE := v |}.

Definition T0800 : string := "2023-01-01T08:00:00-00:00".

(** The end-to-end scenario of section 8: one node, one interval, the
    four components. *)
Definition node_a_csv : list (raw_row Z Z) :=
  [row T0800 "NODE_A" "LMP" (Some 25); row T0800 "NODE_A" "MCE" (Some 20);
   row T0800 "NODE_A" "MCC" (Some 3); row T0800 "NODE_A" "MCL" (Some 2)].

(** The endpoint sends a second node along. *)
Definition two_node_csv : list (raw_row Z Z) :=
  (node_a_csv ++
   [row T0800 "NODE_B" "LMP" (Some 31); row T0800 "NODE_B" "MCE" (Some 28);
    row T0800 "NODE_B" "MCC" (Some 2); row T0800 "NODE_B" "MCL" (Some 1)])%list.

(** A component type that is called like a canonical column. *)
Definition energy_csv : list (raw_row Z Z) :=
  (node_a_csv ++ [row T0800 "NODE_A" "Energy" (Some 21)])%list.

(** The loss component is missing. *)
Definition no_loss_csv : list (raw_row Z Z) := firstn 3 node_a_csv.

(** The endpoint sends rows of a second node that have no price. *)
Definition unpriced_extra_csv : list (raw_row Z Z) :=
  (node_a_csv ++
   [row T0800 "NODE_B" "LMP" None; row T0800 "NODE_B" "MCE" None;
    row T0800 "NODE_B" "MCC" None; row T0800 "NODE_B" "MCL" None])%list.

(** Nodes that are all digits, 10 before 9 in the file. *)
Definition numbered_csv : list (raw_row Z Z) :=
  [numbered_row T0800 10 "LMP" (Some 31); numbered_row T0800 10 "MCE" (Some 28);
   numbered_row T0800 10 "MCC" (Some 2); numbered_row T0800 10 "MCL" (Some 1);
   numbered_row T0800 9 "LMP" (Some 25); numbered_row T0800 9 "MCE" (Some 20);
   numbered_row T0800 9 "MCC" (Some 3); numbered_row T0800 9 "MCL" (Some 2)].

(** Two rows for one key, the first without a price. *)
Definition gap_csv : list (raw_row Z Z) :=
  [row T0800 "NODE_A" "LMP" None; row T0800 "NODE_A" "LMP" (Some 5)].

(** Two rows for one key, both priced. *)
Definition dup_csv : list (raw_row Z Z) :=
  [row T0800 "NODE_A" "LMP" (Some 25); row T0800 "NODE_A" "LMP" (Some 26)].

(** [pd.to_datetime] on the files of these scenarios, whose times are
    all [T0800]; an empty column comes out without a zone, which
    [tz_convert] refuses. *)
Definition is_T0800 (c : cell Z Z) : bool :=
  match c with
  | Text s => String.eqb s T0800
  | _ => false
  end.

Definition parse (series : list (cell Z Z)) : result (cell Z Z -> Z) :=
  match series with
  | [] => Raise (TypeError "Cannot convert tz-naive timestamps, use tz_localize to localize")
  | _ =>
      if forallb is_T0800 series then Ok (fun _ => 1672560000)
      else Raise (ValueError "Unknown datetime string format")
  end.

(** An endpoint that answers the [n]-th request with the [n]-th status
    code of [codes] (200 beyond them) and whose archive holds [data]. *)
Definition served (codes : list Z) (data : list (raw_row Z Z)) : Env Z Z :=
  {| server := fun n _ => Ok {| status_code := nth n codes 200; content := [] |};
     read_zipped_csv := fun _ _ => Ok data;
     to_datetime := parse |}.

Definition new_year_2023 : date_arg := NaiveDate (days_from_civil 2023 1 1).

(** The day daylight saving begins in 2022. *)
Definition spring_forward_2022 : date_arg := NaiveDate (days_from_civil 2022 3 13).

Definition dam_url (start end_ nodes_str : string) : string :=
  oasis_url "PRC_LMP" 12 start end_ "DAM" nodes_str.

(** What the scenario of section 8 returns, and the world it leaves. *)
Definition node_a_frame : DataFrame Z Z :=
  {| nrows := 1;
     columns := [(Str "Time", [Stamp {| epoch := 1672560000; tz := US_Pacific |}]);
                 (Str "Market", [Obj DAY_AHEAD_HOURLY]);
                 (Str "Node", [Text "NODE_A"]);
                 (Str "LMP", [Num (Some 25)]);
                 (Str "Energy", [Num (Some 20)]);
                 (Str "Congestion", [Num (Some 3)]);
                 (Str "Loss", [Num (Some 2)])] |}.

Definition node_a_queried : world :=
  {| requests_made := 1;
     trace := [Get (dam_url "20230101T08:00-0000" "20230102T08:00-0000" "NODE_A")] |}.

Definition node_a_world : world := after node_a_queried 0 [Sleep 5].

(** What a call for NODE_A returns when the archive holds both nodes. *)
Definition two_node_frame : DataFrame Z Z :=
  {| nrows := 2;
     columns := [(Str "Time", [Stamp {| epoch := 1672560000; tz := US_Pacific |};
                           Stamp {| epoch := 1672560000; tz := US_Pacific |}]);
                 (Str "Market", [Obj DAY_AHEAD_HOURLY; Obj DAY_AHEAD_HOURLY]);
                 (Str "Node", [Text "NODE_A"; Text "NODE_B"]);
                 (Str "LMP", [Num (Some 25); Num (Some 31)]);
                 (Str "Energy", [Num (Some 20); Num (Some 28)]);
                 (Str "Congestion", [Num (Some 3); Num (Some 2)]);
                 (Str "Loss", [Num (Some 2); Num (Some 1)])] |}.

(** What a call for the nodes 10 and 9 returns, and the world after its
    request. *)
Definition numbered_frame : DataFrame Z Z :=
  {| nrows := 2;
     columns := [(Str "Time", [Stamp {| epoch := 1672560000; tz := US_Pacific |};
                               Stamp {| epoch := 1672560000; tz := US_Pacific |}]);
                 (Str "Market", [Obj DAY_AHEAD_HOURLY; Obj DAY_AHEAD_HOURLY]);
                 (Str "Node", [Numeral 9; Numeral 10]);
                 (Str "LMP", [Num (Some 25); Num (Some 31)]);
                 (Str "Energy", [Num (Some 20); Num (Some 28)]);
                 (Str "Congestion", [Num (Some 3); Num (Some 2)]);
                 (Str "Loss", [Num (Some 2); Num (Some 1)])] |}.

Definition numbered_queried : world :=
  {| requests_made := 1;
     trace := [Get (dam_url "20230101T08:00-0000" "20230102T08:00-0000" "10,9")] |}.

End Scenario.

(** ** More views of the retrieval, for stating what the loop does *)

Module Retrieval.

Import Calendar CAISO.

(** What a run of failed attempts leaves in the trace, the first of them
    being attempt number [retry_num + 1]. *)
Fixpoint failed_attempts (url : string) (retry_num : Z) (fails : list Response)
    : list event :=
  match fails with
  | [] => []
  | r :: fails' =>
      (failed_attempt url (status_code r) (retry_num + 1)
       ++ failed_attempts url (retry_num + 1) fails')%list
  end.

(** The URL of line 221 for a date, the parameters of a market and a node
    list, as lines 193-221 build it. *)
Definition request_url (date : date_arg) (query_name market_run_id : string)
    (version : Z) (nodes : list string) : string :=
  let start := tz_convert UTC (_handle_date date default_timezone) in
  oasis_url query_name version (strftime_oasis start)
    (strftime_oasis (add_DateOffset start 1)) market_run_id (String.concat "," nodes).

(** The server answers the requests from the [n]-th on with the responses
    [rs], one after the other. *)
Fixpoint answers {N V} (env : Env N V) (url : string) (n : nat) (rs : list Response) : Prop :=
  match rs with
  | [] => True
  | r :: rs' => server env n url = Ok r /\ answers env url (S n) rs'
  end.

Definition failed (r : Response) : Prop := status_code r <> 200.

End Retrieval.

(** ** Python values and exceptions beyond those of the LMP query *)

Module Py.

(** The exceptions of the other accessors: those above and two more. *)
Inductive pyexn :=
| Std (e : exn)
| IndexError (msg : string)
| AttributeError (msg : string).

Inductive outcome (A : Type) :=
| Return (a : A)
| Throw (e : pyexn).
Arguments Return {A} a.
Arguments Throw {A} e.

Definition of_result {A} (r : result A) : outcome A :=
  match r with
  | Ok a => Return a
  | Raise e => Throw (Std e)
  end.

(** Computations that may raise and that leave requests in the trace. *)
Definition P (A : Type) : Type := world -> outcome A * world.

Definition pret {A} (a : A) : P A := fun w => (Return a, w).

Definition pthrow {A} (e : pyexn) : P A := fun w => (Throw e, w).

Definition pbind {A B} (m : P A) (k : A -> P B) : P B :=
  fun w => match m w with
           | (Return a, w') => k a w'
           | (Throw e, w') => (Throw e, w')
           end.

Definition plift {A} (o : outcome A) : P A := fun w => (o, w).

(** One HTTP GET of [url], answered by [answer] according to how many
    requests went before. *)
Definition http_get {A} (answer : nat -> string -> outcome A) (url : string) : P A :=
  fun w => (answer (requests_made w) url, after w 1 [Get url]).

(** [s.split(sep)] for a separator of one character. *)
Fixpoint split_on (sep : ascii) (s : string) : list string :=
  match s with
  | EmptyString => [EmptyString]
  | String c s' =>
      if Ascii.eqb c sep then EmptyString :: split_on sep s'
      else match split_on sep s' with
           | part :: parts => String c part :: parts
           | [] => [String c EmptyString]
           end
  end.

(** How often [sep] occurs in [s]. *)
Fixpoint occurrences (sep : ascii) (s : string) : nat :=
  match s with
  | EmptyString => O
  | String c s' => if Ascii.eqb c sep then S (occurrences sep s') else occurrences sep s'
  end.

(** [f] applied to the elements in turn, as [Series.apply] does; the first
    exception ends it. *)
Fixpoint apply_each {A B} (f : A -> outcome B) (l : list A) : outcome (list B) :=
  match l with
  | [] => Return []
  | x :: l' =>
      match f x with
      | Throw e => Throw e
      | Return y =>
          match apply_each f l' with
          | Throw e => Throw e
          | Return ys => Return (y :: ys)
          end
      end
  end.

(** Parsed JSON. *)
#[warnings="-register-all"]
Inductive json :=
| JNull
| JBool (b : bool)
| JNum (literal : string)
| JStr (s : string)
| JArr (items : list json)
| JObj (fields : list (string * json)).

Fixpoint field (k : string) (fields : list (string * json)) : option json :=
  match fields with
  | [] => None
  | (k', v) :: fields' => if String.eqb k k' then Some v else field k fields'
  end.

(** [j[k]] for a string [k]. *)
Definition getitem_str (j : json) (k : string) : outcome json :=
  match j with
  | JObj fields =>
      match field k fields with
      | Some v => Return v
      | None => Throw (Std (KeyError k))
      end
  | JArr _ => Throw (Std (TypeError "list indices must be integers or slices, not str"))
  | JStr _ => Throw (Std (TypeError "string indices must be integers"))
  | _ => Throw (Std (TypeError "object is not subscriptable"))
  end.

(** A code point of UTF-8 is its first byte and the bytes 10xxxxxx after it. *)
Definition is_continuation (c : ascii) : bool :=
  let n := nat_of_ascii c in Nat.leb 128 n && Nat.ltb n 192.

Fixpoint continuation_bytes (s : string) : string :=
  match s with
  | EmptyString => EmptyString
  | String c s' => if is_continuation c then String c (continuation_bytes s') else EmptyString
  end.

(** [j[0]]. *)
Definition getitem_0 (j : json) : outcome json :=
  match j with
  | JArr [] => Throw (IndexError "list index out of range")
  | JArr (x :: _) => Return x
  | JStr EmptyString => Throw (IndexError "string index out of range")
  | JStr (String c s) => Return (JStr (String c (continuation_bytes s)))
  | JObj _ => Throw (Std (KeyError "0"))
  | _ => Throw (Std (TypeError "object is not subscriptable"))
  end.

End Py.

(** ** The other accessors of [class CAISO] and the helpers below it *)

Module Feeds.

Import Calendar Base Frames Py.

Definition BASE : string := "https://www.caiso.com/outlook/SP".
Definition HISTORY_BASE : string := "https://www.caiso.com/outlook/SP/History".
Definition name : string := "California ISO".

(** The year, month and day of a [datetime.date] or of a [pd.Timestamp]:
    what [_make_timestamp] and [_get_historical] read of their date. *)
Record Date := { year : Z; month : Z; day : Z }.

(** [ts.date()] *)
Definition date_of (ts : Timestamp) : Date :=
  let '(y, m, d) := civil_from_days (wall ts / SECONDS_PER_DAY) in
  {| year := y; month := m; day := d |}.

(** [date.strftime("%Y%m%d")] *)
Definition strftime_Ymd (date : Date) : string :=
  pad 4 (year date) ++ pad 2 (month date) ++ pad 2 (day date).

Section Feeds.
Context {N : Type} `{Numbers N} {V : Type}.

Fixpoint distinct (l : list (scalar N)) : bool :=
  match l with
  | [] => true
  | x :: l' => negb (existsb (scalar_eqb x) l') && distinct l'
  end.

(** What [pd.read_csv] returns: a frame whose column names differ from one
    another (pandas renames a repeated name X to X.1, X.2, ...) and whose
    columns all have one entry per row. *)
Record CsvFrame := {
  frame : DataFrame N V;
  unique : distinct (labels frame) = true;
  rectangular :
    forallb (fun col => Nat.eqb (List.length (snd col)) (nrows frame)) (columns frame) = true
}.

(** Modelled from the spec: [GridStatus] of [isodata.base], which is not
    among the sources: the record of the keyword arguments it is built
    with; section 8 reads its status, reserves and time. *)
Record GridStatus := {
  gs_time : Timestamp;
  gs_status : json;
  gs_reserves : json;
  gs_iso : string
}.

(** Modelled from the spec: [FuelMix] of [isodata.base], which is not among
    the sources: the record of the keyword arguments it is built with. *)
Record FuelMix := {
  fm_time : Timestamp;
  fm_mix : list (scalar N * cell N V);
  fm_iso : string
}.

(** The dictionary [get_latest_demand] returns. *)
Record LatestDemand := {
  ld_time : Timestamp;
  ld_demand : cell N V
}.

(** The collaborators outside the file:
    - [read_csv n url]: [pd.read_csv(url)] as the [n]-th request of the
      process: the frame, or the exception it raises;
    - [get_json n url]: [ISOBase._get_json(url)], likewise;
    - [int s]: [int(s)] for a string, [None] when it raises [ValueError];
    - [new_Timestamp today hour minute zone]:
      [pd.Timestamp(year=today.year, month=today.month, day=today.day,
      hour=hour, minute=minute, tz=zone)];
    - [to_local_datetime x]:
      [pd.to_datetime(x).tz_localize("US/Pacific")]. *)
Record Sources := {
  read_csv : nat -> string -> outcome CsvFrame;
  get_json : nat -> string -> outcome json;
  int : string -> option Z;
  new_Timestamp : Date -> Z -> Z -> tzinfo -> outcome Timestamp;
  to_local_datetime : json -> outcome Timestamp
}.

Variable src : Sources.

Definition invalid_literal {A} (s : string) : outcome A :=
  Throw (Std (ValueError ("invalid literal for int() with base 10: '" ++ s ++ "'"))).

(** [_make_timestamp(time_str, today, timezone)], lines 280-289.  The
    parts of the string are converted as the unpacking asks for them: the
    first two, and a third, if there is one, to find that it is one too
    many. *)
Definition _make_timestamp (time_str : cell N V) (today : Date) (timezone : tzinfo)
    : outcome Timestamp :=
  match time_str with
  | Text s =>
      match split_on ":" s with
      | [] => Throw (Std (ValueError "not enough values to unpack (expected 2, got 0)"))
      | [h] =>
          match int src h with
          | None => invalid_literal h
          | Some _ =>
              Throw (Std (ValueError "not enough values to unpack (expected 2, got 1)"))
          end
      | h :: m :: rest =>
          match int src h with
          | None => invalid_literal h
          | Some hour =>
              match int src m with
              | None => invalid_literal m
              | Some minute =>
                  match rest with
                  | [] => new_Timestamp src today hour minute timezone
                  | x :: _ =>
                      match int src x with
                      | None => invalid_literal x
                      | Some _ =>
                          Throw (Std (ValueError "too many values to unpack (expected 2)"))
                      end
                  end
              end
          end
      end
  | _ => Throw (AttributeError "object has no attribute 'split'")
  end.

Local Notation "x <- m ;; k" := (pbind m (fun x => k))
  (at level 61, m at next level, right associativity).

(** [_get_historical(url, date)], lines 292-304; the template [url] is
    [prefix ++ "%s" ++ suffix], as its two callers pass it. *)
Definition _get_historical (prefix suffix : string) (date : Date) : P (DataFrame N V) :=
  let date_str := strftime_Ymd date in
  let date_obj := date in
  let url := prefix ++ date_str ++ suffix in
  csv <- http_get (read_csv src) url ;;
  let df := frame csv in
  match column "Time" df with
  | None => pthrow (Std (KeyError "Time"))
  | Some series =>
      times <- plift (apply_each (fun c => _make_timestamp c date_obj US_Pacific) series) ;;
      pret (setitem "Time" (map Stamp times) df)
  end.

(** [get_historical_fuel_mix(date)], lines 80-94, for the date that
    [utils._handle_date] made of its argument. *)
Definition get_historical_fuel_mix (date : Date) : P (DataFrame N V) :=
  _get_historical (HISTORY_BASE ++ "/") "/fuelsource.csv" date.

Definition isnull (c : cell N V) : bool :=
  match c with
  | Num None => true
  | _ => false
  end.

(** [df[mask]] for a boolean mask over the rows. *)
Definition boolean_index (mask : list bool) (df : DataFrame N V) : DataFrame N V :=
  {| nrows := List.length (filter (fun b => b) mask);
     columns := map (fun col => (fst col, keep mask (snd col))) (columns df) |}.

Fixpoint all_notnull (cols : list (scalar N * list (cell N V))) (mask : list bool)
    : list bool :=
  match cols with
  | [] => mask
  | col :: cols' =>
      map (fun cb => negb (isnull (fst cb)) && snd cb) (combine (snd col) (all_notnull cols' mask))
  end.

(** [df.dropna(subset=labels)]: the rows with a null in one of the columns
    named go. *)
Definition dropna_subset (subset : list string) (df : DataFrame N V)
    : outcome (DataFrame N V) :=
  match getitem_list subset df with
  | Raise e => Throw (Std e)
  | Ok cols => Return (boolean_index (all_notnull cols (repeat true (nrows df))) df)
  end.

(** [get_historical_demand(date)], lines 120-127, for the date that
    [utils._handle_date] made of its argument. *)
Definition get_historical_demand (date : Date) : P (DataFrame N V) :=
  df <- _get_historical (HISTORY_BASE ++ "/") "/demand.csv" date ;;
  df <- plift (of_result (select ["Time"; "Current demand"] df)) ;;
  let df := rename [(Str "Current demand", "Demand")] df in
  df <- plift (dropna_subset ["Demand"] df) ;;
  pret df.

(** [get_stats()], lines 37-40. *)
Definition get_stats : P json :=
  let stats_url := BASE ++ "/stats.txt" in
  r <- http_get (get_json src) stats_url ;;
  pret r.

(** [get_latest_status()], lines 42-55. *)
Definition get_latest_status : P GridStatus :=
  r <- get_stats ;;
  slot <- plift (getitem_str r "slotDate") ;;
  time <- plift (to_local_datetime src slot) ;;
  statuses <- plift (getitem_str r "gridstatus") ;;
  status <- plift (getitem_0 statuses) ;;
  reserves <- plift (getitem_str r "Current_reserve") ;;
  pret {| gs_time := time; gs_status := status; gs_reserves := reserves; gs_iso := name |}.

(** [_current_day()], lines 33-35. *)
Definition _current_day : P Date :=
  status <- get_latest_status ;;
  pret (date_of (gs_time status)).

(** [df.iloc[-1]]: the last row, as (label, value) pairs. *)
Definition iloc_last (df : DataFrame N V) : outcome (list (scalar N * cell N V)) :=
  match nrows df with
  | O => Throw (IndexError "single positional indexer is out-of-bounds")
  | S _ => Return (map (fun col => (fst col, last (snd col) (Num None))) (columns df))
  end.

(** [row[label]] *)
Definition row_get (row : list (scalar N * cell N V)) (label : string)
    : outcome (cell N V) :=
  match assoc (Str label) row with
  | Some c => Return c
  | None => Throw (Std (KeyError label))
  end.

(** [get_latest_demand()], lines 96-110. *)
Definition get_latest_demand : P LatestDemand :=
  let demand_url := BASE ++ "/demand.csv" in
  csv <- http_get (read_csv src) demand_url ;;
  let df := frame csv in
  match column "Current demand" df with
  | None => pthrow (Std (KeyError "Current demand"))
  | Some demand =>
      data <- plift (iloc_last (boolean_index (map (fun c => negb (isnull c)) demand) df)) ;;
      time_str <- plift (row_get data "Time") ;;
      today <- _current_day ;;
      time <- plift (_make_timestamp time_str today US_Pacific) ;;
      demand <- plift (row_get data "Current demand") ;;
      pret {| ld_time := time; ld_demand := demand |}
  end.

(** [d.pop(key)]: the value and the dictionary without the key. *)
Definition dict_pop (d : list (scalar N * cell N V)) (key : string)
    : outcome (cell N V * list (scalar N * cell N V)) :=
  match assoc (Str key) d with
  | Some c => Return (c, filter (fun kv => negb (scalar_eqb (Str key) (fst kv))) d)
  | None => Throw (Std (KeyError key))
  end.

(** [get_latest_fuel_mix()], lines 57-69. *)
Definition get_latest_fuel_mix : P FuelMix :=
  let url := BASE ++ "/fuelsource.csv" in
  csv <- http_get (read_csv src) url ;;
  let df := frame csv in
  mix <- plift (iloc_last df) ;;
  popped <- plift (dict_pop mix "Time") ;;
  let '(time_str, mix) := popped in
  today <- _current_day ;;
  time <- plift (_make_timestamp time_str today US_Pacific) ;;
  pret {| fm_time := time; fm_mix := mix; fm_iso := name |}.

End Feeds.

Arguments CsvFrame N {_} V.
Arguments FuelMix : clear implicits.
Arguments LatestDemand : clear implicits.
Arguments Sources N {_} V.

End Feeds.


(** ** A day of the outlook feeds *)

Module FeedScenario.

Import Calendar Effects Frames Py Feeds.

(** [int(s)] on the strings of these files: decimal digits, one at least. *)
Fixpoint decimal (s : string) (acc : Z) : option Z :=
  match s with
  | EmptyString => Some acc
  | String c s' =>
      let n := nat_of_ascii c in
      if Nat.leb 48 n && Nat.leb n 57
      then decimal s' (10 * acc + Z.of_nat (n - 48)%nat)
      else None
  end.

Definition int_of_digits (s : string) : option Z :=
  match s with
  | EmptyString => None
  | _ => decimal s 0
  end.

(** [pd.Timestamp(year=..., month=..., day=..., hour=..., minute=..., tz=...)]
    for a date of the calendar: the reading of the clock, attached to the
    zone; an hour or a minute off the clock raises. *)
Definition at_clock (today : Date) (hour minute : Z) (zone : tzinfo) : outcome Timestamp :=
  if (0 <=? hour) && (hour <? 24) then
    if (0 <=? minute) && (minute <? 60) then
      Return (tz_localize zone
                (days_from_civil (year today) (month today) (day today) * SECONDS_PER_DAY
                 + hour * 3600 + minute * 60))
    else Throw (Std (ValueError "minute must be in 0..59"))
  else Throw (Std (ValueError "hour must be in 0..23")).

Definition first_of_january : Date := {| year := 2023; month := 1; day := 1 |}.
Definition second_of_january : Date := {| year := 2023; month := 1; day := 2 |}.

Definition five_minutes : list (cell Z Z) :=
  [Text "00:00"; Text "00:05"; Text "00:10"; Text "00:15"].

(** demand.csv: the last row and the second have no demand yet. *)
Definition demand_csv : CsvFrame Z Z :=
  {| frame :=
       {| nrows := 4;
          columns :=
            [(Str "Time", five_minutes);
             (Str "Day ahead forecast",
              [Num (Some 21500); Num (Some 21400); Num (Some 21300); Num (Some 21200)]);
             (Str "Current demand",
              [Num (Some 21000); Num None; Num (Some 20900); Num None])] |};
     unique := eq_refl;
     rectangular := eq_refl |}.

(** demand.csv with no demand in any row. *)
Definition idle_demand_csv : CsvFrame Z Z :=
  {| frame :=
       {| nrows := 2;
          columns :=
            [(Str "Time", [Text "00:00"; Text "00:05"]);
             (Str "Current demand", [Num None; Num None])] |};
     unique := eq_refl;
     rectangular := eq_refl |}.

(** demand.csv whose second row has a time with seconds and no demand. *)
Definition seconds_demand_csv : CsvFrame Z Z :=
  {| frame :=
       {| nrows := 2;
          columns :=
            [(Str "Time", [Text "00:00"; Text "00:05:00"]);
             (Str "Current demand", [Num (Some 21000); Num None])] |};
     unique := eq_refl;
     rectangular := eq_refl |}.

(** fuelsource.csv: the last row has no wind figure. *)
Definition fuel_csv : CsvFrame Z Z :=
  {| frame :=
       {| nrows := 4;
          columns :=
            [(Str "Time", five_minutes);
             (Str "Solar", [Num (Some 0); Num (Some 0); Num (Some 0); Num (Some 0)]);
             (Str "Wind", [Num (Some 2400); Num (Some 2390); Num (Some 2385); Num None])] |};
     unique := eq_refl;
     rectangular := eq_refl |}.

(** What the outlook site serves: the live files of [live_demand] and of
    the fuel mix, the archive of 2023-01-01 and a demand file of
    2023-01-02. *)
Definition outlook (live_demand : CsvFrame Z Z) (url : string) : outcome (CsvFrame Z Z) :=
  if (url =? BASE ++ "/demand.csv")%string then Return live_demand
  else if (url =? BASE ++ "/fuelsource.csv")%string then Return fuel_csv
  else if (url =? HISTORY_BASE ++ "/20230101/demand.csv")%string then Return demand_csv
  else if (url =? HISTORY_BASE ++ "/20230101/fuelsource.csv")%string then Return fuel_csv
  else if (url =? HISTORY_BASE ++ "/20230102/demand.csv")%string then Return seconds_demand_csv
  else Throw (Std (ConnectionError "HTTP Error 404: Not Found")).

(** stats.txt of 2023-01-01, 00:15. *)
Definition stats : json :=
  JObj [("slotDate", JStr "2023-01-01 00:15:00");
        ("gridstatus", JArr [JStr "Normal"]);
        ("Current_reserve", JNum "3000")].

(** The same without its grid status. *)
Definition stats_without_status : json :=
  JObj [("slotDate", JStr "2023-01-01 00:15:00");
        ("Current_reserve", JNum "3000")].

(** The one date these payloads carry, read on the Pacific clock. *)
Definition slot_time (slot : json) : outcome Timestamp :=
  match slot with
  | JStr _ =>
      Return (tz_localize US_Pacific (days_from_civil 2023 1 1 * SECONDS_PER_DAY + 15 * 60))
  | _ => Throw (Std (TypeError "not convertible to datetime"))
  end.

Definition site (live_demand : CsvFrame Z Z) (payload : json) : Sources Z Z :=
  {| read_csv := fun _ url => outlook live_demand url;
     get_json := fun _ _ => Return payload;
     int := int_of_digits;
     new_Timestamp := at_clock;
     to_local_datetime := slot_time |}.

(** Midnight and after on 2023-01-01, Pacific standard time. *)
Definition pacific (minutes : Z) : Timestamp :=
  {| epoch := 1672560000 + minutes * 60; tz := US_Pacific |}.

End FeedScenario.

(** * Properties *)

(** ** Orders and [sort_uniq] *)

Module KeyFacts.

Module SF := OrdersFacts.OrderedTypeFacts String_as_OT.

Lemma str_cmp_order : total_order str_cmp.
Proof.
  split.
  - intros x y. exact (SF.compare_eq_iff x y).
  - intros x y. exact (SF.compare_antisym x y).
  - intros x y z Hxy Hyz. exact (SF.lt_trans Hxy Hyz).
Qed.

Lemma lex_order {A B} (ca : A -> A -> comparison) (cb : B -> B -> comparison) :
  total_order ca -> total_order cb -> total_order (lex ca cb).
Proof.
  intros [ea aa ta] [eb ab tb]. split.
  - intros [a b] [a' b']. unfold lex. simpl.
    destruct (ca a a') eqn:E.
    + apply ea in E. subst a'. rewrite eb. split; congruence.
    + split; [discriminate|]. intros H. inversion H; subst.
      assert (ca a' a' = Eq) by now apply ea. congruence.
    + split; [discriminate|]. intros H. inversion H; subst.
      assert (ca a' a' = Eq) by now apply ea. congruence.
  - intros [a b] [a' b']. unfold lex. simpl.
    rewrite (aa a a'). destruct (ca a a'); simpl; auto.
  - intros [a b] [a' b'] [a'' b'']. unfold lex. simpl.
    destruct (ca a a') eqn:E1; try discriminate.
    + apply ea in E1. subst a'.
      destruct (ca a a'') eqn:E2; try discriminate; auto.
      apply tb.
    + destruct (ca a' a'') eqn:E2; try discriminate.
      * apply ea in E2. subst a''. now rewrite E1.
      * now rewrite (ta _ _ _ E1 E2).
Qed.

Section ScalarFacts.
Context {N : Type} {num : Numbers N}.

Lemma scalar_cmp_order : total_order (scalar_cmp (N := N)).
Proof.
  destruct str_cmp_order as [es as_ ts]. destruct num_order as [en an tn]. split.
  - intros [s|x] [t|y]; simpl.
    + rewrite es. split; congruence.
    + split; discriminate.
    + split; discriminate.
    + rewrite en. split; congruence.
  - intros [s|x] [t|y]; simpl; auto.
  - intros [s|x] [t|y] [u|z]; simpl; try discriminate; auto.
    + apply ts.
    + apply tn.
Qed.

Lemma row_key_order : total_order (row_key_cmp (N := N)).
Proof. apply lex_order; apply scalar_cmp_order. Qed.

Lemma group_key_order : total_order (group_key_cmp (N := N)).
Proof. apply lex_order; [apply row_key_order | apply scalar_cmp_order]. Qed.

Lemma scalar_eqb_eq (a b : scalar N) : scalar_eqb a b = true <-> a = b.
Proof.
  unfold scalar_eqb. rewrite <- (cmp_eq _ scalar_cmp_order).
  destruct (scalar_cmp a b); split; congruence.
Qed.

Lemma scalar_eqb_refl (a : scalar N) : scalar_eqb a a = true.
Proof. now apply scalar_eqb_eq. Qed.

Lemma scalar_eqb_spec (a b : scalar N) : reflect (a = b) (scalar_eqb a b).
Proof. apply iff_reflect. symmetry. apply scalar_eqb_eq. Qed.

Lemma scalar_eqb_neq (a b : scalar N) : scalar_eqb a b = false <-> a <> b.
Proof. destruct (scalar_eqb_spec a b); split; congruence. Qed.

(** Among names, labels are told apart as strings are. *)
Lemma Str_eqb (s t : string) : scalar_eqb (Str s) (Str t : scalar N) = String.eqb s t.
Proof.
  destruct (scalar_eqb_spec (Str s) (Str t : scalar N)) as [E|E];
    destruct (String.eqb_spec s t); congruence.
Qed.

Lemma row_key_eqb_eq (a b : row_key N) : row_key_eqb a b = true <-> a = b.
Proof.
  unfold row_key_eqb. rewrite <- (cmp_eq _ row_key_order).
  destruct (row_key_cmp a b); split; congruence.
Qed.

Lemma group_key_eqb_eq (a b : group_key N) : group_key_eqb a b = true <-> a = b.
Proof.
  unfold group_key_eqb. rewrite <- (cmp_eq _ group_key_order).
  destruct (group_key_cmp a b); split; congruence.
Qed.

Lemma group_key_eqb_refl (a : group_key N) : group_key_eqb a a = true.
Proof. now apply group_key_eqb_eq. Qed.

Lemma row_key_eqb_refl (a : row_key N) : row_key_eqb a a = true.
Proof. now apply row_key_eqb_eq. Qed.

End ScalarFacts.

Section SortUniqFacts.
Context {A : Type} (cmp : A -> A -> comparison) (ord : total_order cmp).

Let lt (x y : A) : Prop := cmp x y = Lt.

Lemma cmp_refl x : cmp x x = Eq.
Proof. now apply (cmp_eq _ ord). Qed.

Lemma cmp_gt_lt x y : cmp x y = Gt -> cmp y x = Lt.
Proof. intros H. rewrite (cmp_antisym _ ord), H. reflexivity. Qed.

Lemma in_insert_uniq x y l : In y (insert_uniq cmp x l) <-> y = x \/ In y l.
Proof.
  induction l as [|z l IH]; simpl.
  - intuition.
  - destruct (cmp x z) eqn:E; simpl.
    + apply (cmp_eq _ ord) in E. subst z. intuition.
    + intuition.
    + rewrite IH. intuition.
Qed.

Lemma in_sort_uniq y l : In y (sort_uniq cmp l) <-> In y l.
Proof.
  induction l as [|x l IH]; simpl; [reflexivity|].
  rewrite in_insert_uniq, IH. intuition.
Qed.

Lemma sorted_insert_uniq x l :
  StronglySorted lt l -> StronglySorted lt (insert_uniq cmp x l).
Proof.
  induction 1 as [|z l Hs IH Hall]; simpl.
  - repeat constructor.
  - destruct (cmp x z) eqn:E.
    + now constructor.
    + constructor; [now constructor|]. constructor; [exact E|].
      rewrite Forall_forall in *. intros u Hu.
      exact (cmp_trans _ ord _ _ _ E (Hall u Hu)).
    + constructor; [exact IH|].
      rewrite Forall_forall in *. intros u Hu.
      apply in_insert_uniq in Hu. destruct Hu as [->|Hu].
      * now apply cmp_gt_lt.
      * now apply Hall.
Qed.

Lemma sorted_sort_uniq l : StronglySorted lt (sort_uniq cmp l).
Proof.
  induction l as [|x l IH]; simpl; [constructor|].
  now apply sorted_insert_uniq.
Qed.

Lemma sorted_head_not_in x l : StronglySorted lt (x :: l) -> ~ In x l.
Proof.
  intros Hs Hin. inversion Hs as [|? ? _ Hall]; subst.
  rewrite Forall_forall in Hall. specialize (Hall x Hin).
  unfold lt in Hall. rewrite cmp_refl in Hall. discriminate.
Qed.

Lemma sorted_NoDup l : StronglySorted lt l -> NoDup l.
Proof.
  induction l as [|x l IH]; intros Hs; constructor.
  - now apply sorted_head_not_in.
  - apply IH. now inversion Hs.
Qed.

(** A strictly ascending list is determined by its elements. *)
Lemma sorted_ext l1 : forall l2,
  StronglySorted lt l1 -> StronglySorted lt l2 ->
  (forall x, In x l1 <-> In x l2) -> l1 = l2.
Proof.
  induction l1 as [|a l1 IH]; intros [|b l2] H1 H2 Hin.
  - reflexivity.
  - exfalso. apply (proj2 (Hin b)). now left.
  - exfalso. apply (proj1 (Hin a)). now left.
  - pose proof (sorted_head_not_in _ _ H1) as Na.
    pose proof (sorted_head_not_in _ _ H2) as Nb.
    inversion H1 as [|? ? S1 F1]; inversion H2 as [|? ? S2 F2]; subst.
    rewrite Forall_forall in F1, F2.
    assert (a = b) as ->.
    { destruct (proj1 (Hin a) (or_introl eq_refl)) as [E|Ha]; [now symmetry|].
      destruct (proj2 (Hin b) (or_introl eq_refl)) as [E|Hb]; [exact E|].
      specialize (F1 _ Hb). specialize (F2 _ Ha). unfold lt in F1, F2.
      pose proof (cmp_trans _ ord _ _ _ F1 F2) as C.
      rewrite cmp_refl in C. discriminate. }
    f_equal. apply IH; auto.
    intros x. split; intros Hx.
    + destruct (proj1 (Hin x) (or_intror Hx)) as [E|H]; [|exact H].
      subst x. contradiction.
    + destruct (proj2 (Hin x) (or_intror Hx)) as [E|H]; [|exact H].
      subst x. contradiction.
Qed.

Lemma sort_uniq_ext l l' :
  (forall x, In x l <-> In x l') -> sort_uniq cmp l = sort_uniq cmp l'.
Proof.
  intros H. apply sorted_ext; try apply sorted_sort_uniq.
  intros x. now rewrite !in_sort_uniq.
Qed.

End SortUniqFacts.

End KeyFacts.

(** ** The pivot *)

Module PivotFacts.

Import Frames KeyFacts.

Section PivotFacts.
Context {N : Type} {num : Numbers N} {V : Type}.
Implicit Types (data : list (raw_row N V)) (k : group_key N) (r : raw_row N V).

Lemma has_key_iff k r : has_key k r = true <-> key_of r = Some k.
Proof.
  unfold has_key. destruct (key_of r) as [k'|].
  - rewrite group_key_eqb_eq. split; congruence.
  - split; discriminate.
Qed.

Lemma in_keys_of data k :
  In k (keys_of data) <-> exists r, In r data /\ key_of r = Some k.
Proof.
  induction data as [|r0 data IH]; simpl.
  - split; [tauto | intros (r & [] & _)].
  - destruct (key_of r0) as [k0|] eqn:E; simpl; rewrite IH; split.
    + intros [->|(r & Hr & Hk)]; eauto.
    + intros (r & [->|Hr] & Hk); [left; congruence | eauto].
    + intros (r & Hr & Hk); eauto.
    + intros (r & [->|Hr] & Hk); [congruence | eauto].
Qed.

Lemma first_some (l : list (option V)) v : first l = Some v -> In (Some v) l.
Proof.
  induction l as [|[u|] l IH]; simpl; intros H.
  - discriminate.
  - left. exact H.
  - right. auto.
Qed.

Lemma first_none (l : list (option V)) : first l = None -> forall v, ~ In (Some v) l.
Proof.
  induction l as [|[u|] l IH]; simpl; intros H v.
  - tauto.
  - discriminate.
  - intros [E|Hin]; [discriminate | exact (IH H v Hin)].
Qed.

(** The first valid price wins, whatever follows it. *)
Lemma first_app_valid (pre post : list (option V)) v :
  (forall x, In x pre -> x = None) -> first (pre ++ Some v :: post) = Some v.
Proof.
  induction pre as [|[u|] pre IH]; simpl; intros H.
  - reflexivity.
  - specialize (H (Some u) (or_introl eq_refl)). discriminate.
  - apply IH. auto.
Qed.

Lemma cell_of_some data k v :
  cell_of data k = Some v ->
  exists r, In r data /\ key_of r = Some k /\ PRICE r = Some v.
Proof.
  intros H. apply first_some in H. apply in_map_iff in H.
  destruct H as (r & Hp & Hin). apply filter_In in Hin.
  destruct Hin as [Hin Hk]. apply has_key_iff in Hk. eauto.
Qed.

Lemma cell_of_priced data k r v :
  In r data -> key_of r = Some k -> PRICE r = Some v ->
  exists v', cell_of data k = Some v'.
Proof.
  intros Hin Hk Hp. destruct (cell_of data k) as [v'|] eqn:E; [eauto|].
  exfalso. apply (first_none _ E v). apply in_map_iff.
  exists r. split; [exact Hp|]. apply filter_In. split; [exact Hin|].
  now apply has_key_iff.
Qed.

Lemma cell_of_absent data k : ~ In k (keys_of data) -> cell_of data k = None.
Proof.
  intros Hn. destruct (cell_of data k) as [v|] eqn:E; [|reflexivity].
  exfalso. apply Hn. apply cell_of_some in E. destruct E as (r & Hin & Hk & _).
  apply in_keys_of. eauto.
Qed.

Lemma agg_first_groupby data :
  agg_first (groupby data)
  = map (fun k => (k, cell_of data k)) (sort_uniq group_key_cmp (keys_of data)).
Proof. unfold agg_first, groupby. rewrite map_map. reflexivity. Qed.

Lemma lookup_tabulated_none k (f : group_key N -> option V) (ks : list (group_key N)) :
  f k = None -> lookup k (dropna_rows (map (fun k => (k, f k)) ks)) = None.
Proof.
  intros E0. induction ks as [|k1 ks IH]; simpl; [reflexivity|].
  destruct (f k1) as [v|] eqn:E1; simpl; [|exact IH].
  destruct (group_key_eqb k k1) eqn:E; [|exact IH].
  apply group_key_eqb_eq in E. congruence.
Qed.

Lemma lookup_tabulated_in k (f : group_key N -> option V) (ks : list (group_key N)) :
  In k ks -> lookup k (dropna_rows (map (fun k => (k, f k)) ks)) = f k.
Proof.
  induction ks as [|k0 ks IH]; simpl; [tauto|].
  intros Hin. destruct (f k0) as [v|] eqn:E0; simpl.
  - destruct (group_key_eqb k k0) eqn:E.
    + apply group_key_eqb_eq in E. congruence.
    + apply IH. destruct Hin as [->|Hin]; [|exact Hin].
      rewrite group_key_eqb_refl in E. discriminate.
  - destruct Hin as [->|Hin]; [|now apply IH].
    rewrite E0. now apply lookup_tabulated_none.
Qed.

Lemma lookup_tabulated_out k (f : group_key N -> option V) (ks : list (group_key N)) :
  ~ In k ks -> lookup k (dropna_rows (map (fun k => (k, f k)) ks)) = None.
Proof.
  induction ks as [|k0 ks IH]; simpl; [reflexivity|].
  intros Hn. destruct (f k0) as [v|] eqn:E0; simpl.
  - destruct (group_key_eqb k k0) eqn:E.
    + apply group_key_eqb_eq in E. subst k0. tauto.
    + apply IH. tauto.
  - apply IH. tauto.
Qed.

(** Looking a key up in the aggregate gives [cell_of], for every key. *)
Lemma lookup_agged data k : lookup k (agged data) = cell_of data k.
Proof.
  unfold agged. rewrite agg_first_groupby.
  destruct (in_dec (fun a b : group_key N =>
                      Bool.reflect_dec _ _ (iff_reflect _ _ (iff_sym (group_key_eqb_eq a b))))
                   k (keys_of data)) as [Hin|Hn].
  - apply lookup_tabulated_in. now apply (in_sort_uniq _ group_key_order).
  - rewrite lookup_tabulated_out.
    + symmetry. now apply cell_of_absent.
    + intros Hin. apply Hn. exact (proj1 (in_sort_uniq _ group_key_order _ _) Hin).
Qed.

Lemma in_agged data g :
  In g (agged data) <-> exists v, snd g = Some v /\ cell_of data (fst g) = Some v.
Proof.
  unfold agged. rewrite agg_first_groupby. unfold dropna_rows.
  rewrite filter_In, in_map_iff. split.
  - intros ((k & <- & _) & Hv). simpl in *.
    destruct (cell_of data k) as [v|]; [eauto | discriminate].
  - intros (v & Hs & Hc). destruct g as [k o]. simpl in *. subst o. split.
    + exists k. split; [now rewrite Hc|].
      apply (in_sort_uniq _ group_key_order). apply in_keys_of.
      apply cell_of_some in Hc. destruct Hc as (r & ? & ? & _). eauto.
    + reflexivity.
Qed.

Lemma index_pivot data :
  index (pivot_table data)
  = sort_uniq row_key_cmp (map (fun g => fst (fst g)) (agged data)).
Proof. reflexivity. Qed.

Lemma in_index data rk :
  In rk (index (pivot_table data)) <-> exists c v, cell_of data (rk, c) = Some v.
Proof.
  rewrite index_pivot, (in_sort_uniq _ row_key_order), in_map_iff. split.
  - intros ([[rk' c] o] & <- & Hin). apply in_agged in Hin.
    destruct Hin as (v & _ & Hc). simpl in *. eauto.
  - intros (c & v & Hc). exists ((rk, c), Some v). split; [reflexivity|].
    apply in_agged. simpl. eauto.
Qed.

Lemma in_unstacked_labels data c :
  In c (unstacked_labels data) <-> exists rk v, cell_of data (rk, c) = Some v.
Proof.
  unfold unstacked_labels.
  rewrite (in_sort_uniq _ scalar_cmp_order), in_map_iff. split.
  - intros ([[rk c'] o] & <- & Hin). apply in_agged in Hin.
    destruct Hin as (v & _ & Hc). simpl in *. eauto.
  - intros (rk & v & Hc). exists ((rk, c), Some v). split; [reflexivity|].
    apply in_agged. simpl. eauto.
Qed.

Lemma filter_all {B} (p : B -> bool) (l : list B) :
  (forall x, In x l -> p x = true) -> filter p l = l.
Proof.
  induction l as [|x l IH]; simpl; intros H; [reflexivity|].
  rewrite (H x (or_introl eq_refl)). f_equal. apply IH. auto.
Qed.

(** No column of the unstacked table is null throughout, so the last
    step of [pivot_table] removes nothing. *)
Lemma values_pivot data :
  values (pivot_table data)
  = map (fun c => (c, map (fun rk => cell_of data (rk, c)) (index (pivot_table data))))
        (unstacked_labels data).
Proof.
  unfold pivot_table, dropna_columns. simpl values. simpl index.
  fold (agged data). fold (unstacked_labels data).
  rewrite filter_all.
  - apply map_ext. intros c. f_equal. apply map_ext. intros rk.
    apply lookup_agged.
  - intros col Hin. apply in_map_iff in Hin. destruct Hin as (c & <- & Hc).
    simpl. apply in_unstacked_labels in Hc. destruct Hc as (rk & v & Hc).
    apply existsb_exists. exists (Some v). split; [|reflexivity].
    apply in_map_iff. exists rk. split; [now rewrite lookup_agged|].
    change (In rk (index (pivot_table data))). apply in_index. eauto.
Qed.

Lemma labels_pivot data : map fst (values (pivot_table data)) = unstacked_labels data.
Proof. rewrite values_pivot, map_map. simpl. apply map_id. Qed.

Lemma labels_pivot_NoDup data : NoDup (map fst (values (pivot_table data))).
Proof.
  rewrite labels_pivot. apply (sorted_NoDup _ scalar_cmp_order).
  apply sorted_sort_uniq. apply scalar_cmp_order.
Qed.

Lemma at_key_in (f : row_key N -> option V) rk (idx : list (row_key N)) :
  In rk idx -> at_key rk idx (map f idx) = Some (f rk).
Proof.
  induction idx as [|rk0 idx IH]; simpl; [tauto|].
  intros Hin. destruct (row_key_eqb rk rk0) eqn:E.
  - apply row_key_eqb_eq in E. now subst.
  - apply IH. destruct Hin as [->|Hin]; [|exact Hin].
    rewrite row_key_eqb_refl in E. discriminate.
Qed.

Lemma at_key_some (f : row_key N -> option V) rk (idx : list (row_key N)) x :
  at_key rk idx (map f idx) = Some x -> In rk idx /\ x = f rk.
Proof.
  induction idx as [|rk0 idx IH]; simpl; [discriminate|].
  destruct (row_key_eqb rk rk0) eqn:E.
  - apply row_key_eqb_eq in E. subst. intros [= <-]. auto.
  - intros H. destruct (IH H). auto.
Qed.

Lemma assoc_in {B} (g : scalar N -> B) c (ls : list (scalar N)) :
  In c ls -> assoc c (map (fun c => (c, g c)) ls) = Some (g c).
Proof.
  induction ls as [|c0 ls IH]; simpl; [tauto|].
  intros Hin. destruct (scalar_eqb_spec c c0) as [->|Hne]; [reflexivity|].
  apply IH. destruct Hin as [->|Hin]; [congruence | exact Hin].
Qed.

Lemma assoc_some {B} (g : scalar N -> B) c (ls : list (scalar N)) x :
  assoc c (map (fun c => (c, g c)) ls) = Some x -> In c ls /\ x = g c.
Proof.
  induction ls as [|c0 ls IH]; simpl; [discriminate|].
  destruct (scalar_eqb_spec c c0) as [->|Hne].
  - intros [= <-]. auto.
  - intros H. destruct (IH H). auto.
Qed.

(** The table's entry at a row and a column it has. *)
Lemma pivot_cell_in data rk c :
  In rk (index (pivot_table data)) -> In c (unstacked_labels data) ->
  pivot_cell (pivot_table data) rk c = Some (cell_of data (rk, c)).
Proof.
  intros Hrk Hc. unfold pivot_cell. rewrite values_pivot.
  rewrite (assoc_in (fun c => map (fun rk => cell_of data (rk, c)) _) c _ Hc).
  cbv beta. exact (at_key_in (fun rk => cell_of data (rk, c)) rk _ Hrk).
Qed.

Lemma pivot_cell_some data rk c x :
  pivot_cell (pivot_table data) rk c = Some x -> x = cell_of data (rk, c).
Proof.
  unfold pivot_cell. rewrite values_pivot.
  destruct (assoc c _) as [col|] eqn:E; [|discriminate].
  apply assoc_some in E. destruct E as [_ ->]. intros H.
  apply at_key_some in H. tauto.
Qed.

(** A key with a valid price has its row, its column and its entry. *)
Lemma pivot_cell_valid data rk c v :
  cell_of data (rk, c) = Some v ->
  pivot_cell (pivot_table data) rk c = Some (Some v).
Proof.
  intros H. rewrite pivot_cell_in; [f_equal; exact H| |].
  - apply in_index. eauto.
  - apply in_unstacked_labels. eauto.
Qed.

Lemma index_sorted data :
  StronglySorted row_key_lt (index (pivot_table data)).
Proof. rewrite index_pivot. apply sorted_sort_uniq. apply row_key_order. Qed.

Lemma cell_of_some_iff data k :
  (exists v, cell_of data k = Some v)
  <-> exists r v, In r data /\ key_of r = Some k /\ PRICE r = Some v.
Proof.
  split.
  - intros (v & H). apply cell_of_some in H. destruct H as (r & ?). eauto.
  - intros (r & v & Hin & Hk & Hp). eapply cell_of_priced; eauto.
Qed.

(** The index depends on which rows there are, not on their order. *)
Lemma index_ext data data' :
  (forall r, In r data <-> In r data') ->
  index (pivot_table data) = index (pivot_table data').
Proof.
  intros H. apply (sorted_ext _ row_key_order); try apply index_sorted.
  intros rk. rewrite !in_index.
  assert (Hc : forall d d' : list (raw_row N V), (forall r, In r d -> In r d') ->
            (exists c v, cell_of d (rk, c) = Some v) ->
            exists c v, cell_of d' (rk, c) = Some v).
  { intros d d' Hd (c & v & Hv). exists c. apply cell_of_some_iff.
    apply cell_of_some in Hv. destruct Hv as (r & Hin & Hk & Hp).
    exists r, v. auto. }
  split; apply Hc; intros r; apply H.
Qed.

End PivotFacts.

End PivotFacts.

(** ** Frames: column assignment, selection and renaming *)

Module FrameFacts.

Import Calendar Base Frames KeyFacts.

Section FrameFacts.
Context {N : Type} {num : Numbers N} {V : Type}.
Implicit Types (df : DataFrame N V) (cols : list (scalar N * list (cell N V))) (l : string).

Lemma labelled_true l (c : scalar N * list (cell N V)) : labelled l c = true <-> fst c = Str l.
Proof. unfold labelled. rewrite scalar_eqb_eq. split; congruence. Qed.

Lemma mem_false_filter l cols :
  mem l (map fst cols) = false -> filter (labelled l) cols = [].
Proof.
  induction cols as [|c cols IH]; simpl; [reflexivity|].
  unfold labelled at 1. destruct (scalar_eqb (Str l) (fst c)); simpl; [discriminate | exact IH].
Qed.

Lemma mem_true_filter l cols :
  mem l (map fst cols) = true -> filter (labelled l) cols <> [].
Proof.
  induction cols as [|c cols IH]; simpl; [discriminate|].
  unfold labelled at 1. destruct (scalar_eqb (Str l) (fst c)); simpl; [discriminate | exact IH].
Qed.

Lemma filter_replace l col cols :
  filter (labelled l) (map (fun c => if labelled l c then (Str l, col) else c) cols)
  = map (fun _ => (Str l, col)) (filter (labelled l) cols).
Proof.
  induction cols as [|c cols IH]; simpl; [reflexivity|].
  destruct (labelled l c) eqn:E; simpl.
  - unfold labelled at 1. cbn [fst]. rewrite scalar_eqb_refl. simpl. now f_equal.
  - rewrite E. exact IH.
Qed.

Lemma filter_replace_other l l' col cols :
  l <> l' ->
  filter (labelled l') (map (fun c => if labelled l c then (Str l, col) else c) cols)
  = filter (labelled l') cols.
Proof.
  intros Hne. induction cols as [|c cols IH]; simpl; [reflexivity|].
  destruct (labelled l c) eqn:E; simpl.
  - apply labelled_true in E.
    assert (labelled l' c = false) as ->.
    { unfold labelled. apply scalar_eqb_neq. congruence. }
    assert (labelled l' (Str l, col) = false) as ->.
    { unfold labelled. cbn [fst]. apply scalar_eqb_neq. congruence. }
    exact IH.
  - destruct (labelled l' c); [now f_equal | exact IH].
Qed.

(** After [df[l] = col], the columns labelled [l] all hold [col], and
    there is at least one. *)
Lemma filter_setitem l col df :
  filter (labelled l) (columns (setitem l col df))
  = match filter (labelled l) (columns df) with
    | [] => [(Str l, col)]
    | c :: cs => map (fun _ => (Str l, col)) (c :: cs)
    end.
Proof.
  unfold setitem, labels. simpl columns.
  destruct (mem l (map fst (columns df))) eqn:E.
  - rewrite filter_replace. apply mem_true_filter in E.
    destruct (filter (labelled l) (columns df)); [contradiction | reflexivity].
  - rewrite filter_app, (mem_false_filter _ _ E). simpl.
    unfold labelled. cbn [fst]. now rewrite scalar_eqb_refl.
Qed.

(** ... and the columns with another label are as before. *)
Lemma filter_setitem_other l l' col df :
  l <> l' ->
  filter (labelled l') (columns (setitem l col df)) = filter (labelled l') (columns df).
Proof.
  intros Hne. unfold setitem, labels. simpl columns.
  destruct (mem l (map fst (columns df))).
  - now apply filter_replace_other.
  - rewrite filter_app. simpl. unfold labelled at 2. cbn [fst].
    destruct (scalar_eqb_spec (Str l') (Str l : scalar N)) as [E|_]; [congruence|].
    apply app_nil_r.
Qed.

Lemma nrows_setitem l col df : nrows (setitem l col df) = nrows df.
Proof. reflexivity. Qed.

(** A successful selection is the columns of each label in turn, none
    of them missing. *)
Lemma getitem_list_ok ls df cols :
  getitem_list ls df = Ok cols ->
  cols = flat_map (fun l => filter (labelled l) (columns df)) ls
  /\ Forall (fun l => filter (labelled l) (columns df) <> []) ls.
Proof.
  revert cols. induction ls as [|l ls IH]; simpl; intros cols H.
  - inversion H. auto.
  - destruct (filter (labelled l) (columns df)) as [|c cs] eqn:E; [discriminate|].
    destruct (getitem_list ls df) as [rest|e]; [|discriminate].
    inversion H; subst. destruct (IH rest eq_refl) as [-> F]. split; [reflexivity|].
    constructor; [rewrite E; discriminate | exact F].
Qed.

Lemma getitem_list_missing ls df l :
  In l ls -> filter (labelled l) (columns df) = [] ->
  exists e, getitem_list ls df = Raise e.
Proof.
  induction ls as [|l0 ls IH]; simpl; [tauto|].
  intros [->|Hin] Hm.
  - rewrite Hm. eauto.
  - destruct (filter (labelled l0) (columns df)); [eauto|].
    destruct (IH Hin Hm) as [e ->]. eauto.
Qed.

Lemma filter_labelled_labels l cols :
  map fst (filter (labelled l) cols)
  = repeat (Str l) (List.length (filter (labelled l) cols)).
Proof.
  induction cols as [|c cols IH]; simpl; [reflexivity|].
  destruct (labelled l c) eqn:E; simpl; [|exact IH].
  apply labelled_true in E. now rewrite E, IH.
Qed.

Lemma assoc_skip {B} (k : scalar N) (pre rest : list (scalar N * B)) :
  (forall c, In c pre -> fst c <> k) -> assoc k (pre ++ rest)%list = assoc k rest.
Proof.
  induction pre as [|[l0 b] pre IH]; simpl; intros H; [reflexivity|].
  destruct (scalar_eqb_spec k l0) as [->|_].
  - exfalso. exact (H (l0, b) (or_introl eq_refl) eq_refl).
  - apply IH. auto.
Qed.

Lemma rename_label_inv (mapper : list (scalar N * string)) (k t : scalar N) :
  rename_label mapper k = t -> k = t \/ exists s, t = Str s /\ In (k, s) mapper.
Proof.
  unfold rename_label. induction mapper as [|[a b] mapper IH]; simpl.
  - auto.
  - destruct (scalar_eqb_spec k a) as [->|_].
    + intros <-. right. exists b. auto.
    + intros E. destruct (IH E) as [E'|(s & Es & Hin)]; [auto|].
      right. exists s. auto.
Qed.

Lemma filter_none {B} (p : B -> bool) (l : list B) :
  (forall x, In x l -> p x = false) -> filter p l = [].
Proof.
  induction l as [|x l IH]; simpl; intros H; [reflexivity|].
  rewrite (H x (or_introl eq_refl)). apply IH. auto.
Qed.

(** Among columns with distinct labels, at most one is renamed to [t]
    when [t] has a single preimage [src] among the labels. *)
Lemma filter_renamed_le1 (f : scalar N -> scalar N) {B C} (g : scalar N * B -> C)
    (t src : scalar N) (cols : list (scalar N * B)) :
  NoDup (map fst cols) ->
  (forall c, In c cols -> f (fst c) = t -> fst c = src) ->
  (List.length (filter (fun c : scalar N * C => scalar_eqb t (fst c))
                       (map (fun c => (f (fst c), g c)) cols)) <= 1)%nat.
Proof.
  induction cols as [|c cols IH]; simpl; intros Hnd Hsrc; [lia|].
  inversion Hnd as [|? ? Hn Hnd']; subst.
  destruct (scalar_eqb_spec t (f (fst c))) as [E|_]; simpl.
  - assert (Hz : filter (fun c0 : scalar N * C => scalar_eqb t (fst c0))
                   (map (fun c0 => (f (fst c0), g c0)) cols) = []).
    { apply filter_none. intros x Hx. apply in_map_iff in Hx.
      destruct Hx as (c' & <- & Hc'). simpl.
      destruct (scalar_eqb_spec t (f (fst c'))) as [E'|_]; [|reflexivity].
      exfalso. apply Hn. apply in_map_iff. exists c'. split; [|exact Hc'].
      rewrite (Hsrc c (or_introl eq_refl) (eq_sym E)).
      apply (Hsrc c' (or_intror Hc')). now symmetry. }
    rewrite Hz. simpl. lia.
  - apply IH; auto.
Qed.

(** A conversion of the time column that succeeds put, in each entry's
    place, the instant read in it, shown in the zone. *)
Lemma to_datetime_tz_ok (to_datetime : list (cell N V) -> result (cell N V -> Z)) zone
    (series times : list (cell N V)) :
  to_datetime_tz to_datetime zone series = Ok times ->
  exists instant,
    to_datetime series = Ok instant
    /\ times = map (fun c => Stamp {| epoch := instant c; tz := zone |}) series.
Proof.
  unfold to_datetime_tz. destruct (to_datetime series) as [instant|e]; [|discriminate].
  intros [= <-]. exists instant. split; reflexivity.
Qed.

Lemma In_keep {B} (x : B) (f : B -> bool) (l : list B) :
  In x (keep (map f l) l) -> f x = true.
Proof.
  induction l as [|y l IH]; simpl; [tauto|].
  destruct (f y) eqn:E; simpl.
  - intros [<-|H]; auto.
  - auto.
Qed.

End FrameFacts.

End FrameFacts.

(** ** The method *)

Module MethodFacts.

Import Calendar Base Frames CAISO FrameFacts PivotFacts KeyFacts.

Section MethodFacts.
Context {N : Type} {num : Numbers N} {V : Type} (env : Env N V).

Lemma reset_index_rename (p : Pivot N V) df0 :
  reset_index p = Ok df0 ->
  mem "NODE" (map fst (values p)) = false
  /\ nrows (rename canonical_names df0) = List.length (index p)
  /\ columns (rename canonical_names df0)
     = (Str "Time", time_column p) :: (Str "Node", node_column p) :: renamed p.
Proof.
  unfold reset_index.
  destruct (mem "NODE" (map fst (values p))); [discriminate|].
  destruct (mem "INTERVALSTARTTIME_GMT" (map fst (values p))); [discriminate|].
  intros [= <-]. repeat split. unfold rename, renamed, time_column, node_column.
  cbn [columns map fst snd]. rewrite !map_map. reflexivity.
Qed.

Lemma filter_head2 l (a b : list (cell N V)) vals :
  filter (labelled l) ((Str "Time", a) :: (Str "Node", b) :: vals)
  = ((if String.eqb l "Time" then [(Str "Time", a)] else [])
     ++ (if String.eqb l "Node" then [(Str "Node", b)] else [])
     ++ filter (labelled l) vals)%list.
Proof.
  cbn [filter].
  assert (E : forall (s : string) (c : list (cell N V)),
            labelled l (Str s, c) = String.eqb l s)
    by (intros; apply Str_eqb).
  rewrite !E. destruct (String.eqb l "Time"), (String.eqb l "Node"); reflexivity.
Qed.

(** What a successful normalization looks like. *)
Lemma normalize_ok market p df :
  normalize env market p = Ok df ->
  exists instant,
    to_datetime env (time_column p) = Ok instant
    /\ mem "NODE" (map fst (values p)) = false
    /\ nrows df = List.length (index p)
    /\ columns df
       = ((Str "Time",
           map (fun c => Stamp {| epoch := instant c; tz := default_timezone |})
               (time_column p))
          :: market_columns market p
          ++ (Str "Node", node_column p) :: filter (labelled "Node") (renamed p)
          ++ filter (labelled "LMP") (renamed p)
          ++ filter (labelled "Energy") (renamed p)
          ++ filter (labelled "Congestion") (renamed p)
          ++ filter (labelled "Loss") (renamed p))%list
    /\ filter (labelled "LMP") (renamed p) <> []
    /\ filter (labelled "Energy") (renamed p) <> []
    /\ filter (labelled "Congestion") (renamed p) <> []
    /\ filter (labelled "Loss") (renamed p) <> [].
Proof.
  unfold normalize. destruct (reset_index p) as [df0|e] eqn:R; [|discriminate].
  destruct (reset_index_rename _ _ R) as (Hnode & Hn & Hc).
  set (df1 := rename canonical_names df0) in *.
  rewrite Hc at 1. rewrite filter_head2. simpl app.
  destruct (filter (labelled "Time") (renamed p)) as [|c cs] eqn:Ht; [|discriminate].
  destruct (to_datetime_tz _ _ _) as [times|e] eqn:Hd; [|discriminate].
  apply to_datetime_tz_ok in Hd. destruct Hd as (instant & Hes & ->).
  cbv zeta.
  match goal with |- context [select _ ?d] => set (df2 := d) end.
  assert (Hn2 : nrows df2 = List.length (index p)).
  { subst df2. rewrite !nrows_setitem. exact Hn. }
  assert (Hf : forall l, l <> "Market" -> l <> "Time" ->
            filter (labelled l) (columns df2)
            = ((if String.eqb l "Node" then [(Str "Node", node_column p)] else [])
               ++ filter (labelled l) (renamed p))%list).
  { intros l H1 H2. subst df2.
    rewrite filter_setitem_other by congruence.
    rewrite filter_setitem_other by congruence.
    rewrite Hc, filter_head2.
    destruct (String.eqb_spec l "Time"); [contradiction | reflexivity]. }
  assert (Hm : filter (labelled "Market") (columns df2) = market_columns market p).
  { subst df2. rewrite filter_setitem.
    rewrite filter_setitem_other by discriminate.
    rewrite Hc, filter_head2. simpl app. rewrite nrows_setitem, Hn. reflexivity. }
  assert (HT : filter (labelled "Time") (columns df2)
               = [(Str "Time",
                   map (fun c => Stamp {| epoch := instant c; tz := default_timezone |})
                       (time_column p))]).
  { subst df2. rewrite filter_setitem_other by discriminate.
    rewrite filter_setitem, Hc, filter_head2, Ht. reflexivity. }
  clearbody df2.
  unfold select. destruct (getitem_list _ _) as [cols|e] eqn:G; [|discriminate].
  intros [= <-]. cbn [nrows columns].
  apply getitem_list_ok in G. destruct G as [-> F].
  exists instant. split; [exact Hes|]. split; [exact Hnode|].
  split; [exact Hn2|].
  unfold canonical_columns in *. cbn [flat_map].
  rewrite HT, Hm.
  rewrite (Hf "Node"), (Hf "LMP"), (Hf "Energy"), (Hf "Congestion"), (Hf "Loss")
    by discriminate.
  simpl. rewrite app_nil_r. split; [reflexivity|].
  repeat match goal with
         | H : Forall _ (_ :: _) |- _ => inversion H; clear H; subst
         end.
  rewrite (Hf "LMP"), (Hf "Energy"), (Hf "Congestion"), (Hf "Loss") in * by discriminate.
  auto.
Qed.

(** *** The retry loop *)

Lemma while_retry_done fuel url retry_num r w :
  3 <= retry_num -> while_retry env fuel url retry_num r w = (Ok r, w).
Proof.
  intros H. destruct fuel; simpl;
    (destruct (Z.ltb_spec retry_num 3); [lia | reflexivity]).
Qed.

Lemma while_retry_success fuel url retry_num r0 r w :
  retry_num < 3 ->
  server env (requests_made w) url = Ok r -> status_code r = 200 ->
  while_retry env (S fuel) url retry_num r0 w = (Ok (Some r), after w 1 [Get url]).
Proof.
  intros Hlt Hs Hc. simpl. destruct (Z.ltb_spec retry_num 3); [|lia].
  unfold bind, requests_get. rewrite Hs, Hc. reflexivity.
Qed.

Lemma while_retry_failure fuel url retry_num r0 r w :
  retry_num < 3 ->
  server env (requests_made w) url = Ok r -> status_code r <> 200 ->
  while_retry env (S fuel) url retry_num r0 w
  = while_retry env fuel url (retry_num + 1) (Some r)
      (after w 1 (failed_attempt url (status_code r) (retry_num + 1))).
Proof.
  intros Hlt Hs Hc. simpl. destruct (Z.ltb_spec retry_num 3); [|lia].
  unfold bind at 1. unfold requests_get. rewrite Hs.
  destruct (Z.eqb_spec (status_code r) 200); [contradiction|].
  unfold bind, print, time_sleep, emit, after, failed_attempt. simpl.
  rewrite <- !app_assoc. reflexivity.
Qed.

Lemma while_retry_network_error fuel url retry_num r0 e w :
  retry_num < 3 ->
  server env (requests_made w) url = Raise e ->
  while_retry env (S fuel) url retry_num r0 w = (Raise e, after w 1 [Get url]).
Proof.
  intros Hlt Hs. simpl. destruct (Z.ltb_spec retry_num 3); [|lia].
  unfold bind, requests_get. rewrite Hs. reflexivity.
Qed.

(** Three turns always suffice: more fuel changes nothing. *)
Lemma while_retry_fuel fuel : forall fuel' url retry_num r w,
  3 - retry_num <= Z.of_nat fuel -> 3 - retry_num <= Z.of_nat fuel' ->
  while_retry env fuel url retry_num r w = while_retry env fuel' url retry_num r w.
Proof.
  induction fuel as [|fuel IH]; intros fuel' url n r w H1 H2.
  - rewrite !while_retry_done by lia. reflexivity.
  - destruct (Z.le_gt_cases 3 n) as [Hge|Hlt].
    + rewrite !while_retry_done by lia. reflexivity.
    + destruct fuel' as [|fuel']; [lia|].
      destruct (server env (requests_made w) url) as [resp|e] eqn:Hs.
      * destruct (Z.eq_dec (status_code resp) 200) as [Hc|Hc].
        -- now rewrite !(while_retry_success _ _ _ _ _ _ Hlt Hs Hc).
        -- rewrite !(while_retry_failure _ _ _ _ _ _ Hlt Hs Hc).
           apply IH; lia.
      * now rewrite !(while_retry_network_error _ _ _ _ _ _ Hlt Hs).
Qed.

(** The loop only adds to the trace. *)
Lemma while_retry_extends fuel : forall url retry_num r w,
  exists evs, trace (snd (while_retry env fuel url retry_num r w)) = (trace w ++ evs)%list.
Proof.
  induction fuel as [|fuel IH]; intros url n r w.
  - exists []. simpl. destruct (n <? 3); simpl; now rewrite app_nil_r.
  - destruct (Z.le_gt_cases 3 n) as [Hge|Hlt].
    + exists []. rewrite while_retry_done by lia. simpl. now rewrite app_nil_r.
    + destruct (server env (requests_made w) url) as [resp|e] eqn:Hs.
      * destruct (Z.eq_dec (status_code resp) 200) as [Hc|Hc].
        -- rewrite (while_retry_success _ _ _ _ _ _ Hlt Hs Hc). simpl. eauto.
        -- rewrite (while_retry_failure _ _ _ _ _ _ Hlt Hs Hc).
           destruct (IH url (n + 1) (Some resp)
                       (after w 1 (failed_attempt url (status_code resp) (n + 1))))
             as [evs ->].
           simpl. rewrite <- app_assoc. eauto.
      * rewrite (while_retry_network_error _ _ _ _ _ _ Hlt Hs). simpl. eauto.
Qed.

(** Its first event is the GET. *)
Lemma while_retry_first_get url r w :
  exists rest, trace (snd (while_retry env 3 url 0 r w)) = (trace w ++ Get url :: rest)%list.
Proof.
  destruct (server env (requests_made w) url) as [resp|e] eqn:Hs.
  - destruct (Z.eq_dec (status_code resp) 200) as [Hc|Hc].
    + rewrite (while_retry_success _ _ _ _ _ _ (eq_refl : 0 < 3) Hs Hc). simpl. eauto.
    + rewrite (while_retry_failure _ _ _ _ _ _ (eq_refl : 0 < 3) Hs Hc).
      destruct (while_retry_extends 2 url (0 + 1) (Some resp)
                  (after w 1 (failed_attempt url (status_code resp) (0 + 1))))
        as [evs ->].
      simpl. rewrite <- app_assoc. simpl. eauto.
  - rewrite (while_retry_network_error _ _ _ _ _ _ (eq_refl : 0 < 3) Hs). simpl. eauto.
Qed.

(** *** The query and the method *)

Lemma add_DateOffset_UTC ts :
  add_DateOffset (tz_convert UTC ts) 1 = {| epoch := epoch ts + 86400; tz := UTC |}.
Proof. unfold add_DateOffset, tz_convert, SECONDS_PER_DAY. simpl. f_equal. Qed.

(** On a UTC timestamp a calendar day and 24 hours are the same thing. *)
Lemma add_calendar_days_UTC ts n :
  add_calendar_days (tz_convert UTC ts) n = add_DateOffset (tz_convert UTC ts) n.
Proof.
  unfold add_calendar_days, add_DateOffset, tz_convert, wall, tz_localize. simpl.
  f_equal. lia.
Qed.

Lemma query_csv_unsupported date market nodes w e :
  market_params market = Raise e -> query_csv env date market nodes w = (Raise e, w).
Proof. intros H. unfold query_csv, bind, lift. now rewrite H. Qed.

Lemma query_csv_first_get date market nodes w q run v col :
  market_params market = Ok (q, run, v, col) ->
  let start := tz_convert UTC (_handle_date date default_timezone) in
  exists rest,
    trace (snd (query_csv env date market nodes w))
    = (trace w ++ Get (oasis_url q v (strftime_oasis start)
                         (strftime_oasis (add_DateOffset start 1)) run
                         (String.concat "," nodes)) :: rest)%list.
Proof.
  intros H start. unfold query_csv, bind at 1, lift at 1. rewrite H. cbv zeta.
  fold start. unfold bind.
  match goal with |- context [while_retry env 3 ?u 0 None w] =>
    destruct (while_retry_first_get u None w) as [rest Hr];
    destruct (while_retry env 3 u 0 None w) as [[[r|]|e] w1]
  end; simpl in *; eauto.
Qed.

Lemma get_historical_lmp_unsupported date market nodes sleep w e :
  market_params market = Raise e ->
  get_historical_lmp env date market nodes sleep w = (Raise e, w).
Proof.
  intros H. unfold get_historical_lmp, bind at 1.
  now rewrite (query_csv_unsupported _ _ _ _ _ H).
Qed.

(** A call that returns has read a CSV and normalized its pivot; the
    frame it returns is that one. *)
Lemma get_historical_lmp_ok date market nodes sleep w df w' :
  get_historical_lmp env date market nodes sleep w = (Ok df, w') ->
  exists data w1,
    query_csv env date market (nodes_or_default nodes) w = (Ok data, w1)
    /\ normalize env market (pivot_table data) = Ok df
    /\ w' = after w1 0 [Sleep sleep].
Proof.
  unfold get_historical_lmp, bind at 1.
  destruct (query_csv env date market (nodes_or_default nodes) w) as [[data|e] w1];
    [|discriminate].
  unfold bind, lift, time_sleep, raise, emit, ret.
  destruct (normalize env market (pivot_table data)) as [df'|e] eqn:Hnorm; [|discriminate].
  destruct (longest_sleep <? Z.abs sleep); [discriminate|].
  destruct (sleep <? 0); [discriminate|].
  intros [= <- <-]. exists data, w1. repeat split. exact Hnorm.
Qed.

(** A call that returns was asked for a pause that [time.sleep] takes. *)
Lemma get_historical_lmp_sleep date market nodes sleep w df w' :
  get_historical_lmp env date market nodes sleep w = (Ok df, w') ->
  0 <= sleep <= longest_sleep.
Proof.
  unfold get_historical_lmp, bind at 1.
  destruct (query_csv env date market (nodes_or_default nodes) w) as [[data|e] w1];
    [|discriminate].
  unfold bind, lift, time_sleep, raise, emit, ret.
  destruct (normalize env market (pivot_table data)) as [df'|e]; [|discriminate].
  destruct (Z.ltb_spec longest_sleep (Z.abs sleep)); [discriminate|].
  destruct (Z.ltb_spec sleep 0); [discriminate | lia].
Qed.

Lemma get_historical_lmp_extends date market nodes sleep w :
  exists evs,
    trace (snd (get_historical_lmp env date market nodes sleep w))
    = (trace (snd (query_csv env date market (nodes_or_default nodes) w)) ++ evs)%list.
Proof.
  unfold get_historical_lmp, bind at 1.
  destruct (query_csv env date market (nodes_or_default nodes) w) as [[data|e] w1].
  - unfold bind, lift, time_sleep, raise, emit, ret.
    destruct (normalize env market (pivot_table data)) as [df'|e]; simpl.
    + destruct (longest_sleep <? Z.abs sleep); simpl;
        [exists []; now rewrite app_nil_r|].
      destruct (sleep <? 0); simpl; [exists []; now rewrite app_nil_r | eauto].
    + exists []. now rewrite app_nil_r.
  - exists []. simpl. now rewrite app_nil_r.
Qed.

Lemma get_historical_lmp_first_get date market nodes sleep w q run v col :
  market_params market = Ok (q, run, v, col) ->
  let start := tz_convert UTC (_handle_date date default_timezone) in
  exists rest,
    trace (snd (get_historical_lmp env date market nodes sleep w))
    = (trace w ++ Get (oasis_url q v (strftime_oasis start)
                         (strftime_oasis (add_DateOffset start 1)) run
                         (String.concat "," (nodes_or_default nodes))) :: rest)%list.
Proof.
  intros H start.
  destruct (get_historical_lmp_extends date market nodes sleep w) as [evs ->].
  destruct (query_csv_first_get date market (nodes_or_default nodes) w _ _ _ _ H)
    as [rest ->].
  rewrite <- app_assoc. simpl. eauto.
Qed.

End MethodFacts.

End MethodFacts.

(** * The claims *)

Import Calendar Base Frames CAISO Spec Scenario.
Import KeyFacts PivotFacts FrameFacts MethodFacts.

(** ** Retrieval: markets, window, nodes, retries *)

(** C8.  A market that is none of DAY_AHEAD_HOURLY, REAL_TIME_15_MIN and
    REAL_TIME_HOURLY makes [get_historical_lmp] raise
    [RuntimeError("LMP Market is not supported")] and leaves the world as it
    was: no request, no pause, no output comes before the error. *)
Theorem unsupported_market_fails_fast {N} {num : Numbers N} {V} (env : Env N V)
    date market nodes sleep w :
  market <> DAY_AHEAD_HOURLY -> market <> REAL_TIME_15_MIN -> market <> REAL_TIME_HOURLY ->
  get_historical_lmp env date market nodes sleep w
  = (Raise (RuntimeError "LMP Market is not supported"), w).
Proof.
  intros H1 H2 H3. apply get_historical_lmp_unsupported.
  destruct market; try contradiction. reflexivity.
Qed.

Lemma unsupported_market_fails_fast_witness :
  get_historical_lmp (served [] node_a_csv) new_year_2023 (OtherMarket "REAL_TIME_5_MIN")
    (Some ["NODE_A"]) 5 initial_world
  = (Raise (RuntimeError "LMP Market is not supported"), initial_world).
Proof.
  apply (unsupported_market_fails_fast (served [] node_a_csv) new_year_2023
           (OtherMarket "REAL_TIME_5_MIN") (Some ["NODE_A"]) 5 initial_world);
    discriminate.
Defined.

(** C3, as the code has it.  When the endpoint answers three requests in a
    row with a status other than 200, the retry loop issues exactly three
    GETs, each followed by the two log lines and a pause of 5 seconds: three
    pauses, the last one after the third failure, when no attempt follows.
    The loop ends there and hands on the third response. *)
Theorem three_failures_three_pauses {N} {num : Numbers N} {V} (env : Env N V) url w r1 r2 r3 :
  server env (requests_made w) url = Ok r1 -> status_code r1 <> 200 ->
  server env (S (requests_made w)) url = Ok r2 -> status_code r2 <> 200 ->
  server env (S (S (requests_made w))) url = Ok r3 -> status_code r3 <> 200 ->
  let evs := (failed_attempt url (status_code r1) 1
              ++ failed_attempt url (status_code r2) 2
              ++ failed_attempt url (status_code r3) 3)%list in
  while_retry env 3 url 0 None w = (Ok (Some r3), after w 3 evs)
  /\ count is_get evs = 3%nat
  /\ count is_sleep evs = 3%nat
  /\ count (is_sleep_of 5) evs = 3%nat.
Proof.
  intros S1 C1 S2 C2 S3 C3 evs. split; [|repeat split].
  rewrite (while_retry_failure env 2 url 0 None r1 w eq_refl S1 C1).
  rewrite (while_retry_failure env 1 url (0 + 1) _ r2 (after w 1 _) eq_refl S2 C2).
  rewrite (while_retry_failure env 0 url (0 + 1 + 1) _ r3 (after (after w 1 _) 1 _)
             eq_refl S3 C3).
  rewrite while_retry_done by lia.
  unfold after, evs. simpl. rewrite <- !app_assoc. reflexivity.
Qed.

Lemma three_failures_three_pauses_witness :
  let r := {| status_code := 503; content := [] |} in
  let evs := (failed_attempt "u" 503 1 ++ failed_attempt "u" 503 2
              ++ failed_attempt "u" 503 3)%list in
  while_retry (served [503; 503; 503] node_a_csv) 3 "u" 0 None initial_world
  = (Ok (Some r), after initial_world 3 evs)
  /\ count is_get evs = 3%nat
  /\ count is_sleep evs = 3%nat
  /\ count (is_sleep_of 5) evs = 3%nat.
Proof.
  apply (three_failures_three_pauses (served [503; 503; 503] node_a_csv) "u" initial_world
           {| status_code := 503; content := [] |}
           {| status_code := 503; content := [] |}
           {| status_code := 503; content := [] |});
    first [reflexivity | discriminate].
Defined.

(** C3 as stated fails: after three answers with status 503 the loop has
    paused three times, not twice. *)
Lemma three_failures_not_two_pauses :
  let run := while_retry (served [503; 503; 503] node_a_csv) 3 "u" 0 None initial_world in
  count is_get (trace (snd run)) = 3%nat
  /\ count (is_sleep_of 5) (trace (snd run)) <> 2%nat.
Proof. vm_compute. split; [reflexivity | discriminate]. Qed.

(** C4, as the code has it.  The start is converted to UTC and
    [pd.DateOffset(1)] is added to that, so the window the request names
    always ends exactly 86400 seconds (24 hours) after it starts,
    daylight-saving change or not. *)
Theorem window_is_24_hours {N} {num : Numbers N} {V} (env : Env N V)
    date market nodes sleep w q run v col :
  market_params market = Ok (q, run, v, col) ->
  let s := epoch (_handle_date date default_timezone) in
  exists rest,
    trace (snd (get_historical_lmp env date market nodes sleep w))
    = (trace w
       ++ Get (oasis_url q v
                 (strftime_oasis {| epoch := s; tz := UTC |})
                 (strftime_oasis {| epoch := s + 86400; tz := UTC |})
                 run (String.concat "," (nodes_or_default nodes)))
       :: rest)%list.
Proof.
  intros H s.
  destruct (get_historical_lmp_first_get env date market nodes sleep w _ _ _ _ H)
    as [rest Hr].
  rewrite add_DateOffset_UTC in Hr. exists rest. exact Hr.
Qed.

Lemma window_is_24_hours_witness :
  exists rest,
    trace (snd (get_historical_lmp (served [] node_a_csv) spring_forward_2022
                  DAY_AHEAD_HOURLY (Some ["NODE_A"]) 5 initial_world))
    = Get (dam_url "20220313T08:00-0000" "20220314T08:00-0000" "NODE_A") :: rest.
Proof.
  exact (window_is_24_hours (served [] node_a_csv) spring_forward_2022 DAY_AHEAD_HOURLY
           (Some ["NODE_A"]) 5 initial_world "PRC_LMP" "DAM" 12 "MW" eq_refl).
Defined.

(** C4 as stated fails: on 2022-03-13, when Pacific clocks go forward, one
    calendar day after local midnight is 23 hours later, 07:00 UTC on the
    14th, but the request asks for the window up to 08:00 UTC. *)
Lemma window_not_local_calendar_day :
  let start := _handle_date spring_forward_2022 default_timezone in
  let run := get_historical_lmp (served [] node_a_csv) spring_forward_2022
               DAY_AHEAD_HOURLY (Some ["NODE_A"]) 5 initial_world in
  epoch (end_by_local_calendar_day spring_forward_2022) - epoch start = 23 * 3600
  /\ strftime_oasis (tz_convert UTC (end_by_local_calendar_day spring_forward_2022))
     = "20220314T07:00-0000"
  /\ hd_error (trace (snd run))
     = Some (Get (dam_url "20220313T08:00-0000" "20220314T08:00-0000" "NODE_A"))
  /\ hd_error (trace (snd run))
     <> Some (Get (dam_url (strftime_oasis (tz_convert UTC start))
                     (strftime_oasis (tz_convert UTC
                        (end_by_local_calendar_day spring_forward_2022)))
                     "NODE_A")).
Proof. vm_compute. repeat split. discriminate. Qed.

(** C9.  Only [None] is replaced by the three trading hubs: the node
    parameter of the request is the given list joined by commas, which for
    the empty list is the empty string; an empty list is not refused. *)
Theorem only_None_defaults_nodes {N} {num : Numbers N} {V} (env : Env N V)
    date market nodes sleep w q run v col :
  market_params market = Ok (q, run, v, col) ->
  let start := tz_convert UTC (_handle_date date default_timezone) in
  let node_param :=
    match nodes with
    | None => "TH_NP15_GEN-APND,TH_SP15_GEN-APND,TH_ZP26_GEN-APND"
    | Some [] => ""
    | Some (n :: ns) => String.concat "," (n :: ns)
    end in
  exists rest,
    trace (snd (get_historical_lmp env date market nodes sleep w))
    = (trace w
       ++ Get (oasis_url q v (strftime_oasis start)
                 (strftime_oasis (add_DateOffset start 1)) run node_param)
       :: rest)%list.
Proof.
  intros H start node_param.
  destruct (get_historical_lmp_first_get env date market nodes sleep w _ _ _ _ H)
    as [rest Hr].
  exists rest. rewrite Hr. destruct nodes as [[|n ns]|]; reflexivity.
Qed.

Lemma only_None_defaults_nodes_witness :
  exists rest,
    trace (snd (get_historical_lmp (served [] node_a_csv) new_year_2023
                  DAY_AHEAD_HOURLY (Some []) 5 initial_world))
    = Get (dam_url "20230101T08:00-0000" "20230102T08:00-0000" "") :: rest.
Proof.
  exact (only_None_defaults_nodes (served [] node_a_csv) new_year_2023 DAY_AHEAD_HOURLY
           (Some []) 5 initial_world "PRC_LMP" "DAM" 12 "MW" eq_refl).
Defined.

(** ** The pivot *)

(** C6, as the code has it.  Among the rows that share a key (time, node,
    component type), the pivot keeps the price of the first row, in input
    order, whose price is not missing; rows of that key before it have no
    price to keep, and whatever rows of that key follow it are dropped
    without notice. *)
Theorem pivot_keeps_first_valid {N} {num : Numbers N} {V} (pre post : list (raw_row N V))
    r t n c v :
  key_of r = Some (t, n, c) -> PRICE r = Some v ->
  (forall r', In r' pre -> key_of r' = Some (t, n, c) -> PRICE r' = None) ->
  pivot_cell (pivot_table (pre ++ r :: post)) (t, n) c = Some (Some v).
Proof.
  intros Hk Hp Hpre. apply pivot_cell_valid. unfold cell_of.
  rewrite filter_app, map_app. simpl.
  rewrite (proj2 (has_key_iff (t, n, c) r) Hk). simpl. rewrite Hp.
  apply first_app_valid. intros x Hx. apply in_map_iff in Hx.
  destruct Hx as (r' & <- & Hin). apply filter_In in Hin. destruct Hin as [Hin Hk'].
  apply Hpre; [exact Hin | now apply has_key_iff].
Qed.

Lemma pivot_keeps_first_valid_witness :
  pivot_cell (pivot_table gap_csv) (Str T0800, Str "NODE_A") (Str "LMP") = Some (Some 5).
Proof.
  apply (pivot_keeps_first_valid [row T0800 "NODE_A" "LMP" None] []
           (row T0800 "NODE_A" "LMP" (Some 5)) (Str T0800) (Str "NODE_A") (Str "LMP") 5).
  - reflexivity.
  - reflexivity.
  - intros r' [<-|[]] _. reflexivity.
Defined.

(** C6 as stated fails: of two rows with one key and different values, the
    first with an empty price field and the second with 5, the pivot keeps
    the second row's value, not the first row's. *)
Lemma pivot_first_row_not_kept :
  let first_row := row T0800 "NODE_A" "LMP" None in
  let second_row := row T0800 "NODE_A" "LMP" (Some 5) in
  gap_csv = [first_row; second_row]
  /\ key_of first_row = key_of second_row
  /\ PRICE first_row <> PRICE second_row
  /\ pivot_cell (pivot_table gap_csv) (Str T0800, Str "NODE_A") (Str "LMP")
     = Some (PRICE second_row)
  /\ pivot_cell (pivot_table gap_csv) (Str T0800, Str "NODE_A") (Str "LMP")
     <> Some (PRICE first_row).
Proof. vm_compute. repeat split; discriminate. Qed.

Lemma unique_key_group {N} {num : Numbers N} {V} (data : list (raw_row N V)) r k :
  NoDup (keys_of data) -> In r data -> key_of r = Some k ->
  filter (has_key k) data = [r].
Proof.
  induction data as [|r0 data IH]; simpl; intros Hnd Hin Hk; [tauto|].
  destruct (key_of r0) as [k0|] eqn:E0.
  - inversion Hnd as [|? ? Hn Hnd']; subst. destruct Hin as [->|Hin].
    + rewrite (proj2 (has_key_iff k r) Hk). f_equal.
      apply filter_none. intros x Hx.
      destruct (has_key k x) eqn:Ex; [|reflexivity].
      exfalso. apply Hn. apply in_keys_of. exists x. split; [exact Hx|].
      apply has_key_iff in Ex. congruence.
    + assert (has_key k r0 = false) as ->.
      { destruct (has_key k r0) eqn:Ex; [|reflexivity].
        exfalso. apply Hn. apply in_keys_of. exists r. split; [exact Hin|].
        apply has_key_iff in Ex. congruence. }
      now apply IH.
  - destruct Hin as [->|Hin]; [congruence|].
    assert (has_key k r0 = false) as ->.
    { unfold has_key. now rewrite E0. }
    now apply IH.
Qed.

(** C7.  When no two rows of the raw table share a key (time, node,
    component type), the pivot loses nothing and invents nothing: the entry
    at a row's time and node, in the column of its component type, is that
    row's price whenever the table has the entry; a row with a price does
    have its entry; and every price in the table is the price of the input
    row with that key. *)
Theorem pivot_unique_keys_lossless {N} {num : Numbers N} {V} (data : list (raw_row N V)) :
  NoDup (keys_of data) ->
  (forall r t n c x, In r data -> key_of r = Some (t, n, c) ->
     pivot_cell (pivot_table data) (t, n) c = Some x -> x = PRICE r)
  /\ (forall r t n c v, In r data -> key_of r = Some (t, n, c) -> PRICE r = Some v ->
        pivot_cell (pivot_table data) (t, n) c = Some (Some v))
  /\ (forall t n c v, pivot_cell (pivot_table data) (t, n) c = Some (Some v) ->
        exists r, In r data /\ key_of r = Some (t, n, c) /\ PRICE r = Some v).
Proof.
  intros Hnd.
  assert (Hcell : forall r k, In r data -> key_of r = Some k -> cell_of data k = PRICE r).
  { intros r k Hin Hk. unfold cell_of. rewrite (unique_key_group data r k Hnd Hin Hk).
    simpl. now destruct (PRICE r). }
  repeat split.
  - intros r t n c x Hin Hk Hx. apply pivot_cell_some in Hx.
    rewrite Hx. exact (Hcell r _ Hin Hk).
  - intros r t n c v Hin Hk Hp. apply pivot_cell_valid.
    rewrite <- Hp. exact (Hcell r _ Hin Hk).
  - intros t n c v Hx. apply pivot_cell_some in Hx. apply cell_of_some. now symmetry.
Qed.

Lemma pivot_unique_keys_lossless_witness :
  pivot_cell (pivot_table node_a_csv) (Str T0800, Str "NODE_A") (Str "MCC") = Some (Some 3).
Proof.
  refine (proj1 (proj2 (pivot_unique_keys_lossless node_a_csv _))
            (row T0800 "NODE_A" "MCC" (Some 3)) (Str T0800) (Str "NODE_A") (Str "MCC") 3
            _ eq_refl eq_refl).
  - repeat constructor; simpl; intuition discriminate.
  - simpl. tauto.
Defined.

(** ** The returned frame *)

Section Returned.
Context {N : Type} {num : Numbers N} {V : Type} (env : Env N V).

Lemma market_columns_repeat market (p : Pivot N V) :
  exists k, market_columns market p
            = repeat (Str "Market", repeat (Obj market) (List.length (index p))) (S k).
Proof.
  unfold market_columns. destruct (filter (labelled "Market") (renamed p)) as [|c cs].
  - exists 0%nat. reflexivity.
  - exists (List.length cs). simpl. f_equal.
    induction cs as [|c' cs IH]; simpl; [reflexivity | now f_equal].
Qed.

(** The key columns and the market column of a frame that [normalize]
    returns. *)
Lemma normalize_columns market (p : Pivot N V) df :
  normalize env market p = Ok df ->
  exists instant,
    to_datetime env (time_column p) = Ok instant
    /\ nrows df = List.length (index p)
    /\ column "Time" df
       = Some (map (fun c => Stamp {| epoch := instant c; tz := default_timezone |})
                   (time_column p))
    /\ column "Node" df = Some (node_column p)
    /\ column "Market" df = Some (repeat (Obj market) (nrows df))
    /\ (forall col, In (Str "Market", col) (columns df) ->
          col = repeat (Obj market) (nrows df)).
Proof.
  intros H. destruct (normalize_ok env market p df H)
    as (instant & Hes & _ & Hn & Hc & _).
  destruct (market_columns_repeat market p) as [k Hm].
  exists instant. split; [exact Hes|]. split; [exact Hn|].
  unfold column. rewrite Hc, Hm, Hn. split; [|split; [|split]].
  - reflexivity.
  - cbn [assoc]. rewrite Str_eqb. cbn [String.eqb Ascii.eqb Bool.eqb].
    rewrite assoc_skip.
    + cbn [assoc]. now rewrite scalar_eqb_refl.
    + intros c Hin. apply repeat_spec in Hin. subst c. discriminate.
  - reflexivity.
  - intros col [E|Hin]; [discriminate|].
    simpl in Hin. destruct Hin as [E|Hin]; [congruence|].
    apply in_app_or in Hin. destruct Hin as [Hin|Hin].
    + apply repeat_spec in Hin. congruence.
    + exfalso. destruct Hin as [E|Hin]; [discriminate|].
      repeat (apply in_app_or in Hin; destruct Hin as [Hin|Hin]);
        apply filter_In in Hin; destruct Hin as [_ Hl];
        apply labelled_true in Hl; discriminate.
Qed.

Lemma assoc_map_snd {B C} (f : B -> C) (l : scalar N) (cols : list (scalar N * B)) :
  assoc l (map (fun col => (fst col, f (snd col))) cols) = option_map f (assoc l cols).
Proof.
  induction cols as [|[l0 b] cols IH]; simpl; [reflexivity|].
  destruct (scalar_eqb l l0); [reflexivity | exact IH].
Qed.

End Returned.

(** C5.  Every row of a frame that [get_historical_lmp] returns has the
    requested market in its Market column: the frame has such a column, and
    each column of that name holds the market in every one of the rows. *)
Theorem market_column_uniform {N} {num : Numbers N} {V} (env : Env N V) date market nodes
    sleep w df w' :
  get_historical_lmp env date market nodes sleep w = (Ok df, w') ->
  column "Market" df = Some (repeat (Obj market) (nrows df))
  /\ (forall col, In (Str "Market", col) (columns df) ->
        col = repeat (Obj market) (nrows df)).
Proof.
  intros H. apply get_historical_lmp_ok in H. destruct H as (data & w1 & _ & Hn & _).
  destruct (normalize_columns env market _ df Hn) as (es & _ & _ & _ & _ & Hm & Hall).
  auto.
Qed.

Lemma market_column_uniform_witness :
  column "Market" node_a_frame = Some [Obj DAY_AHEAD_HOURLY]
  /\ (forall col, In (Str "Market", col) (columns node_a_frame) ->
        col = [Obj DAY_AHEAD_HOURLY]).
Proof.
  exact (market_column_uniform (served [] node_a_csv) new_year_2023 DAY_AHEAD_HOURLY
           (Some ["NODE_A"]) 5 initial_world node_a_frame node_a_world eq_refl).
Defined.

(** C10.  The rows of a returned frame follow the (time, node) keys of the
    pivot in strictly ascending order, first by time and then by node, each
    compared as [pd.read_csv] read its column: numbers by value when the
    column read as numbers (nodes 9 and 10 come out as 9, 10), text by code
    unit otherwise (nodes "10" and "9A" come out in this order).  The Node
    column is the nodes of those keys and the Time column their times,
    converted.  The order of the rows in the CSV plays no part: a call that
    reads the same rows in another order returns the same Time and Node
    columns. *)
Theorem rows_sorted_by_key {N} {num : Numbers N} {V} (env : Env N V) date market nodes
    sleep w data w1 df w' :
  query_csv env date market (nodes_or_default nodes) w = (Ok data, w1) ->
  get_historical_lmp env date market nodes sleep w = (Ok df, w') ->
  (exists keys instant,
     StronglySorted row_key_lt keys
     /\ keys = index (pivot_table data)
     /\ to_datetime env (map (fun k => of_scalar (fst k)) keys) = Ok instant
     /\ nrows df = List.length keys
     /\ column "Time" df
        = Some (map (fun k => Stamp {| epoch := instant (of_scalar (fst k));
                                       tz := default_timezone |}) keys)
     /\ column "Node" df = Some (map (fun k => of_scalar (snd k)) keys))
  /\ (forall (env2 : Env N V) date2 sleep2 w2 data2 w12 df2 w2',
        query_csv env2 date2 market (nodes_or_default nodes) w2 = (Ok data2, w12) ->
        get_historical_lmp env2 date2 market nodes sleep2 w2 = (Ok df2, w2') ->
        Permutation data data2 ->
        (forall series, to_datetime env2 series = to_datetime env series) ->
        column "Time" df2 = column "Time" df /\ column "Node" df2 = column "Node" df).
Proof.
  intros Hq H. apply get_historical_lmp_ok in H.
  destruct H as (data' & w1' & Hq' & Hn & _).
  rewrite Hq in Hq'. injection Hq' as <- <-.
  destruct (normalize_columns env market _ df Hn)
    as (instant & Hes & Hrows & Ht & Hnode & _).
  split.
  - exists (index (pivot_table data)), instant.
    unfold time_column, node_column in *. rewrite map_map in Ht.
    repeat split; auto. apply index_sorted.
  - intros env2 date2 sleep2 w2 data2 w12 df2 w2' Hq2 H2 Hperm Hparse.
    apply get_historical_lmp_ok in H2.
    destruct H2 as (data2' & w12' & Hq2' & Hn2 & _).
    rewrite Hq2 in Hq2'. injection Hq2' as <- <-.
    destruct (normalize_columns env2 market _ df2 Hn2)
      as (instant2 & Hes2 & _ & Ht2 & Hnode2 & _).
    assert (Hidx : index (pivot_table data2) = index (pivot_table data)).
    { apply index_ext. intros r. split; apply Permutation_in;
        [now apply Permutation_sym | exact Hperm]. }
    unfold time_column, node_column in *. rewrite Hidx in *.
    rewrite Ht, Ht2, Hnode, Hnode2. split; [|reflexivity].
    rewrite Hparse, Hes in Hes2. injection Hes2 as <-. reflexivity.
Qed.

Lemma rows_sorted_by_key_witness :
  (exists keys instant,
     StronglySorted row_key_lt keys
     /\ keys = index (pivot_table numbered_csv)
     /\ parse (map (fun k => of_scalar (fst k)) keys) = Ok instant
     /\ nrows numbered_frame = List.length keys
     /\ column "Time" numbered_frame
        = Some (map (fun k => Stamp {| epoch := instant (of_scalar (fst k));
                                       tz := default_timezone |}) keys)
     /\ column "Node" numbered_frame = Some (map (fun k => of_scalar (snd k)) keys))
  /\ (forall (env2 : Env Z Z) date2 sleep2 w2 data2 w12 df2 w2',
        query_csv env2 date2 DAY_AHEAD_HOURLY ["10"; "9"] w2 = (Ok data2, w12) ->
        get_historical_lmp env2 date2 DAY_AHEAD_HOURLY (Some ["10"; "9"]) sleep2 w2
        = (Ok df2, w2') ->
        Permutation numbered_csv data2 ->
        (forall series, to_datetime env2 series = parse series) ->
        column "Time" df2 = column "Time" numbered_frame
        /\ column "Node" df2 = column "Node" numbered_frame).
Proof.
  exact (rows_sorted_by_key (served [] numbered_csv) new_year_2023 DAY_AHEAD_HOURLY
           (Some ["10"; "9"]) 5 initial_world numbered_csv numbered_queried
           numbered_frame (after numbered_queried 0 [Sleep 5]) eq_refl eq_refl).
Defined.

(** C2, as the code has it.  The frame [get_historical_lmp] returns is the
    normalized frame itself; the frame that [filter_lmp_nodes] computes from
    it is not used.  So a row of the CSV for a node that was not asked for
    has its row in the returned frame, with its node and its time, provided
    it has a time, a component type and a price, while the filtered frame
    has no row of that node. *)
Theorem node_filter_unused {N} {num : Numbers N} {V} (env : Env N V) date market nodes
    sleep w data w1 df w' :
  query_csv env date market (nodes_or_default nodes) w = (Ok data, w1) ->
  get_historical_lmp env date market nodes sleep w = (Ok df, w') ->
  normalize env market (pivot_table data) = Ok df
  /\ (forall r t n c v,
        In r data -> key_of r = Some (t, n, c) -> PRICE r = Some v ->
        (forall s, n = Str s -> ~ In s (nodes_or_default nodes)) ->
        exists i time_col node_col instant,
          column "Time" df = Some time_col
          /\ column "Node" df = Some node_col
          /\ to_datetime env (time_column (pivot_table data)) = Ok instant
          /\ nth_error time_col i
             = Some (Stamp {| epoch := instant (of_scalar t); tz := default_timezone |})
          /\ nth_error node_col i = Some (of_scalar n)
          /\ (forall kept, column "Node" (filter_lmp_nodes df (nodes_or_default nodes))
                           = Some kept -> ~ In (of_scalar n) kept)).
Proof.
  intros Hq H. apply get_historical_lmp_ok in H.
  destruct H as (data' & w1' & Hq' & Hn & _).
  rewrite Hq in Hq'. injection Hq' as <- <-.
  split; [exact Hn|].
  intros r t n c v Hin Hk Hp Hout.
  destruct (normalize_columns env market _ df Hn)
    as (instant & Hes & _ & Ht & Hnode & _).
  assert (Hidx : In (t, n) (index (pivot_table data))).
  { apply in_index. exists c. eapply cell_of_priced; eauto. }
  apply In_nth_error in Hidx. destruct Hidx as [i Hi].
  exists i, (map (fun c => Stamp {| epoch := instant c; tz := default_timezone |})
               (time_column (pivot_table data))),
    (node_column (pivot_table data)), instant.
  repeat split; auto.
  - unfold time_column. rewrite map_map.
    now rewrite (map_nth_error
                   (fun k => Stamp {| epoch := instant (of_scalar (fst k));
                                      tz := default_timezone |}) i _ Hi).
  - unfold node_column. now rewrite (map_nth_error (fun k => of_scalar (snd k)) i _ Hi).
  - intros kept Hkept Hbad. unfold filter_lmp_nodes in Hkept. rewrite Hnode in Hkept.
    unfold column in Hkept. simpl columns in Hkept.
    rewrite (assoc_map_snd (keep (map (isin (nodes_or_default nodes))
                                    (node_column (pivot_table data))))) in Hkept.
    fold (column "Node" df) in Hkept. rewrite Hnode in Hkept. simpl in Hkept.
    injection Hkept as <-. apply In_keep in Hbad.
    destruct n as [s|x]; simpl in Hbad; [|discriminate].
    apply (Hout s eq_refl). apply existsb_exists in Hbad.
    destruct Hbad as (x & Hx & E). apply String.eqb_eq in E. now subst.
Qed.

Lemma node_filter_unused_witness :
  exists i time_col node_col instant,
    column "Time" two_node_frame = Some time_col
    /\ column "Node" two_node_frame = Some node_col
    /\ parse (time_column (pivot_table two_node_csv)) = Ok instant
    /\ nth_error time_col i
       = Some (Stamp {| epoch := instant (Text T0800); tz := default_timezone |})
    /\ nth_error node_col i = Some (Text "NODE_B")
    /\ (forall kept, column "Node" (filter_lmp_nodes two_node_frame ["NODE_A"]) = Some kept ->
          ~ In (Text "NODE_B") kept).
Proof.
  refine (proj2 (node_filter_unused (served [] two_node_csv) new_year_2023 DAY_AHEAD_HOURLY
                   (Some ["NODE_A"]) 5 initial_world two_node_csv node_a_queried
                   two_node_frame node_a_world eq_refl eq_refl)
            (row T0800 "NODE_B" "LMP" (Some 31)) (Str T0800) (Str "NODE_B") (Str "LMP") 31
            _ eq_refl eq_refl _).
  - simpl. tauto.
  - intros s [= <-]. simpl. intros [E|[]]. discriminate.
Defined.

(** C2 as stated fails: rows of a node that was not asked for appear in
    the returned frame only if they are priced.  When the endpoint sends,
    next to the rows of NODE_A, rows of NODE_B whose price field is empty,
    the call returns the frame of NODE_A alone: the pivot drops the
    (time, node) pairs without a price, so those extra rows do not appear,
    filter or no filter. *)
Lemma unpriced_extra_rows_not_returned :
  let extra := row T0800 "NODE_B" "LMP" None in
  In extra unpriced_extra_csv
  /\ NODE extra = Some (Str "NODE_B")
  /\ ~ In "NODE_B" (nodes_or_default (Some ["NODE_A"]))
  /\ get_historical_lmp (served [] unpriced_extra_csv) new_year_2023 DAY_AHEAD_HOURLY
       (Some ["NODE_A"]) 5 initial_world
     = (Ok node_a_frame, node_a_world)
  /\ column "Node" node_a_frame = Some [Text "NODE_A"]
  /\ nrows node_a_frame = 1%nat.
Proof.
  repeat split; try reflexivity.
  - simpl. tauto.
  - simpl. intros [E|[]]. discriminate.
Qed.

(** ** The columns of the returned frame *)

Section Columns.
Context {N : Type} {num : Numbers N} {V : Type}.

Lemma pivot_label_in_data (data : list (raw_row N V)) l :
  In l (map fst (values (pivot_table data))) ->
  exists r, In r data /\ LMP_TYPE r = Some l.
Proof.
  rewrite labels_pivot. intros H. apply in_unstacked_labels in H.
  destruct H as (rk & v & Hc). apply cell_of_some in Hc.
  destruct Hc as (r & Hin & Hk & _). exists r. split; [exact Hin|].
  unfold key_of in Hk.
  destruct (INTERVALSTARTTIME_GMT r), (NODE r), (LMP_TYPE r); congruence.
Qed.

Lemma renamed_at_most_one (p : Pivot N V) (t : string) (src : scalar N) :
  NoDup (map fst (values p)) ->
  (forall l, In l (map fst (values p)) ->
     rename_label canonical_names l = Str t -> l = src) ->
  (List.length (filter (labelled t) (renamed p)) <= 1)%nat.
Proof.
  intros Hnd Hsrc.
  apply (filter_renamed_le1 (rename_label canonical_names)
           (fun col : scalar N * list (option V) => map (@Num N V) (snd col))
           (Str t) src (values p) Hnd).
  intros c Hin. apply Hsrc. now apply in_map.
Qed.

Lemma single_label (t : string) (cols : list (scalar N * list (cell N V))) :
  (List.length (filter (labelled t) cols) <= 1)%nat -> filter (labelled t) cols <> [] ->
  map fst (filter (labelled t) cols) = [Str t].
Proof.
  intros Hle Hne. rewrite filter_labelled_labels.
  destruct (filter (labelled t) cols) as [|c [|c' cs]]; simpl in *;
    [contradiction | reflexivity | lia].
Qed.

(** The labels that [rename] turns into the name [t]: [t] itself and the
    names the mapping sends to it. *)
Lemma renamed_to (l : scalar N) (t : string) :
  rename_label canonical_names l = Str t ->
  l = Str t \/ In (l, t) (canonical_names (N := N)).
Proof.
  intros E. apply rename_label_inv in E. destruct E as [E|(s & [= ->] & Hin)]; auto.
Qed.

End Columns.

(** C1, as the code has it.  A call that returns, on a CSV in which no
    component type is itself called Node, Energy, Congestion or Loss, returns
    a frame whose columns are exactly Time, Market, Node, LMP, Energy,
    Congestion, Loss, in that order; the columns of all other component
    types are gone. *)
Theorem canonical_columns_returned {N} {num : Numbers N} {V} (env : Env N V) date market
    nodes sleep w data w1 df w' :
  query_csv env date market (nodes_or_default nodes) w = (Ok data, w1) ->
  get_historical_lmp env date market nodes sleep w = (Ok df, w') ->
  (forall r c, In r data -> LMP_TYPE r = Some (Str c) ->
     ~ In c ["Node"; "Energy"; "Congestion"; "Loss"]) ->
  labels df = map Str canonical_columns.
Proof.
  intros Hq H Hty. apply get_historical_lmp_ok in H.
  destruct H as (data' & w1' & Hq' & Hn & _).
  rewrite Hq in Hq'. injection Hq' as <- <-.
  destruct (normalize_ok env market _ df Hn)
    as (es & _ & Hnode & _ & Hc & Hl & He & Hg & Hs).
  set (p := pivot_table data) in *.
  pose proof (labels_pivot_NoDup data) as Hnd. fold p in Hnd.
  assert (Hfree : forall c, In (Str c) (map fst (values p)) ->
            ~ In c ["Node"; "Energy"; "Congestion"; "Loss"]).
  { intros c Hin Hc'. apply pivot_label_in_data in Hin.
    destruct Hin as (r & Hr & Hr'). exact (Hty r c Hr Hr' Hc'). }
  assert (Hone : forall t src,
            (forall l, In l (map fst (values p)) ->
               rename_label canonical_names l = Str t -> l = src) ->
            filter (labelled t) (renamed p) <> [] ->
            map fst (filter (labelled t) (renamed p)) = [Str t]).
  { intros t src Hsrc Hne. apply single_label; [|exact Hne].
    now apply (renamed_at_most_one p t src). }
  assert (Hnone : filter (labelled "Node") (renamed p) = []).
  { apply filter_none. intros x Hx. unfold renamed in Hx. apply in_map_iff in Hx.
    destruct Hx as (c & <- & Hin). unfold labelled. cbn [fst].
    apply scalar_eqb_neq. intros E. symmetry in E.
    apply renamed_to in E.
    assert (Hl' : In (fst c) (map fst (values p))) by now apply in_map.
    destruct E as [E|E].
    - rewrite E in Hl'. apply (Hfree "Node" Hl'). simpl. tauto.
    - simpl in E.
      repeat (destruct E as [E|E]; [try discriminate; injection E as E|]);
        try contradiction.
      rewrite <- E in Hl'. unfold mem in Hnode.
      assert (existsb (scalar_eqb (Str "NODE")) (map fst (values p)) = true) as X.
      { apply existsb_exists. exists (Str "NODE"). split; [exact Hl' | reflexivity]. }
      congruence. }
  assert (Hmk : map fst (market_columns market p) = [Str "Market"]).
  { unfold market_columns.
    destruct (filter (labelled "Market") (renamed p)) as [|c cs] eqn:Em; [reflexivity|].
    assert (Hle : (List.length (filter (labelled "Market") (renamed p)) <= 1)%nat).
    { apply (renamed_at_most_one p "Market" (Str "Market") Hnd).
      intros l _ E. apply renamed_to in E.
      destruct E as [E|E]; [exact E|]. simpl in E.
      repeat (destruct E as [E|E]; [discriminate|]). contradiction. }
    rewrite Em in Hle. destruct cs; simpl in *; [reflexivity | lia]. }
  unfold labels, canonical_columns. rewrite Hc. simpl map.
  rewrite map_app. simpl map. rewrite !map_app, Hmk, Hnone.
  rewrite (Hone "LMP" (Str "LMP")), (Hone "Energy" (Str "MCE")),
    (Hone "Congestion" (Str "MCC")), (Hone "Loss" (Str "MCL")); auto.
  all: intros l Hin E; apply renamed_to in E;
    destruct E as [E|E];
    [ first [ exact E
            | exfalso; rewrite E in Hin; apply (Hfree _ Hin); simpl; tauto ]
    | simpl in E;
      repeat (destruct E as [E|E];
              [first [discriminate | injection E as E; symmetry; exact E]|]);
      contradiction ].
Qed.

Lemma canonical_columns_returned_witness : labels node_a_frame = map Str canonical_columns.
Proof.
  apply (canonical_columns_returned (served [] node_a_csv) new_year_2023 DAY_AHEAD_HOURLY
           (Some ["NODE_A"]) 5 initial_world node_a_csv node_a_queried
           node_a_frame node_a_world eq_refl eq_refl).
  intros r c Hin Hc. simpl in Hin.
  repeat (destruct Hin as [<-|Hin]; [injection Hc as <-; simpl; intuition discriminate|]).
  contradiction.
Defined.

(** C1 as stated fails: when the CSV carries, next to LMP, MCE, MCC and MCL,
    a component type called Energy, the call returns, and the frame has
    eight columns, two of them called Energy; the extra component column is
    not dropped. *)
Lemma extra_energy_column_returned :
  exists df w',
    get_historical_lmp (served [] energy_csv) new_year_2023 DAY_AHEAD_HOURLY
      (Some ["NODE_A"]) 5 initial_world = (Ok df, w')
    /\ labels df
       = map Str ["Time"; "Market"; "Node"; "LMP"; "Energy"; "Energy"; "Congestion"; "Loss"]
    /\ labels df <> map Str canonical_columns.
Proof.
  eexists. eexists. split; [vm_compute; reflexivity|].
  split; [reflexivity | discriminate].
Qed.

(** When a component is missing from the CSV (here MCL), the selection of
    the canonical columns raises [KeyError]: such a call does not return. *)
Lemma missing_component_raises :
  get_historical_lmp (served [] no_loss_csv) new_year_2023 DAY_AHEAD_HOURLY
    (Some ["NODE_A"]) 5 initial_world
  = (Raise (KeyError "Loss not in index"), node_a_queried).
Proof. vm_compute. reflexivity. Qed.

(** The third failing response is what the unpacking step is given. *)
Lemma query_csv_after_three_failures {N} {num : Numbers N} {V} (env : Env N V)
    date market nodes w q run v col r3 w3 :
  market_params market = Ok (q, run, v, col) ->
  (forall url, while_retry env 3 url 0 None w = (Ok (Some r3), w3)) ->
  query_csv env date market nodes w = (read_zipped_csv env (content r3) col, w3).
Proof.
  intros Hp Hw. unfold query_csv, bind at 1, lift at 1. rewrite Hp. cbv zeta.
  unfold bind. rewrite Hw. reflexivity.
Qed.

(** A call returns only when the CSV has all four components: for each of
    LMP, Energy, Congestion and Loss some row carries the component type
    that is renamed to it (or is already called so).  Otherwise the
    selection of line 271 raises [KeyError]. *)
Lemma returned_needs_components {N} {num : Numbers N} {V} (env : Env N V) date market nodes
    sleep w data w1 df w' :
  query_csv env date market (nodes_or_default nodes) w = (Ok data, w1) ->
  get_historical_lmp env date market nodes sleep w = (Ok df, w') ->
  forall src t,
    In (src, t) [("LMP", "LMP"); ("MCE", "Energy"); ("MCC", "Congestion"); ("MCL", "Loss")] ->
    exists r, In r data /\ (LMP_TYPE r = Some (Str src) \/ LMP_TYPE r = Some (Str t)).
Proof.
  intros Hq H src t Hin. apply get_historical_lmp_ok in H.
  destruct H as (data' & w1' & Hq' & Hn & _).
  rewrite Hq in Hq'. injection Hq' as <- <-.
  destruct (normalize_ok env market _ df Hn) as (_ & _ & _ & _ & _ & Hl & He & Hg & Hs).
  assert (Hne : filter (labelled t) (renamed (pivot_table data)) <> []).
  { simpl in Hin. repeat (destruct Hin as [[= <- <-]|Hin]; [assumption|]). contradiction. }
  destruct (filter (labelled t) (renamed (pivot_table data))) as [|x xs] eqn:E;
    [contradiction|].
  assert (Hx : In x (filter (labelled t) (renamed (pivot_table data))))
    by (rewrite E; now left).
  apply filter_In in Hx. destruct Hx as [Hx Hlab]. apply labelled_true in Hlab.
  unfold renamed in Hx. apply in_map_iff in Hx. destruct Hx as (c & <- & Hc).
  simpl in Hlab.
  destruct (pivot_label_in_data data (fst c) (in_map fst _ _ Hc)) as (r & Hr & Hty).
  exists r. split; [exact Hr|].
  apply renamed_to in Hlab. destruct Hlab as [El|El].
  - right. now rewrite <- El.
  - left. simpl in Hin, El.
    repeat (destruct Hin as [[= <- <-]|Hin];
            [repeat (destruct El as [El|El];
                     [first [discriminate | injection El as El; rewrite El; exact Hty]|]);
             contradiction|]).
    contradiction.
Qed.

(** ** Checks of the model on known values *)

Example civil_round_trip :
  civil_from_days (days_from_civil 2022 3 13) = (2022, 3, 13)
  /\ civil_from_days (days_from_civil 2024 2 29) = (2024, 2, 29)
  /\ civil_from_days 0 = (1970, 1, 1).
Proof. repeat split. Qed.

(** In 2022 daylight saving ran from 13 March 10:00 UTC to 6 November
    09:00 UTC, both Sundays. *)
Example dst_2022 :
  dst_start 2022 = days_from_civil 2022 3 13 * 86400 + 10 * 3600
  /\ dst_end 2022 = days_from_civil 2022 11 6 * 86400 + 9 * 3600
  /\ weekday (days_from_civil 2022 3 13) = 0
  /\ weekday (days_from_civil 2022 11 6) = 0.
Proof. repeat split. Qed.

(** A local calendar day is a day on the local clock: 23 hours when clocks
    go forward, 25 when they go back, 24 otherwise. *)
Example local_calendar_days :
  let day y m d := NaiveDate (days_from_civil y m d) in
  let span date :=
    epoch (end_by_local_calendar_day date) - epoch (_handle_date date default_timezone) in
  span (day 2022 3 13) = 23 * 3600
  /\ span (day 2022 11 6) = 25 * 3600
  /\ span (day 2023 1 1) = 24 * 3600.
Proof. repeat split. Qed.

(** Before 2007 daylight saving began in April: on 2006-03-20 the Pacific
    clock is 8 hours behind UTC, and local midnight is 08:00 UTC; in 2006
    the change came on April 2, in 1974 on January 6. *)
Example pacific_offsets_before_2007 :
  utcoffset US_Pacific (days_from_civil 2006 3 20 * 86400 + 12 * 3600) = PST
  /\ epoch (_handle_date (NaiveDate (days_from_civil 2006 3 20)) default_timezone)
     = days_from_civil 2006 3 20 * 86400 + 8 * 3600
  /\ utcoffset US_Pacific (days_from_civil 2006 4 2 * 86400 + 9 * 3600) = PST
  /\ utcoffset US_Pacific (days_from_civil 2006 4 2 * 86400 + 10 * 3600) = PDT
  /\ utcoffset US_Pacific (days_from_civil 2006 10 29 * 86400 + 9 * 3600) = PST
  /\ utcoffset US_Pacific (days_from_civil 1974 1 6 * 86400 + 10 * 3600) = PDT
  /\ utcoffset US_Pacific (days_from_civil 1946 7 1 * 86400) = PST.
Proof. repeat split. Qed.

(** Nodes that read as numbers are sorted by value, nodes that read as text
    by code unit: 9 comes before 10, but "10" before "9A". *)
Example numbers_by_value_text_by_code_unit :
  index (pivot_table numbered_csv) = [(Str T0800, Number 9); (Str T0800, Number 10)]
  /\ index (pivot_table [row T0800 "9A" "LMP" (Some 25); row T0800 "10" "LMP" (Some 31)])
     = [(Str T0800, Str "10"); (Str T0800, Str "9A")].
Proof. split; reflexivity. Qed.

(** The call for the nodes 10 and 9 returns the rows of 9 first. *)
Example numbered_nodes_scenario :
  get_historical_lmp (served [] numbered_csv) new_year_2023 DAY_AHEAD_HOURLY
    (Some ["10"; "9"]) 5 initial_world
  = (Ok numbered_frame, after numbered_queried 0 [Sleep 5]).
Proof. reflexivity. Qed.

(** A negative pause is refused by [time.sleep], after everything else is
    done: the call raises instead of returning its frame; so is a pause of
    more than 292 years. *)
Example negative_pause_is_refused :
  get_historical_lmp (served [] node_a_csv) new_year_2023 DAY_AHEAD_HOURLY
    (Some ["NODE_A"]) (-1) initial_world
  = (Raise (ValueError "sleep length must be non-negative"), node_a_queried)
  /\ get_historical_lmp (served [] node_a_csv) new_year_2023 DAY_AHEAD_HOURLY
       (Some ["NODE_A"]) (10 ^ 10) initial_world
     = (Raise (OverflowError "timestamp too large to convert to C _PyTime_t"),
        node_a_queried).
Proof. split; reflexivity. Qed.

(** Of two priced rows with one key the first is kept. *)
Example first_of_two_priced_rows :
  pivot_cell (pivot_table dup_csv) (Str T0800, Str "NODE_A") (Str "LMP") = Some (Some 25).
Proof. reflexivity. Qed.

(** The end-to-end scenario of section 8 of the specification; the time of
    its row is midnight of 2023-01-01 on the Pacific clock. *)
Example section_8_scenario :
  get_historical_lmp (served [] node_a_csv) new_year_2023 DAY_AHEAD_HOURLY
    (Some ["NODE_A"]) 5 initial_world
  = (Ok node_a_frame, node_a_world)
  /\ wall {| epoch := 1672560000; tz := US_Pacific |} = days_from_civil 2023 1 1 * 86400.
Proof. split; reflexivity. Qed.

(** * Further properties of the pivot *)

Section PivotShape.
Context {N : Type} {num : Numbers N} {V : Type}.
Implicit Types (data : list (raw_row N V)).

Lemma key_of_fields (r : raw_row N V) t n c :
  key_of r = Some (t, n, c)
  <-> INTERVALSTARTTIME_GMT r = Some t /\ NODE r = Some n /\ LMP_TYPE r = Some c.
Proof.
  unfold key_of.
  destruct (INTERVALSTARTTIME_GMT r), (NODE r), (LMP_TYPE r); split;
    try (intros [= -> -> ->]; auto); try discriminate;
    try (intros (H1 & H2 & H3); congruence).
Qed.

Lemma in_index_priced (data : list (raw_row N V)) t n :
  In (t, n) (index (pivot_table data))
  <-> exists r c v, In r data /\ INTERVALSTARTTIME_GMT r = Some t /\ NODE r = Some n
                    /\ LMP_TYPE r = Some c /\ PRICE r = Some v.
Proof.
  rewrite (in_index data (t, n)). split.
  - intros (c & v & H). apply cell_of_some in H. destruct H as (r & Hin & Hk & Hp).
    apply key_of_fields in Hk. destruct Hk as (? & ? & ?). exists r, c, v. auto.
  - intros (r & c & v & Hin & Ht & Hn & Hc & Hp). exists c.
    apply (cell_of_priced data (t, n, c) r v Hin); [|exact Hp].
    apply key_of_fields. auto.
Qed.

Lemma in_labels_priced (data : list (raw_row N V)) c :
  In c (map fst (values (pivot_table data)))
  <-> exists r t n v, In r data /\ INTERVALSTARTTIME_GMT r = Some t /\ NODE r = Some n
                      /\ LMP_TYPE r = Some c /\ PRICE r = Some v.
Proof.
  rewrite labels_pivot, in_unstacked_labels. split.
  - intros ([t n] & v & H). apply cell_of_some in H. destruct H as (r & Hin & Hk & Hp).
    apply key_of_fields in Hk. destruct Hk as (? & ? & ?). exists r, t, n, v. auto.
  - intros (r & t & n & v & Hin & Ht & Hn & Hc & Hp). exists (t, n).
    apply (cell_of_priced data (t, n, c) r v Hin); [|exact Hp].
    apply key_of_fields. auto.
Qed.

(** The pivot has a row for a (time, node) pair exactly when some row of
    the CSV with that time and node has a component type and a price, and a
    column for a component type exactly when some row of that type has time,
    node and price: rows and types that are never priced leave no trace, and
    neither do rows with a missing key field. *)
Theorem pivot_shape (data : list (raw_row N V)) :
  (forall t n,
      In (t, n) (index (pivot_table data))
      <-> exists r c v, In r data /\ INTERVALSTARTTIME_GMT r = Some t /\ NODE r = Some n
                        /\ LMP_TYPE r = Some c /\ PRICE r = Some v)
  /\ (forall c,
        In c (map fst (values (pivot_table data)))
        <-> exists r t n v, In r data /\ INTERVALSTARTTIME_GMT r = Some t /\ NODE r = Some n
                            /\ LMP_TYPE r = Some c /\ PRICE r = Some v).
Proof.
  split; [intros t n; apply in_index_priced | intros c; apply in_labels_priced].
Qed.

Lemma keys_of_Permutation data data' :
  Permutation data data' -> Permutation (keys_of data) (keys_of data').
Proof.
  induction 1 as [|r l l' _ IH|r r' l|l l' l'' _ IH1 _ IH2]; simpl.
  - constructor.
  - destruct (key_of r); [now constructor | exact IH].
  - destruct (key_of r), (key_of r'); try apply Permutation_refl. apply perm_swap.
  - now transitivity (keys_of l').
Qed.

Lemma unstacked_labels_ext data data' :
  (forall r, In r data <-> In r data') ->
  unstacked_labels data = unstacked_labels data'.
Proof.
  intros H. apply (sorted_ext _ scalar_cmp_order);
    try (apply sorted_sort_uniq; apply scalar_cmp_order).
  intros c. rewrite !in_unstacked_labels.
  assert (Hc : forall d d' : list (raw_row N V), (forall r, In r d -> In r d') ->
            (exists rk v, cell_of d (rk, c) = Some v) ->
            exists rk v, cell_of d' (rk, c) = Some v).
  { intros d d' Hd (rk & v & Hv). exists rk. apply cell_of_some_iff.
    apply cell_of_some in Hv. destruct Hv as (r & Hin & Hk & Hp).
    exists r, v. auto. }
  split; apply Hc; intros r; apply H.
Qed.

Lemma cell_of_unique data r k :
  NoDup (keys_of data) -> In r data -> key_of r = Some k -> cell_of data k = PRICE r.
Proof.
  intros Hnd Hin Hk. unfold cell_of. rewrite (unique_key_group data r k Hnd Hin Hk).
  simpl. now destruct (PRICE r).
Qed.

(** When no two rows of the CSV share a key, the order of the rows does not
    matter at all: any rearrangement of the rows pivots to the same table. *)
Theorem pivot_order_independent data data' :
  NoDup (keys_of data) -> Permutation data data' ->
  pivot_table data' = pivot_table data.
Proof.
  intros Hnd Hperm.
  assert (Hnd' : NoDup (keys_of data')).
  { eapply Permutation_NoDup; [apply keys_of_Permutation; exact Hperm | exact Hnd]. }
  assert (Hin : forall r, In r data' <-> In r data).
  { intros r. split; apply Permutation_in; [now apply Permutation_sym | exact Hperm]. }
  assert (Hcell : forall k, cell_of data' k = cell_of data k).
  { intros k. destruct (cell_of data k) as [v|] eqn:E.
    - apply cell_of_some in E. destruct E as (r & Hr & Hk & Hp).
      rewrite <- Hp. apply cell_of_unique; auto. now apply Hin.
    - destruct (cell_of data' k) as [v|] eqn:E'; [|reflexivity].
      apply cell_of_some in E'. destruct E' as (r & Hr & Hk & Hp).
      apply Hin in Hr. rewrite (cell_of_unique data r k Hnd Hr Hk) in E. congruence. }
  assert (Hidx : index (pivot_table data') = index (pivot_table data))
    by now apply index_ext.
  assert (Hval : values (pivot_table data') = values (pivot_table data)).
  { rewrite !values_pivot, Hidx, (unstacked_labels_ext data' data Hin).
    apply map_ext. intros c. f_equal. apply map_ext. intros rk. apply Hcell. }
  destruct (pivot_table data') as [i' v'], (pivot_table data) as [i v].
  simpl in *. now subst.
Qed.

End PivotShape.

Lemma pivot_order_independent_witness :
  pivot_table (rev node_a_csv) = pivot_table node_a_csv.
Proof.
  apply (pivot_order_independent node_a_csv (rev node_a_csv)).
  - repeat constructor; simpl; intuition discriminate.
  - apply Permutation_rev.
Defined.

Lemma pivot_shape_witness :
  In (Str T0800, Str "NODE_A") (index (pivot_table node_a_csv)).
Proof.
  apply (proj1 (pivot_shape node_a_csv)).
  exists (row T0800 "NODE_A" "LMP" (Some 25)), (Str "LMP"), 25.
  repeat split; simpl; auto.
Defined.

(** * Further properties of the retrieval *)

Import Retrieval.

Section RetryFacts.
Context {N : Type} {num : Numbers N} {V : Type} (env : Env N V).

Lemma count_app p (a b : list event) : count p (a ++ b) = (count p a + count p b)%nat.
Proof. unfold count. now rewrite filter_app, length_app. Qed.

Lemma after_after w a e1 b e2 : after (after w a e1) b e2 = after w (b + a) (e1 ++ e2).
Proof. unfold after. simpl. f_equal; [lia | now rewrite app_assoc]. Qed.

Lemma after_nothing w : after w 0 [] = w.
Proof. destruct w. unfold after. simpl. now rewrite app_nil_r. Qed.

Lemma last_default {A} (l : list A) x d d' : last (x :: l) d = last (x :: l) d'.
Proof.
  revert x. induction l as [|y l IH]; intros x; [reflexivity|].
  change (last (y :: l) d = last (y :: l) d'). apply IH.
Qed.

Lemma last_cons {A} (l : list A) x d : last (x :: l) d = last l x.
Proof. destruct l as [|y l]; [reflexivity|]. apply (last_default l y d x). Qed.

(** The loop runs through a series of failing answers one attempt each. *)
Lemma while_retry_through_failures url : forall fails fuel retry_num r0 w,
  0 <= retry_num -> retry_num + Z.of_nat (List.length fails) <= 3 ->
  answers env url (requests_made w) fails -> Forall failed fails ->
  while_retry env (List.length fails + fuel) url retry_num r0 w
  = while_retry env fuel url (retry_num + Z.of_nat (List.length fails))
      (last (map Some fails) r0)
      (after w (List.length fails) (failed_attempts url retry_num fails)).
Proof.
  induction fails as [|r fails IH]; intros fuel n r0 w Hn Hle Hans Hfail.
  - simpl. rewrite Z.add_0_r, after_nothing. reflexivity.
  - simpl in Hans. destruct Hans as [Hs Hans]. inversion Hfail as [|? ? Hr Hfail']; subst.
    simpl List.length in *.
    change (S (List.length fails) + fuel)%nat with (S (List.length fails + fuel)).
    rewrite (while_retry_failure env _ url n r0 r w) by (auto; lia).
    rewrite (IH fuel (n + 1) (Some r)) by (auto; simpl; lia).
    rewrite after_after. f_equal.
    + lia.
    + simpl map. now rewrite last_cons.
    + f_equal. lia.
Qed.

Lemma count_failed_attempts url : forall fails retry_num,
  count is_get (failed_attempts url retry_num fails) = List.length fails
  /\ count is_sleep (failed_attempts url retry_num fails) = List.length fails
  /\ count (is_sleep_of 5) (failed_attempts url retry_num fails) = List.length fails
  /\ Forall (fun e => is_get e = true -> e = Get url) (failed_attempts url retry_num fails).
Proof.
  induction fails as [|r fails IH]; intros n; simpl.
  - repeat split; constructor.
  - destruct (IH (n + 1)) as (H1 & H2 & H3 & H4).
    unfold count in *. simpl. rewrite H1, H2, H3. repeat split.
    constructor; [reflexivity|]. repeat (constructor; [discriminate|]). exact H4.
Qed.

End RetryFacts.

(** The loop stops at the first answer with status 200: after [k] failing
    answers ([k] at most 2) and then a good one, it has issued [k + 1] GETs,
    paused [k] times, 5 seconds each, never after the good answer, and hands
    on the good answer; with [k = 0] there is one GET and no pause. *)
Theorem retry_stops_at_first_success {N} {num : Numbers N} {V} (env : Env N V) url w fails ok :
  (List.length fails < 3)%nat ->
  answers env url (requests_made w) (fails ++ [ok]) ->
  Forall failed fails -> status_code ok = 200 ->
  let evs := (failed_attempts url 0 fails ++ [Get url])%list in
  while_retry env 3 url 0 None w = (Ok (Some ok), after w (S (List.length fails)) evs)
  /\ count is_get evs = S (List.length fails)
  /\ count is_sleep evs = List.length fails
  /\ count (is_sleep_of 5) evs = List.length fails.
Proof.
  intros Hlen Hans Hfail Hok evs.
  destruct (count_failed_attempts url fails 0) as (C1 & C2 & C3 & _).
  split; [|unfold evs; rewrite !count_app, C1, C2, C3; unfold count; simpl; repeat split; lia].
  assert (Hsplit : answers env url (requests_made w) fails
                   /\ server env (List.length fails + requests_made w) url = Ok ok).
  { clear -Hans. revert Hans. generalize (requests_made w).
    induction fails as [|r fails IH]; simpl; intros n.
    - tauto.
    - intros [Hs Hrest]. destruct (IH _ Hrest) as [Ha Hb]. repeat split; auto.
      now rewrite Nat.add_succ_r in Hb. }
  destruct Hsplit as [Hans' Hs].
  replace 3%nat with (List.length fails + S (2 - List.length fails))%nat by lia.
  rewrite (while_retry_through_failures env url fails _ 0 None w) by (auto; lia).
  rewrite (while_retry_success env _ url _ _ ok) by (simpl; auto; lia).
  unfold evs. rewrite after_after. reflexivity.
Qed.

Lemma retry_stops_at_first_success_witness :
  let bad := {| status_code := 503; content := [] |} in
  let good := {| status_code := 200; content := [] |} in
  let evs := (failed_attempts "u" 0 [bad] ++ [Get "u"])%list in
  while_retry (served [503] node_a_csv) 3 "u" 0 None initial_world
  = (Ok (Some good), after initial_world 2 evs)
  /\ count is_get evs = 2%nat
  /\ count is_sleep evs = 1%nat
  /\ count (is_sleep_of 5) evs = 1%nat.
Proof.
  apply (retry_stops_at_first_success (served [503] node_a_csv) "u" initial_world
           [{| status_code := 503; content := [] |}]
           {| status_code := 200; content := [] |}).
  - simpl. lia.
  - simpl. auto.
  - repeat constructor. unfold failed. simpl. discriminate.
  - reflexivity.
Defined.

Section MethodTrace.
Context {N : Type} {num : Numbers N} {V : Type} (env : Env N V).

(** The loop never issues more GETs than the guard leaves room for; each
    pause is one of 5 seconds and follows a GET; each GET is for [url]. *)
Lemma while_retry_bounded fuel : forall url retry_num r w,
  0 <= retry_num <= 3 ->
  exists evs,
    snd (while_retry env fuel url retry_num r w) = after w (count is_get evs) evs
    /\ Z.of_nat (count is_get evs) <= 3 - retry_num
    /\ (count is_sleep evs <= count is_get evs)%nat
    /\ count (is_sleep_of 5) evs = count is_sleep evs
    /\ Forall (fun e => is_get e = true -> e = Get url) evs.
Proof.
  assert (Hnil : forall w' : world, w' = after w' (count is_get []) []).
  { intros w'. symmetry. apply after_nothing. }
  induction fuel as [|fuel IH]; intros url n r w Hn.
  - exists []. cbn [while_retry]. destruct (n <? 3); unfold ret; cbn [snd].
    all: split; [apply Hnil|].
    all: repeat split; try (unfold count; cbn [filter List.length]; lia); constructor.
  - destruct (Z.le_gt_cases 3 n) as [Hge|Hlt].
    + exists []. rewrite while_retry_done by lia. cbn [snd].
      split; [apply Hnil|].
      repeat split; try (unfold count; cbn [filter List.length]; lia); constructor.
    + destruct (server env (requests_made w) url) as [resp|e] eqn:Hs.
      * destruct (Z.eq_dec (status_code resp) 200) as [Hc|Hc].
        -- exists [Get url]. rewrite (while_retry_success _ _ _ _ _ _ _ Hlt Hs Hc).
           cbn [snd]. split; [reflexivity|].
           repeat split;
             try (unfold count; cbn [filter List.length is_get is_sleep is_sleep_of]; lia).
           repeat constructor.
        -- rewrite (while_retry_failure _ _ _ _ _ _ _ Hlt Hs Hc).
           destruct (IH url (n + 1) (Some resp)
                       (after w 1 (failed_attempt url (status_code resp) (n + 1))))
             as (evs & Hw & Hg & Hsl & H5 & Hu); [lia|].
           exists (failed_attempt url (status_code resp) (n + 1) ++ evs)%list.
           rewrite Hw, after_after, !count_app.
           replace (count is_get (failed_attempt url (status_code resp) (n + 1))) with 1%nat
             by reflexivity.
           replace (count is_sleep (failed_attempt url (status_code resp) (n + 1))) with 1%nat
             by reflexivity.
           replace (count (is_sleep_of 5) (failed_attempt url (status_code resp) (n + 1)))
             with 1%nat by reflexivity.
           repeat split; try lia.
           ++ f_equal. lia.
           ++ apply Forall_app. split; [|exact Hu].
              constructor; [reflexivity|]. repeat (constructor; [discriminate|]). constructor.
      * exists [Get url]. rewrite (while_retry_network_error _ _ _ _ _ _ _ Hlt Hs).
        cbn [snd]. split; [reflexivity|].
        repeat split;
          try (unfold count; cbn [filter List.length is_get is_sleep is_sleep_of]; lia).
        repeat constructor.
Qed.

(** With a supported market the query is the loop on the URL of line 221,
    followed by the reading of the answer. *)
Lemma query_csv_supported date market nodes w q run v col :
  market_params market = Ok (q, run, v, col) ->
  query_csv env date market nodes w
  = match while_retry env 3 (request_url date q run v nodes) 0 None w with
    | (Ok (Some r), w1) => (read_zipped_csv env (content r) col, w1)
    | (Ok None, w1) =>
        (Raise (UnboundLocalError "local variable 'r' referenced before assignment"), w1)
    | (Raise e, w1) => (Raise e, w1)
    end.
Proof.
  intros H. unfold query_csv, bind at 1, lift at 1. rewrite H. cbv zeta.
  unfold bind, request_url, lift, raise.
  destruct (while_retry env 3 _ 0 None w) as [[[r|]|e] w1]; reflexivity.
Qed.

Lemma query_csv_world date market nodes w q run v col :
  market_params market = Ok (q, run, v, col) ->
  snd (query_csv env date market nodes w)
  = snd (while_retry env 3 (request_url date q run v nodes) 0 None w).
Proof.
  intros H. rewrite (query_csv_supported _ _ _ _ _ _ _ _ H).
  destruct (while_retry env 3 _ 0 None w) as [[[r|]|e] w1]; reflexivity.
Qed.

(** The pause of [sleep] seconds is the last thing a call does, and only a
    call that returns does it. *)
Lemma get_historical_lmp_world date market nodes sleep w :
  let q := query_csv env date market (nodes_or_default nodes) w in
  let g := get_historical_lmp env date market nodes sleep w in
  (forall df, fst g = Ok df -> snd g = after (snd q) 0 [Sleep sleep])
  /\ (forall e, fst g = Raise e -> snd g = snd q).
Proof.
  cbv zeta. unfold get_historical_lmp. cbv zeta.
  unfold bind, lift, time_sleep, raise, emit, ret, after.
  destruct (query_csv env date market (nodes_or_default nodes) w) as [[data|e] w1];
    cbn [fst snd].
  - destruct (normalize env market (pivot_table data)) as [df'|e]; cbn [fst snd].
    + destruct (longest_sleep <? Z.abs sleep); cbn [fst snd];
        [split; intros; try discriminate; reflexivity|].
      destruct (sleep <? 0); cbn [fst snd]; split; intros; try discriminate; reflexivity.
    + split; intros; try discriminate; reflexivity.
  - split; intros; try discriminate; reflexivity.
Qed.

End MethodTrace.

(** Whatever the endpoint does, a call issues at most three GETs, all for
    one and the same URL, and at least one when the market is supported;
    it pauses at most once per GET and once more before returning. *)
Theorem at_most_three_requests {N} {num : Numbers N} {V} (env : Env N V)
    date market nodes sleep w :
  exists evs url,
    snd (get_historical_lmp env date market nodes sleep w) = after w (count is_get evs) evs
    /\ (count is_get evs <= 3)%nat
    /\ (forall p, market_params market = Ok p -> (1 <= count is_get evs)%nat)
    /\ Forall (fun e => is_get e = true -> e = Get url) evs
    /\ (count is_sleep evs <= S (count is_get evs))%nat.
Proof.
  destruct (get_historical_lmp_world env date market nodes sleep w) as [Hok Hraise].
  destruct (market_params market) as [[[[q run] v] col]|e] eqn:Hp.
  - pose proof (query_csv_world env date market (nodes_or_default nodes) w _ _ _ _ Hp) as Hq.
    set (url := request_url date q run v (nodes_or_default nodes)) in *.
    destruct (while_retry_bounded env 3 url 0 None w ltac:(lia))
      as (evs & Hw & Hg & Hsl & _ & Hu).
    destruct (while_retry_first_get env url None w) as [rest Hfirst].
    assert (H1 : (1 <= count is_get evs)%nat).
    { rewrite Hw in Hfirst. simpl in Hfirst. apply app_inv_head in Hfirst.
      rewrite Hfirst. unfold count. simpl. lia. }
    destruct (fst (get_historical_lmp env date market nodes sleep w)) as [df|e] eqn:Hg'.
    + exists (evs ++ [Sleep sleep])%list, url.
      rewrite (Hok df eq_refl), Hq, Hw, after_after, !count_app.
      replace (count is_get [Sleep sleep]) with 0%nat by reflexivity.
      replace (count is_sleep [Sleep sleep]) with 1%nat by reflexivity.
      rewrite Nat.add_0_r. repeat split; try lia.
      apply Forall_app. split; [exact Hu|]. repeat constructor. discriminate.
    + exists evs, url. rewrite (Hraise e eq_refl), Hq, Hw. repeat split; auto; lia.
  - exists [], "". rewrite (get_historical_lmp_unsupported env _ _ _ _ _ _ Hp). simpl.
    rewrite after_nothing.
    repeat split;
      try (unfold count; cbn [filter List.length is_get is_sleep is_sleep_of]; lia);
      try discriminate; constructor.
Qed.

Lemma at_most_three_requests_witness :
  exists evs url,
    snd (get_historical_lmp (served [503; 503; 503] node_a_csv) new_year_2023
           DAY_AHEAD_HOURLY (Some ["NODE_A"]) 5 initial_world)
    = after initial_world (count is_get evs) evs
    /\ (count is_get evs <= 3)%nat
    /\ (forall p, market_params DAY_AHEAD_HOURLY = Ok p -> (1 <= count is_get evs)%nat)
    /\ Forall (fun e => is_get e = true -> e = Get url) evs
    /\ (count is_sleep evs <= S (count is_get evs))%nat.
Proof.
  exact (at_most_three_requests (served [503; 503; 503] node_a_csv) new_year_2023
           DAY_AHEAD_HOURLY (Some ["NODE_A"]) 5 initial_world).
Defined.


(** A failure of the network is not retried: when [requests.get] raises,
    after [k] failing answers ([k] at most 2), the call ends with that
    exception at once, with no further GET and no pause after it. *)
Theorem network_error_propagates {N} {num : Numbers N} {V} (env : Env N V)
    date market nodes sleep w
    q run v col fails e :
  market_params market = Ok (q, run, v, col) ->
  let url := request_url date q run v (nodes_or_default nodes) in
  (List.length fails < 3)%nat ->
  answers env url (requests_made w) fails -> Forall failed fails ->
  server env (List.length fails + requests_made w) url = Raise e ->
  get_historical_lmp env date market nodes sleep w
  = (Raise e, after w (S (List.length fails)) (failed_attempts url 0 fails ++ [Get url])).
Proof.
  intros Hp url Hlen Hans Hfail Hs.
  assert (Hq : query_csv env date market (nodes_or_default nodes) w
               = (Raise e, after w (S (List.length fails))
                             (failed_attempts url 0 fails ++ [Get url]))).
  { rewrite (query_csv_supported env _ _ _ _ _ _ _ _ Hp). fold url.
    replace 3%nat with (List.length fails + S (2 - List.length fails))%nat by lia.
    rewrite (while_retry_through_failures env url fails _ 0 None w) by (auto; lia).
    rewrite (while_retry_network_error env _ url _ _ e) by (simpl; auto; lia).
    now rewrite after_after. }
  unfold get_historical_lmp, bind at 1. now rewrite Hq.
Qed.

Lemma network_error_propagates_witness :
  let env := {| server := fun _ _ => Raise (ConnectionError "unreachable");
                read_zipped_csv := fun _ _ => Ok node_a_csv;
                to_datetime := parse |} in
  get_historical_lmp env new_year_2023 DAY_AHEAD_HOURLY (Some ["NODE_A"]) 5 initial_world
  = (Raise (ConnectionError "unreachable"),
     after initial_world 1
       [Get (dam_url "20230101T08:00-0000" "20230102T08:00-0000" "NODE_A")]).
Proof.
  exact (network_error_propagates
           {| server := fun _ _ => Raise (ConnectionError "unreachable");
              read_zipped_csv := fun _ _ => Ok node_a_csv;
              to_datetime := parse |}
           new_year_2023 DAY_AHEAD_HOURLY (Some ["NODE_A"]) 5 initial_world
           "PRC_LMP" "DAM" 12 "MW" [] (ConnectionError "unreachable")
           eq_refl (Nat.lt_0_succ 2) I (Forall_nil _) eq_refl).
Defined.

(** The pause of [sleep] seconds comes last and only when the call
    returns: a call that raises (the archive cannot be read, a column is
    missing, a time does not parse) leaves the world as the retrieval left
    it, without the pause. *)
Theorem politeness_pause_only_on_return {N} {num : Numbers N} {V} (env : Env N V)
    date market nodes sleep w :
  let q := query_csv env date market (nodes_or_default nodes) w in
  let g := get_historical_lmp env date market nodes sleep w in
  (forall df, fst g = Ok df -> snd g = after (snd q) 0 [Sleep sleep])
  /\ (forall e, fst g = Raise e -> snd g = snd q).
Proof. apply get_historical_lmp_world. Qed.

Lemma politeness_pause_only_on_return_witness :
  snd (get_historical_lmp (served [] node_a_csv) new_year_2023 DAY_AHEAD_HOURLY
         (Some ["NODE_A"]) 5 initial_world)
  = after (snd (query_csv (served [] node_a_csv) new_year_2023 DAY_AHEAD_HOURLY
                  ["NODE_A"] initial_world)) 0 [Sleep 5].
Proof.
  apply (proj1 (politeness_pause_only_on_return (served [] node_a_csv) new_year_2023
                  DAY_AHEAD_HOURLY (Some ["NODE_A"]) 5 initial_world) node_a_frame).
  reflexivity.
Defined.


(** * Further properties of the returned frame *)

Section ReturnedValues.
Context {N : Type} {num : Numbers N} {V : Type} (env : Env N V).

Lemma getitem_list_present ls (df : DataFrame N V) :
  Forall (fun l => filter (labelled l) (columns df) <> []) ls ->
  exists cols, getitem_list ls df = Ok cols.
Proof.
  induction 1 as [|l ls Hl _ [rest IH]]; simpl; [eauto|].
  destruct (filter (labelled l) (columns df)) as [|c cs]; [contradiction|].
  rewrite IH. eauto.
Qed.

(** The column that the pivot holds for a component type. *)
Lemma renamed_column (data : list (raw_row N V)) x :
  In x (renamed (pivot_table data)) ->
  exists src,
    In src (unstacked_labels data)
    /\ x = (rename_label canonical_names src,
            map (fun rk => Num (cell_of data (rk, src))) (index (pivot_table data))).
Proof.
  unfold renamed. rewrite values_pivot, map_map. intros Hx. apply in_map_iff in Hx.
  destruct Hx as (src & <- & Hsrc). exists src. split; [exact Hsrc|].
  simpl. now rewrite map_map.
Qed.

Lemma renamed_present (data : list (raw_row N V)) src (t : string) :
  In src (unstacked_labels data) ->
  rename_label canonical_names src = Str t ->
  filter (labelled t) (renamed (pivot_table data)) <> [].
Proof.
  intros Hsrc Ht Hnil.
  assert (Hv : In (src, map (fun rk => cell_of data (rk, src)) (index (pivot_table data)))
                  (values (pivot_table data))).
  { rewrite values_pivot at 1.
    exact (in_map (fun c => (c, map (fun rk => cell_of data (rk, c))
                                    (index (pivot_table data)))) _ _ Hsrc). }
  apply (in_map (fun col : scalar N * list (option V) =>
                   (rename_label canonical_names (fst col), map (@Num N V) (snd col)))) in Hv.
  fold (renamed (pivot_table data)) in Hv.
  assert (Hin : In (rename_label canonical_names src,
                    map (@Num N V) (map (fun rk => cell_of data (rk, src))
                                        (index (pivot_table data))))
                   (filter (labelled t) (renamed (pivot_table data)))).
  { apply filter_In. split; [exact Hv|]. apply labelled_true. exact Ht. }
  rewrite Hnil in Hin. exact Hin.
Qed.

Lemma normalize_succeeds market (p : Pivot N V) instant :
  mem "NODE" (map fst (values p)) = false ->
  mem "INTERVALSTARTTIME_GMT" (map fst (values p)) = false ->
  filter (labelled "Time") (renamed p) = [] ->
  to_datetime env (time_column p) = Ok instant ->
  Forall (fun t => filter (labelled t) (renamed p) <> [])
         ["LMP"; "Energy"; "Congestion"; "Loss"] ->
  exists df, normalize env market p = Ok df.
Proof.
  intros Hnode Hist Ht Hes Hall. unfold normalize.
  destruct (reset_index p) as [df0|e] eqn:R.
  2:{ unfold reset_index in R. rewrite Hnode, Hist in R. discriminate. }
  destruct (reset_index_rename _ _ R) as (_ & Hn & Hc). cbv zeta.
  set (df1 := rename canonical_names df0) in *.
  set (times := map (fun c => @Stamp N V (tz_convert default_timezone
                                            {| epoch := instant c; tz := UTC |}))
                    (time_column p)).
  set (df2 := setitem "Market" (repeat (Obj market) (nrows (setitem "Time" times df1)))
                (setitem "Time" times df1)).
  assert (Hf : forall l, l <> "Market" -> l <> "Time" ->
            filter (labelled l) (columns df2)
            = ((if String.eqb l "Node" then [(Str "Node", node_column p)] else [])
               ++ filter (labelled l) (renamed p))%list).
  { intros l H1 H2. subst df2.
    rewrite filter_setitem_other by congruence.
    rewrite filter_setitem_other by congruence.
    rewrite Hc, filter_head2.
    destruct (String.eqb_spec l "Time"); [contradiction | reflexivity]. }
  assert (Hm : filter (labelled "Market") (columns df2) <> []).
  { subst df2. rewrite filter_setitem.
    destruct (filter (labelled "Market") _); discriminate. }
  assert (HT : filter (labelled "Time") (columns df2) <> []).
  { subst df2. rewrite filter_setitem_other by discriminate.
    rewrite filter_setitem, Hc, filter_head2, Ht. discriminate. }
  assert (Hsel : exists cols, getitem_list canonical_columns df2 = Ok cols).
  { apply getitem_list_present. unfold canonical_columns.
    repeat match goal with
           | H : Forall _ (_ :: _) |- _ => inversion H; clear H; subst
           end.
    repeat (constructor; [first [assumption | rewrite Hf by discriminate; simpl app;
                                 first [assumption | discriminate]]|]).
    constructor. }
  destruct Hsel as [cols Hsel].
  exists {| nrows := nrows df2; columns := cols |}.
  rewrite Hc at 1. rewrite filter_head2, Ht. simpl app. cbv iota beta.
  unfold to_datetime_tz. rewrite Hes. fold times. fold df2.
  unfold select. now rewrite Hsel.
Qed.

End ReturnedValues.

(** A call returns whenever the retrieval yields a CSV that has a priced row
    of each of the four components LMP, MCE, MCC and MCL and no component
    type called NODE, INTERVALSTARTTIME_GMT, Time or Node, the conversion of
    the times of the pivot succeeds and the pause asked for is one that
    [time.sleep] takes, neither negative nor too long; the pause of [sleep]
    seconds is then the last thing the call does.  (A component type called
    Node would give the frame two Node columns, and what
    [filter_lmp_nodes], which is not among the sources, makes of such a
    frame is not known.) *)
Theorem returns_on_complete_csv {N} {num : Numbers N} {V} (env : Env N V) date market nodes
    sleep w data w1 instant :
  query_csv env date market (nodes_or_default nodes) w = (Ok data, w1) ->
  (forall c, In c ["LMP"; "MCE"; "MCC"; "MCL"] ->
     exists r t n v, In r data /\ INTERVALSTARTTIME_GMT r = Some t /\ NODE r = Some n
                     /\ LMP_TYPE r = Some (Str c) /\ PRICE r = Some v) ->
  (forall r c, In r data -> LMP_TYPE r = Some (Str c) ->
     ~ In c ["NODE"; "INTERVALSTARTTIME_GMT"; "Time"; "Node"]) ->
  to_datetime env (time_column (pivot_table data)) = Ok instant ->
  0 <= sleep <= longest_sleep ->
  exists df,
    get_historical_lmp env date market nodes sleep w = (Ok df, after w1 0 [Sleep sleep]).
Proof.
  intros Hq Hcomp Hty Hparse Hsleep.
  set (p := pivot_table data) in *.
  assert (Hlab : forall l, In (Str l) (map fst (values p)) ->
            ~ In l ["NODE"; "INTERVALSTARTTIME_GMT"; "Time"; "Node"]).
  { intros l Hl. apply pivot_label_in_data in Hl. destruct Hl as (r & Hr & Hr').
    exact (Hty r l Hr Hr'). }
  assert (Hmem : forall l, In l ["NODE"; "INTERVALSTARTTIME_GMT"; "Time"; "Node"] ->
            mem l (map fst (values p)) = false).
  { intros l Hl. destruct (mem l (map fst (values p))) eqn:E; [|reflexivity].
    unfold mem in E. apply existsb_exists in E. destruct E as (x & Hx & E).
    apply scalar_eqb_eq in E. subst x. exfalso. exact (Hlab l Hx Hl). }
  assert (Htime : filter (labelled "Time") (renamed p) = []).
  { apply filter_none. intros x Hx. apply renamed_column in Hx.
    destruct Hx as (src & Hsrc & ->). unfold labelled. cbn [fst].
    apply scalar_eqb_neq. intros E. symmetry in E. apply renamed_to in E.
    rewrite <- labels_pivot in Hsrc. fold p in Hsrc.
    destruct E as [E|E].
    - rewrite E in Hsrc. apply (Hlab _ Hsrc). simpl. tauto.
    - simpl in E.
      repeat (destruct E as [E|E]; [try discriminate; injection E as E|]);
        try contradiction.
      rewrite <- E in Hsrc. apply (Hlab _ Hsrc). simpl. tauto. }
  assert (Hpresent : forall src t,
            In (src, t) [("LMP", "LMP"); ("MCE", "Energy"); ("MCC", "Congestion");
                         ("MCL", "Loss")] ->
            filter (labelled t) (renamed p) <> []).
  { intros src t Hst. apply (renamed_present data (Str src) t).
    - rewrite <- labels_pivot.
      destruct (Hcomp src) as (r & tm & n & v & H).
      { simpl in Hst. simpl. intuition congruence. }
      apply in_labels_priced. eauto 10.
    - simpl in Hst.
      repeat (destruct Hst as [[= <- <-]|Hst]; [reflexivity|]). contradiction. }
  destruct (normalize_succeeds env market p instant) as [df Hn]; auto.
  - apply Hmem. simpl. tauto.
  - apply Hmem. simpl. tauto.
  - repeat constructor.
    + apply (Hpresent "LMP"). simpl. tauto.
    + apply (Hpresent "MCE"). simpl. tauto.
    + apply (Hpresent "MCC"). simpl. tauto.
    + apply (Hpresent "MCL"). simpl. tauto.
  - exists df. unfold get_historical_lmp. cbv zeta. unfold bind at 1. rewrite Hq.
    unfold bind, lift, time_sleep, emit, ret. fold p. rewrite Hn.
    destruct (Z.ltb_spec longest_sleep (Z.abs sleep)); [lia|].
    destruct (Z.ltb_spec sleep 0); [lia | reflexivity].
Qed.

Lemma returns_on_complete_csv_witness :
  exists df,
    get_historical_lmp (served [] two_node_csv) new_year_2023 DAY_AHEAD_HOURLY
      (Some ["NODE_A"]) 5 initial_world
    = (Ok df, after node_a_queried 0 [Sleep 5]).
Proof.
  apply (returns_on_complete_csv (served [] two_node_csv) new_year_2023 DAY_AHEAD_HOURLY
           (Some ["NODE_A"]) 5 initial_world two_node_csv node_a_queried
           (fun _ => 1672560000) eq_refl).
  - intros c Hc. simpl in Hc.
    destruct Hc as [<-|[<-|[<-|[<-|[]]]]];
      [ exists (row T0800 "NODE_A" "LMP" (Some 25)), (Str T0800), (Str "NODE_A"), 25
      | exists (row T0800 "NODE_A" "MCE" (Some 20)), (Str T0800), (Str "NODE_A"), 20
      | exists (row T0800 "NODE_A" "MCC" (Some 3)), (Str T0800), (Str "NODE_A"), 3
      | exists (row T0800 "NODE_A" "MCL" (Some 2)), (Str T0800), (Str "NODE_A"), 2 ];
      simpl; tauto.
  - intros r c Hin Hc. simpl in Hin.
    repeat (destruct Hin as [<-|Hin]; [injection Hc as <-; simpl; intuition discriminate|]).
    contradiction.
  - reflexivity.
  - unfold longest_sleep. lia.
Defined.

Section ReturnedColumns.
Context {N : Type} {num : Numbers N} {V : Type} (env : Env N V).

Lemma assoc_cons_other (t l : string) {B} (x : B) (rest : list (scalar N * B)) :
  l <> t -> assoc (Str t) ((Str l, x) :: rest) = assoc (Str t) rest.
Proof.
  intros Hne. cbn [assoc]. rewrite Str_eqb.
  destruct (String.eqb_spec t l); [congruence | reflexivity].
Qed.

Lemma assoc_skip_filter (t X : string) (cols rest : list (scalar N * list (cell N V))) :
  X <> t -> assoc (Str t) (filter (labelled X) cols ++ rest)%list = assoc (Str t) rest.
Proof.
  intros Hne. apply assoc_skip. intros c Hc. apply filter_In in Hc.
  destruct Hc as [_ Hc]. apply labelled_true in Hc. congruence.
Qed.

Lemma assoc_skip_market (t : string) market (p : Pivot N V)
    (rest : list (scalar N * list (cell N V))) :
  "Market" <> t -> assoc (Str t) (market_columns market p ++ rest)%list = assoc (Str t) rest.
Proof.
  intros Hne. destruct (market_columns_repeat market p) as [k ->].
  apply assoc_skip. intros c Hc. apply repeat_spec in Hc. subst c. simpl. congruence.
Qed.

Lemma assoc_hit (t : string) (cols rest : list (scalar N * list (cell N V))) :
  filter (labelled t) cols <> [] ->
  exists x, In x cols /\ fst x = Str t
            /\ assoc (Str t) (filter (labelled t) cols ++ rest)%list = Some (snd x).
Proof.
  destruct (filter (labelled t) cols) as [|[l c] more] eqn:E; [contradiction|].
  intros _. assert (Hin : In (l, c) (filter (labelled t) cols)) by (rewrite E; now left).
  apply filter_In in Hin. destruct Hin as [Hin Hl]. apply labelled_true in Hl.
  simpl in Hl. subst l. exists (Str t, c). repeat split; auto.
  simpl. now rewrite scalar_eqb_refl.
Qed.

End ReturnedColumns.

(** In a returned frame the LMP column holds, row by row, the first price
    that is present among the CSV rows of component type LMP with the row's
    time and node (NaN when there is none), and the Energy, Congestion and
    Loss columns hold the same for MCE, MCC and MCL, provided no component
    type of the CSV is itself called Energy, Congestion or Loss. *)
Theorem price_columns_hold_first_prices {N} {num : Numbers N} {V} (env : Env N V) date market
    nodes sleep w data w1 df w' src t :
  query_csv env date market (nodes_or_default nodes) w = (Ok data, w1) ->
  get_historical_lmp env date market nodes sleep w = (Ok df, w') ->
  In (src, t) [("LMP", "LMP"); ("MCE", "Energy"); ("MCC", "Congestion"); ("MCL", "Loss")] ->
  (src <> t -> forall r, In r data -> LMP_TYPE r <> Some (Str t)) ->
  column t df
  = Some (map (fun k => Num (cell_of data (k, Str src))) (index (pivot_table data))).
Proof.
  intros Hq H Hin Hfree. apply get_historical_lmp_ok in H.
  destruct H as (data' & w1' & Hq' & Hn & _).
  rewrite Hq in Hq'. injection Hq' as <- <-.
  destruct (normalize_ok env market _ df Hn)
    as (es & _ & _ & _ & Hc & Hl & He & Hg & Hs).
  set (p := pivot_table data) in *.
  assert (Hhit : filter (labelled t) (renamed p) <> [] ->
            forall rest, assoc (Str t) (filter (labelled t) (renamed p) ++ rest)%list
            = Some (map (fun k => Num (cell_of data (k, Str src))) (index p))).
  { intros Hne rest. destruct (assoc_hit t (renamed p) rest Hne) as (x & Hx & Hfst & ->).
    apply renamed_column in Hx. destruct Hx as (src' & Hsrc' & ->). simpl in *.
    f_equal. assert (src' = Str src) as ->; [|reflexivity].
    apply renamed_to in Hfst. destruct Hfst as [E|E].
    - subst src'. destruct (string_dec src t) as [Hst|Hst]; [now subst|].
      exfalso. rewrite <- labels_pivot in Hsrc'. apply pivot_label_in_data in Hsrc'.
      destruct Hsrc' as (r & Hr & Hty). exact (Hfree Hst r Hr Hty).
    - simpl in Hin, E.
      repeat (destruct Hin as [[= <- <-]|Hin];
              [repeat (destruct E as [E|E];
                       [first [discriminate | injection E as E; now symmetry]|]);
               contradiction|]).
      contradiction. }
  unfold column. rewrite Hc. simpl in Hin.
  repeat (destruct Hin as [[= <- <-]|Hin];
          [ rewrite assoc_cons_other by discriminate;
            rewrite assoc_skip_market by discriminate;
            rewrite assoc_cons_other by discriminate;
            repeat (rewrite assoc_skip_filter by discriminate);
            rewrite <- ?app_assoc;
            first [ apply Hhit; assumption
                  | rewrite <- (app_nil_r (filter _ _)); apply Hhit; assumption ]
          |]).
  contradiction.
Qed.

Lemma price_columns_hold_first_prices_witness :
  column "Energy" two_node_frame
  = Some (map (fun k => Num (cell_of two_node_csv (k, Str "MCE")))
              (index (pivot_table two_node_csv))).
Proof.
  apply (price_columns_hold_first_prices (served [] two_node_csv) new_year_2023
           DAY_AHEAD_HOURLY (Some ["NODE_A"]) 5 initial_world two_node_csv node_a_queried
           two_node_frame node_a_world "MCE" "Energy" eq_refl eq_refl).
  - simpl. tauto.
  - intros _ r Hin. simpl in Hin.
    repeat (destruct Hin as [<-|Hin]; [discriminate|]). contradiction.
Defined.

(** A returned frame is rectangular: each of its columns has exactly as many
    entries as the frame has rows, and it has one row per (time, node) pair
    of the pivot. *)
Theorem returned_frame_is_rectangular {N} {num : Numbers N} {V} (env : Env N V) date market
    nodes sleep w data w1 df w' :
  query_csv env date market (nodes_or_default nodes) w = (Ok data, w1) ->
  get_historical_lmp env date market nodes sleep w = (Ok df, w') ->
  nrows df = List.length (index (pivot_table data))
  /\ (forall l col, In (l, col) (columns df) -> List.length col = nrows df).
Proof.
  intros Hq H. apply get_historical_lmp_ok in H.
  destruct H as (data' & w1' & Hq' & Hn & _).
  rewrite Hq in Hq'. injection Hq' as <- <-.
  destruct (normalize_ok env market _ df Hn) as (es & Hes & _ & Hrows & Hc & _).
  split; [exact Hrows|]. rewrite Hrows.
  assert (Hren : forall l col X, In (l, col) (filter (labelled X) (renamed (pivot_table data))) ->
            List.length col = List.length (index (pivot_table data))).
  { intros l col X Hin. apply filter_In in Hin. destruct Hin as [Hin _].
    apply renamed_column in Hin. destruct Hin as (src & _ & [= _ ->]).
    now rewrite length_map. }
  intros l col Hin. rewrite Hc in Hin.
  destruct Hin as [[= _ <-]|Hin]; [unfold time_column; now rewrite !length_map|].
  apply in_app_or in Hin. destruct Hin as [Hin|Hin].
  - destruct (market_columns_repeat market (pivot_table data)) as [k Hk].
    rewrite Hk in Hin. apply repeat_spec in Hin. injection Hin as _ ->.
    apply repeat_length.
  - destruct Hin as [[= _ <-]|Hin]; [unfold node_column; now rewrite length_map|].
    repeat (apply in_app_or in Hin; destruct Hin as [Hin|Hin]; [now apply Hren in Hin|]).
    now apply Hren in Hin.
Qed.

Lemma returned_frame_is_rectangular_witness :
  nrows two_node_frame = List.length (index (pivot_table two_node_csv))
  /\ (forall l col, In (l, col) (columns two_node_frame) ->
        List.length col = nrows two_node_frame).
Proof.
  exact (returned_frame_is_rectangular (served [] two_node_csv) new_year_2023
           DAY_AHEAD_HOURLY (Some ["NODE_A"]) 5 initial_world two_node_csv node_a_queried
           two_node_frame node_a_world eq_refl eq_refl).
Defined.

(** A call returns only when every component is priced somewhere in the
    CSV: for each of LMP, Energy, Congestion and Loss there is a row with
    time, node and price whose component type is the one renamed to it (LMP,
    MCE, MCC, MCL) or is already called so.  Without such a row the call
    raises instead of returning a frame with an empty column. *)
Theorem returns_only_with_priced_components {N} {num : Numbers N} {V} (env : Env N V) date
    market nodes sleep w data w1 df w' src t :
  query_csv env date market (nodes_or_default nodes) w = (Ok data, w1) ->
  get_historical_lmp env date market nodes sleep w = (Ok df, w') ->
  In (src, t) [("LMP", "LMP"); ("MCE", "Energy"); ("MCC", "Congestion"); ("MCL", "Loss")] ->
  exists r tm n v,
    In r data /\ INTERVALSTARTTIME_GMT r = Some tm /\ NODE r = Some n /\ PRICE r = Some v
    /\ (LMP_TYPE r = Some (Str src) \/ LMP_TYPE r = Some (Str t)).
Proof.
  intros Hq H Hin. apply get_historical_lmp_ok in H.
  destruct H as (data' & w1' & Hq' & Hn & _).
  rewrite Hq in Hq'. injection Hq' as <- <-.
  destruct (normalize_ok env market _ df Hn) as (_ & _ & _ & _ & _ & Hl & He & Hg & Hs).
  assert (Hne : filter (labelled t) (renamed (pivot_table data)) <> []).
  { simpl in Hin. repeat (destruct Hin as [[= <- <-]|Hin]; [assumption|]). contradiction. }
  destruct (assoc_hit t (renamed (pivot_table data)) [] Hne) as (x & Hx & Hfst & _).
  apply renamed_column in Hx. destruct Hx as (src' & Hsrc' & ->). simpl in Hfst.
  rewrite <- labels_pivot in Hsrc'. apply in_labels_priced in Hsrc'.
  destruct Hsrc' as (r & tm & n & v & Hr & Ht & Hnd & Hty & Hp).
  exists r, tm, n, v. repeat split; auto.
  apply renamed_to in Hfst. destruct Hfst as [E|E].
  - right. now rewrite <- E.
  - left. simpl in Hin, E.
    repeat (destruct Hin as [[= <- <-]|Hin];
            [repeat (destruct E as [E|E];
                     [first [discriminate | injection E as E; rewrite E; exact Hty]|]);
             contradiction|]).
    contradiction.
Qed.

Lemma returns_only_with_priced_components_witness :
  exists r tm n v,
    In r node_a_csv /\ INTERVALSTARTTIME_GMT r = Some tm /\ NODE r = Some n
    /\ PRICE r = Some v
    /\ (LMP_TYPE r = Some (Str "MCL") \/ LMP_TYPE r = Some (Str "Loss")).
Proof.
  apply (returns_only_with_priced_components (served [] node_a_csv) new_year_2023
           DAY_AHEAD_HOURLY (Some ["NODE_A"]) 5 initial_world node_a_csv node_a_queried
           node_a_frame node_a_world "MCL" "Loss" eq_refl eq_refl).
  simpl. tauto.
Defined.

(** * The other accessors *)

Import Py Feeds FeedScenario.

Section Splitting.

Lemma split_on_nonempty sep s : split_on sep s <> [].
Proof.
  destruct s as [|c s]; simpl; [discriminate|].
  destruct (Ascii.eqb c sep); [discriminate|].
  destruct (split_on sep s); discriminate.
Qed.

Lemma split_on_length sep s : List.length (split_on sep s) = S (occurrences sep s).
Proof.
  induction s as [|c s IH]; simpl; [reflexivity|].
  destruct (Ascii.eqb c sep); simpl; [now rewrite IH|].
  destruct (split_on sep s) as [|p ps] eqn:E; [now apply split_on_nonempty in E | exact IH].
Qed.

(** Joining the parts with the separator gives the string back, and no
    part contains the separator. *)
Lemma split_on_join sep s :
  String.concat (String sep EmptyString) (split_on sep s) = s
  /\ Forall (fun p => occurrences sep p = 0%nat) (split_on sep s).
Proof.
  induction s as [|c s [IHj IHf]]; simpl; [repeat constructor|].
  destruct (Ascii.eqb_spec c sep) as [->|Hne].
  - split; [|constructor; [reflexivity | exact IHf]].
    destruct (split_on sep s) as [|p ps] eqn:E; [now apply split_on_nonempty in E|].
    rewrite <- IHj. reflexivity.
  - destruct (split_on sep s) as [|p ps] eqn:E; [now apply split_on_nonempty in E|].
    split.
    + rewrite <- IHj. destruct ps; reflexivity.
    + inversion IHf as [|? ? Hp Hps]. constructor; [|exact Hps]. simpl.
      destruct (Ascii.eqb_spec c sep); [contradiction | exact Hp].
Qed.

Lemma split_on_whole sep p : occurrences sep p = 0%nat -> split_on sep p = [p].
Proof.
  induction p as [|c p IH]; simpl; [reflexivity|].
  destruct (Ascii.eqb c sep); [discriminate|]. intros H. now rewrite (IH H).
Qed.

Lemma split_on_app sep h m :
  occurrences sep h = 0%nat ->
  split_on sep (h ++ String sep m) = h :: split_on sep m.
Proof.
  induction h as [|c h IH]; simpl.
  - now rewrite Ascii.eqb_refl.
  - destruct (Ascii.eqb c sep); [discriminate|]. intros H. now rewrite (IH H).
Qed.

End Splitting.

(** [_make_timestamp] accepts nothing but HOUR:MINUTE: a text with no colon
    or with more than one (a time with seconds, say) raises [ValueError],
    whatever its parts are, and no timestamp is built. *)
Theorem make_timestamp_needs_one_colon {N} {num : Numbers N} {V} (src : Sources N V)
    s today zone :
  occurrences ":" s <> 1%nat ->
  exists msg, _make_timestamp src (Text s) today zone = Throw (Std (ValueError msg)).
Proof.
  intros Hocc. unfold _make_timestamp, invalid_literal.
  pose proof (split_on_length ":" s) as Hlen.
  destruct (split_on ":" s) as [|h [|m [|x rest]]]; simpl in Hlen.
  - eauto.
  - destruct (int src h); eauto.
  - exfalso. apply Hocc. lia.
  - destruct (int src h); [|eauto]. destruct (int src m); [|eauto].
    destruct (int src x); eauto.
Qed.

Lemma make_timestamp_needs_one_colon_witness :
  exists msg,
    _make_timestamp (site demand_csv stats) (Text "00:05:00") first_of_january US_Pacific
    = Throw (Std (ValueError msg)).
Proof.
  apply (make_timestamp_needs_one_colon (site demand_csv stats) "00:05:00"
           first_of_january US_Pacific).
  simpl. discriminate.
Defined.

(** [_make_timestamp] returns exactly on a text HOUR:MINUTE with one colon
    whose two parts [int] accepts and whose hour and minute [pd.Timestamp]
    accepts, and what it returns is the timestamp built from the day of
    [today], that hour and that minute: the month, the year and the zone
    come from the arguments, nothing from the text but the two numbers. *)
Theorem make_timestamp_returns_only_hh_mm {N} {num : Numbers N} {V} (src : Sources N V)
    c today zone ts :
  _make_timestamp src c today zone = Return ts
  <-> exists h m hour minute,
        c = Text (h ++ ":" ++ m)
        /\ occurrences ":" h = 0%nat /\ occurrences ":" m = 0%nat
        /\ int src h = Some hour /\ int src m = Some minute
        /\ new_Timestamp src today hour minute zone = Return ts.
Proof.
  split.
  - unfold _make_timestamp, invalid_literal. destruct c as [s| | | |]; try discriminate.
    destruct (split_on_join ":" s) as [Hj Hf].
    destruct (split_on ":" s) as [|h [|m [|x rest]]]; try discriminate.
    + destruct (int src h); discriminate.
    + destruct (int src h) as [hour|] eqn:Eh; [|discriminate].
      destruct (int src m) as [minute|] eqn:Em; [|discriminate].
      intros Hts. exists h, m, hour, minute.
      inversion Hf as [|? ? Hh Hf']; inversion Hf' as [|? ? Hm _]; subst.
      simpl in *. repeat split; auto.
    + destruct (int src h); [|discriminate]. destruct (int src m); [|discriminate].
      destruct (int src x); discriminate.
  - intros (h & m & hour & minute & -> & Hh & Hm & Eh & Em & Hts).
    unfold _make_timestamp.
    change (h ++ ":" ++ m) with (h ++ String ":" m).
    rewrite (split_on_app ":" h m Hh), (split_on_whole ":" m Hm), Eh, Em. exact Hts.
Qed.

Lemma make_timestamp_returns_only_hh_mm_witness :
  _make_timestamp (site demand_csv stats) (Text "00:05") first_of_january US_Pacific
  = Return (pacific 5).
Proof.
  apply (make_timestamp_returns_only_hh_mm (site demand_csv stats) (Text "00:05")
           first_of_january US_Pacific (pacific 5)).
  exists "00", "05", 0, 5. repeat split; reflexivity.
Defined.

Section FeedFacts.
Context {N : Type} {num : Numbers N} {V : Type} (src : Sources N V).

Lemma apply_each_Forall2 {A B} (f : A -> outcome B) l ys :
  apply_each f l = Return ys <-> Forall2 (fun x y => f x = Return y) l ys.
Proof.
  revert ys. induction l as [|x l IH]; intros ys; simpl.
  - split; [intros [= <-]; constructor | intros H; now inversion H].
  - destruct (f x) as [y|e] eqn:Ex.
    + destruct (apply_each f l) as [ys'|e] eqn:El; split.
      * intros [= <-]. constructor; [exact Ex | now apply IH].
      * intros H. inversion H as [|? ? ? ? Hy Hrest]; subst.
        apply IH in Hrest. congruence.
      * discriminate.
      * intros H. inversion H as [|? ? ? ? Hy Hrest]; subst.
        apply IH in Hrest. discriminate.
    + split; [discriminate|]. intros H. inversion H; congruence.
Qed.

Lemma apply_each_throws {A B} (f : A -> outcome B) l x e :
  In x l -> f x = Throw e -> exists e', apply_each f l = Throw e'.
Proof.
  induction l as [|y l IH]; simpl; [tauto|]. intros [->|Hin] Hx.
  - rewrite Hx. eauto.
  - destruct (f y); [|eauto]. destruct (IH Hin Hx) as [e' ->]. eauto.
Qed.

Lemma assoc_In {B} (k : scalar N) (cols : list (scalar N * B)) c :
  assoc k cols = Some c -> In (k, c) cols.
Proof.
  induction cols as [|[l0 b] cols IH]; simpl; [discriminate|].
  destruct (scalar_eqb_spec k l0) as [->|_]; [intros [= ->]; now left | auto].
Qed.

Lemma assoc_mem {B} (l : string) (cols : list (scalar N * B)) :
  mem l (map fst cols) = true <-> exists c, assoc (Str l) cols = Some c.
Proof.
  unfold mem. induction cols as [|[l0 b] cols IH]; simpl.
  - split; [discriminate | intros [c H]; discriminate].
  - destruct (scalar_eqb (Str l) l0); simpl; [split; eauto | exact IH].
Qed.

(** Among columns with distinct names, the columns of one name are at most
    the one that the name looks up. *)
Lemma distinct_filter (l : string) (cols : list (scalar N * list (cell N V))) :
  distinct (map fst cols) = true ->
  filter (labelled l) cols
  = match assoc (Str l) cols with
    | Some c => [(Str l, c)]
    | None => []
    end.
Proof.
  induction cols as [|[l0 b] cols IH]; simpl; [reflexivity|].
  intros H. apply andb_true_iff in H. destruct H as [Hn Hd].
  unfold labelled at 1. cbn [fst]. destruct (scalar_eqb_spec (Str l) l0) as [<-|Hne].
  - f_equal. rewrite (IH Hd). destruct (assoc (Str l) cols) as [c|] eqn:E; [|reflexivity].
    exfalso. apply negb_true_iff in Hn.
    assert (mem l (map fst cols) = true) by (apply assoc_mem; eauto).
    unfold mem in *. congruence.
  - exact (IH Hd).
Qed.

Lemma assoc_replace (l l' : string) (col : list (cell N V)) cols :
  assoc (Str l') (map (fun c => if labelled l c then (Str l, col) else c) cols)
  = if String.eqb l' l
    then match assoc (Str l) cols with Some _ => Some col | None => None end
    else assoc (Str l') cols.
Proof.
  induction cols as [|[l0 b] cols IH]; cbn [map assoc].
  - now destruct (String.eqb l' l).
  - unfold labelled at 1. cbn [fst].
    destruct (scalar_eqb_spec (Str l) l0) as [<-|Hne]; cbn [assoc].
    + rewrite Str_eqb. destruct (String.eqb l' l) eqn:E1; [reflexivity | exact IH].
    + rewrite IH. destruct (scalar_eqb_spec (Str l') l0) as [<-|Hne'].
      * destruct (String.eqb_spec l' l); [congruence | reflexivity].
      * reflexivity.
Qed.

(** Assigning to a column that exists changes that column and nothing else. *)
Lemma setitem_existing l (col c0 : list (cell N V)) (df : DataFrame N V) :
  column l df = Some c0 ->
  labels (setitem l col df) = labels df
  /\ nrows (setitem l col df) = nrows df
  /\ column l (setitem l col df) = Some col
  /\ (forall l', l' <> l -> column l' (setitem l col df) = column l' df).
Proof.
  intros Hc. unfold column in *.
  assert (Hm : mem l (labels df) = true) by (apply assoc_mem; eauto).
  unfold setitem, labels in *. simpl. rewrite Hm. repeat split.
  - rewrite map_map. clear. induction (columns df) as [|[l0 b] cols IH]; simpl; [reflexivity|].
    f_equal; [|exact IH]. unfold labelled. cbn [fst].
    destruct (scalar_eqb_spec (Str l) l0); [now subst | reflexivity].
  - rewrite assoc_replace, String.eqb_refl, Hc. reflexivity.
  - intros l' Hne. rewrite assoc_replace.
    destruct (String.eqb_spec l' l); [contradiction | reflexivity].
Qed.

Lemma rectangular_column (csv : CsvFrame N V) l col :
  column l (frame csv) = Some col -> List.length col = nrows (frame csv).
Proof.
  intros H. apply assoc_In in H. pose proof (rectangular csv) as R.
  rewrite forallb_forall in R. specialize (R _ H). simpl in R. now apply Nat.eqb_eq in R.
Qed.

(** [_get_historical] on a file whose times all convert: one request,
    for the day's file, and the frame read with its Time column replaced. *)
Lemma get_historical_ok prefix suffix date w csv series times :
  let url := prefix ++ strftime_Ymd date ++ suffix in
  read_csv src (requests_made w) url = Return csv ->
  column "Time" (frame csv) = Some series ->
  Forall2 (fun c ts => _make_timestamp src c date US_Pacific = Return ts) series times ->
  _get_historical src prefix suffix date w
  = (Return (setitem "Time" (map Stamp times) (frame csv)), after w 1 [Get url]).
Proof.
  intros url R C F. apply apply_each_Forall2 in F.
  unfold _get_historical, pbind, http_get, plift, pret, pthrow. cbv zeta.
  fold url. rewrite R, C, F. reflexivity.
Qed.

Lemma get_historical_bad_time prefix suffix date w csv series c e :
  read_csv src (requests_made w) (prefix ++ strftime_Ymd date ++ suffix) = Return csv ->
  column "Time" (frame csv) = Some series ->
  In c series -> _make_timestamp src c date US_Pacific = Throw e ->
  exists e', _get_historical src prefix suffix date w
             = (Throw e', after w 1 [Get (prefix ++ strftime_Ymd date ++ suffix)]).
Proof.
  intros R C Hin Hc. unfold _get_historical, pbind, http_get, plift, pret, pthrow. cbv zeta.
  rewrite R, C.
  destruct (apply_each_throws (fun c => _make_timestamp src c date US_Pacific) series c e Hin Hc)
    as [e' ->].
  eauto.
Qed.

End FeedFacts.

(** The fuel mix of a day is the day's archive file with nothing but its
    Time column changed: when every time of the file is one that
    [_make_timestamp] accepts, the call makes one request, for
    HISTORY_BASE/YYYYMMDD/fuelsource.csv, and returns the frame it read,
    same columns in the same order and same rows, each time of the Time
    column replaced by what [_make_timestamp] makes of it for that day. *)
Theorem historical_fuel_mix_converts_time_only {N} {num : Numbers N} {V} (src : Sources N V)
    date w csv series times :
  let url := HISTORY_BASE ++ "/" ++ strftime_Ymd date ++ "/fuelsource.csv" in
  read_csv src (requests_made w) url = Return csv ->
  column "Time" (frame csv) = Some series ->
  Forall2 (fun c ts => _make_timestamp src c date US_Pacific = Return ts) series times ->
  exists df,
    get_historical_fuel_mix src date w = (Return df, after w 1 [Get url])
    /\ column "Time" df = Some (map Stamp times)
    /\ labels df = labels (frame csv)
    /\ nrows df = nrows (frame csv)
    /\ (forall l, l <> "Time" -> column l df = column l (frame csv)).
Proof.
  intros url R C F.
  destruct (setitem_existing "Time" (map Stamp times) series (frame csv) C)
    as (Hl & Hn & Ht & Ho).
  exists (setitem "Time" (map Stamp times) (frame csv)).
  split; [|repeat split; auto].
  unfold get_historical_fuel_mix.
  exact (get_historical_ok src (HISTORY_BASE ++ "/") "/fuelsource.csv" date w csv series
           times R C F).
Qed.

Lemma historical_fuel_mix_converts_time_only_witness :
  exists df,
    get_historical_fuel_mix (site demand_csv stats) first_of_january initial_world
    = (Return df,
       after initial_world 1
         [Get "https://www.caiso.com/outlook/SP/History/20230101/fuelsource.csv"])
    /\ column "Time" df = Some (map Stamp [pacific 0; pacific 5; pacific 10; pacific 15])
    /\ labels df = map Str ["Time"; "Solar"; "Wind"]
    /\ nrows df = 4%nat
    /\ (forall l, l <> "Time" -> column l df = column l (frame fuel_csv)).
Proof.
  apply (historical_fuel_mix_converts_time_only (site demand_csv stats) first_of_january
           initial_world fuel_csv five_minutes [pacific 0; pacific 5; pacific 10; pacific 15]).
  - reflexivity.
  - reflexivity.
  - repeat constructor.
Defined.

Section DemandFacts.
Context {N : Type} {num : Numbers N} {V : Type} (src : Sources N V).

Lemma keep_filter {B} (f : B -> bool) (l : list B) : keep (map f l) l = filter f l.
Proof.
  induction l as [|x l IH]; simpl; [reflexivity|].
  destruct (f x); [now f_equal | exact IH].
Qed.

Lemma length_filter_mask {B} (f : B -> bool) (l : list B) :
  List.length (filter (fun b : bool => b) (map f l)) = List.length (filter f l).
Proof.
  induction l as [|x l IH]; simpl; [reflexivity|].
  destruct (f x); simpl; now rewrite IH.
Qed.

Lemma combine_repeat_true (f : cell N V -> bool) (l : list (cell N V)) n :
  List.length l = n ->
  map (fun cb : cell N V * bool => f (fst cb) && snd cb) (combine l (repeat true n)) = map f l.
Proof.
  revert n. induction l as [|x l IH]; intros [|n] H; simpl in *; try discriminate.
  - reflexivity.
  - rewrite andb_true_r. f_equal. apply IH. lia.
Qed.

(** Selecting the two columns of the demand file after the times are
    converted. *)
Lemma select_time_and_demand (csv : CsvFrame N V) series stamps :
  column "Time" (frame csv) = Some series ->
  select ["Time"; "Current demand"] (setitem "Time" stamps (frame csv))
  = match column "Current demand" (frame csv) with
    | Some demand =>
        Ok {| nrows := nrows (frame csv);
              columns := [(Str "Time", stamps); (Str "Current demand", demand)] |}
    | None => Raise (KeyError "Current demand not in index")
    end.
Proof.
  intros C. unfold select. cbn [getitem_list].
  rewrite filter_setitem, filter_setitem_other by discriminate.
  rewrite !(distinct_filter _ _ (unique csv)). unfold column in *. rewrite C.
  cbn [map]. destruct (assoc (Str "Current demand") (columns (frame csv))); reflexivity.
Qed.

End DemandFacts.

(** The demand of a day is the rows of the day's archive file that have a
    demand, in the order of the file, under the two columns Time and Demand:
    when every time of the file is one that [_make_timestamp] accepts, the
    call makes one request, for HISTORY_BASE/YYYYMMDD/demand.csv, and
    returns a frame whose Demand column is the file's "Current demand"
    column without its missing entries and whose Time column holds, for the
    rows kept, the timestamps made of the file's times; the other columns of
    the file are gone. *)
Theorem historical_demand_keeps_rows_with_demand {N} {num : Numbers N} {V} (src : Sources N V)
    date w csv
    series times demand :
  let url := HISTORY_BASE ++ "/" ++ strftime_Ymd date ++ "/demand.csv" in
  let has_demand := fun c : cell N V => negb (isnull c) in
  read_csv src (requests_made w) url = Return csv ->
  column "Time" (frame csv) = Some series ->
  column "Current demand" (frame csv) = Some demand ->
  Forall2 (fun c ts => _make_timestamp src c date US_Pacific = Return ts) series times ->
  get_historical_demand src date w
  = (Return {| nrows := List.length (filter has_demand demand);
               columns := [(Str "Time", keep (map has_demand demand) (map Stamp times));
                           (Str "Demand", filter has_demand demand)] |},
     after w 1 [Get url]).
Proof.
  intros url has_demand R C D F.
  unfold get_historical_demand, pbind at 1.
  rewrite (get_historical_ok src (HISTORY_BASE ++ "/") "/demand.csv" date w csv series times
             R C F).
  unfold pbind, plift, pret.
  rewrite (select_time_and_demand csv series _ C), D.
  cbn [of_result]. unfold dropna_subset, rename.
  cbn [getitem_list columns nrows map fst snd filter].
  assert (E1 : rename_label [(Str "Current demand", "Demand")] (Str "Time" : scalar N)
               = Str "Time")
    by (unfold rename_label; cbn [assoc]; now rewrite Str_eqb).
  assert (E2 : rename_label [(Str "Current demand", "Demand")]
                 (Str "Current demand" : scalar N) = Str "Demand")
    by (unfold rename_label; cbn [assoc]; now rewrite Str_eqb).
  rewrite E1, E2. unfold labelled. cbn [fst]. rewrite !Str_eqb.
  cbn [String.eqb Ascii.eqb Bool.eqb all_notnull app snd].
  rewrite (combine_repeat_true (fun c => negb (isnull c)) demand)
    by exact (rectangular_column csv _ _ D).
  unfold boolean_index. cbn [columns nrows map fst snd].
  fold has_demand. rewrite keep_filter, length_filter_mask. reflexivity.
Qed.

Lemma historical_demand_keeps_rows_with_demand_witness :
  get_historical_demand (site demand_csv stats) first_of_january initial_world
  = (Return {| nrows := 2;
               columns := [(Str "Time", [Stamp (pacific 0); Stamp (pacific 10)]);
                           (Str "Demand", [Num (Some 21000); Num (Some 20900)])] |},
     after initial_world 1
       [Get "https://www.caiso.com/outlook/SP/History/20230101/demand.csv"]).
Proof.
  apply (historical_demand_keeps_rows_with_demand (site demand_csv stats) first_of_january
           initial_world demand_csv five_minutes
           [pacific 0; pacific 5; pacific 10; pacific 15]
           [Num (Some 21000); Num None; Num (Some 20900); Num None]).
  - reflexivity.
  - reflexivity.
  - reflexivity.
  - repeat constructor.
Defined.

(** One time of the file that [_make_timestamp] rejects fails the whole
    call, also when it stands in a row without a demand, which would not
    have been returned anyway. *)
Theorem historical_demand_fails_on_any_bad_time {N} {num : Numbers N} {V} (src : Sources N V)
    date w csv series c e :
  let url := HISTORY_BASE ++ "/" ++ strftime_Ymd date ++ "/demand.csv" in
  read_csv src (requests_made w) url = Return csv ->
  column "Time" (frame csv) = Some series ->
  In c series -> _make_timestamp src c date US_Pacific = Throw e ->
  exists e', get_historical_demand src date w = (Throw e', after w 1 [Get url]).
Proof.
  intros url R C Hin Hc.
  destruct (get_historical_bad_time src (HISTORY_BASE ++ "/") "/demand.csv" date w
              csv series c e R C Hin Hc) as [e' He].
  exists e'. unfold get_historical_demand, pbind at 1. rewrite He. reflexivity.
Qed.

Lemma historical_demand_fails_on_any_bad_time_witness :
  exists e,
    get_historical_demand (site demand_csv stats) second_of_january initial_world
    = (Throw e,
       after initial_world 1
         [Get "https://www.caiso.com/outlook/SP/History/20230102/demand.csv"]).
Proof.
  apply (historical_demand_fails_on_any_bad_time (site demand_csv stats) second_of_january
           initial_world seconds_demand_csv [Text "00:00"; Text "00:05:00"] (Text "00:05:00")
           (Std (ValueError "too many values to unpack (expected 2)"))).
  - reflexivity.
  - reflexivity.
  - right. left. reflexivity.
  - reflexivity.
Defined.

Section LatestFacts.
Context {N : Type} {num : Numbers N} {V : Type} (src : Sources N V).

Lemma keep_all_false {A B} (f : A -> bool) (l : list A) (col : list B) :
  Forall (fun x => f x = false) l -> keep (map f l) col = [].
Proof.
  intros H. revert col. induction H as [|x l Hx _ IH]; intros col; simpl.
  - now destruct col.
  - rewrite Hx. destruct col; [reflexivity | apply IH].
Qed.

(** With a mask that is true at one place and false after it, the last of
    the entries kept is the entry at that place. *)
Lemma last_keep {A B} (f : A -> bool) pre d post (col : list B) t :
  f d = true -> Forall (fun x => f x = false) post ->
  nth_error col (List.length pre) = Some t ->
  forall default, last (keep (map f (pre ++ d :: post)%list) col) default = t.
Proof.
  intros Hd Hpost. revert col. induction pre as [|x pre IH]; intros col Hn default.
  - destruct col as [|y col]; [discriminate|]. simpl in Hn. injection Hn as ->.
    simpl. rewrite Hd, (keep_all_false f post col Hpost). reflexivity.
  - destruct col as [|y col]; [discriminate|]. simpl in Hn.
    simpl. destruct (f x).
    + rewrite last_cons. now apply IH.
    + now apply IH.
Qed.

Lemma mask_has_true {A} (f : A -> bool) pre d post :
  f d = true ->
  exists k, List.length (filter (fun b : bool => b) (map f (pre ++ d :: post)%list)) = S k.
Proof.
  intros Hd. rewrite map_app, filter_app, length_app. simpl. rewrite Hd. simpl.
  eexists. rewrite Nat.add_succ_r. reflexivity.
Qed.

Lemma mask_all_false {A} (f : A -> bool) l :
  Forall (fun x => f x = false) l ->
  List.length (filter (fun b : bool => b) (map f l)) = 0%nat.
Proof. induction 1 as [|x l Hx _ IH]; simpl; [reflexivity|]. now rewrite Hx. Qed.

Lemma assoc_without (key : string) (l : scalar N) (d : list (scalar N * cell N V)) :
  assoc l (filter (fun kv => negb (scalar_eqb (Str key) (fst kv))) d)
  = if scalar_eqb l (Str key) then None else assoc l d.
Proof.
  induction d as [|[k v] d IH]; simpl; [now destruct (scalar_eqb l (Str key))|].
  destruct (scalar_eqb_spec (Str key) k) as [<-|Hne]; simpl.
  - rewrite IH. destruct (scalar_eqb l (Str key)); reflexivity.
  - rewrite IH. destruct (scalar_eqb_spec l k) as [->|_]; [|reflexivity].
    destruct (scalar_eqb_spec k (Str key)); [congruence | reflexivity].
Qed.

End LatestFacts.

(** The latest demand is that of the last row of the live file that has a
    demand, not of its last row: rows without a demand after it are passed
    over; the time is made of that same row's time and of the current day,
    which is asked for only after the row is found. *)
Theorem latest_demand_is_last_row_with_demand {N} {num : Numbers N} {V} (src : Sources N V) w csv
    pre d post times_col t today w2 ts :
  let url := BASE ++ "/demand.csv" in
  read_csv src (requests_made w) url = Return csv ->
  column "Current demand" (frame csv) = Some (pre ++ d :: post)%list ->
  isnull d = false -> Forall (fun c => isnull c = true) post ->
  column "Time" (frame csv) = Some times_col ->
  nth_error times_col (List.length pre) = Some t ->
  _current_day src (after w 1 [Get url]) = (Return today, w2) ->
  _make_timestamp src t today US_Pacific = Return ts ->
  get_latest_demand src w = (Return {| ld_time := ts; ld_demand := d |}, w2).
Proof.
  intros url R D Hd Hpost C Hn Hday Hts.
  set (f := fun c : cell N V => negb (isnull c)).
  assert (Hfd : f d = true) by (unfold f; now rewrite Hd).
  assert (Hfpost : Forall (fun c => f c = false) post).
  { eapply Forall_impl; [|exact Hpost]. intros c Hc. unfold f. now rewrite Hc. }
  unfold get_latest_demand. cbv zeta. unfold pbind at 1, http_get. fold url. rewrite R, D.
  fold f. unfold iloc_last, boolean_index. cbn [nrows columns].
  destruct (mask_has_true f pre d post Hfd) as [k ->].
  unfold pbind, plift, pret, row_get.
  rewrite !(assoc_map_snd (fun c : list (cell N V) => last c (Num None))).
  rewrite !(assoc_map_snd (keep (map f (pre ++ d :: post)%list))).
  unfold column in C, D. rewrite C, D. cbn [option_map].
  rewrite (last_keep f pre d post times_col t Hfd Hfpost Hn).
  rewrite Hday, Hts.
  rewrite (last_keep f pre d post (pre ++ d :: post)%list d Hfd Hfpost).
  - reflexivity.
  - rewrite nth_error_app2 by lia. now rewrite Nat.sub_diag.
Qed.

Lemma latest_demand_is_last_row_with_demand_witness :
  get_latest_demand (site demand_csv stats) initial_world
  = (Return {| ld_time := pacific 10; ld_demand := Num (Some 20900) |},
     after (after initial_world 1 [Get "https://www.caiso.com/outlook/SP/demand.csv"]) 1
       [Get "https://www.caiso.com/outlook/SP/stats.txt"]).
Proof.
  apply (latest_demand_is_last_row_with_demand (site demand_csv stats) initial_world
           demand_csv [Num (Some 21000); Num None] (Num (Some 20900)) [Num None]
           five_minutes (Text "00:10") first_of_january).
  - reflexivity.
  - reflexivity.
  - reflexivity.
  - repeat constructor.
  - reflexivity.
  - reflexivity.
  - reflexivity.
  - reflexivity.
Defined.


(** When no row of the live file has a demand (an empty file included),
    the call fails with [IndexError] after the one request for the file; the
    status is not asked for. *)
Theorem latest_demand_without_values_fails_early {N} {num : Numbers N} {V} (src : Sources N V)
    w csv demand :
  let url := BASE ++ "/demand.csv" in
  read_csv src (requests_made w) url = Return csv ->
  column "Current demand" (frame csv) = Some demand ->
  Forall (fun c => isnull c = true) demand ->
  get_latest_demand src w
  = (Throw (IndexError "single positional indexer is out-of-bounds"), after w 1 [Get url]).
Proof.
  intros url R D Hall.
  unfold get_latest_demand. cbv zeta. unfold pbind at 1, http_get. fold url. rewrite R, D.
  unfold iloc_last, boolean_index. cbn [nrows columns].
  rewrite (mask_all_false (fun c : cell N V => negb (isnull c)) demand).
  - reflexivity.
  - eapply Forall_impl; [|exact Hall]. intros c Hc. now rewrite Hc.
Qed.

Lemma latest_demand_without_values_fails_early_witness :
  get_latest_demand (site idle_demand_csv stats) initial_world
  = (Throw (IndexError "single positional indexer is out-of-bounds"),
     after initial_world 1 [Get "https://www.caiso.com/outlook/SP/demand.csv"]).
Proof.
  apply (latest_demand_without_values_fails_early (site idle_demand_csv stats) initial_world
           idle_demand_csv [Num None; Num None]).
  - reflexivity.
  - reflexivity.
  - repeat constructor.
Defined.


(** The current day is read off the status, so it needs a whole status:
    when the payload has its date but its grid status is missing or is an
    empty list, [_current_day] fails with the exception of that lookup,
    though the date it wants is there. *)
Theorem current_day_needs_grid_status {N} {num : Numbers N} {V} (src : Sources N V)
    w r slot ts e :
  let url := BASE ++ "/stats.txt" in
  get_json src (requests_made w) url = Return r ->
  getitem_str r "slotDate" = Return slot ->
  to_local_datetime src slot = Return ts ->
  (getitem_str r "gridstatus" = Throw e
   \/ exists statuses, getitem_str r "gridstatus" = Return statuses
                       /\ getitem_0 statuses = Throw e) ->
  _current_day src w = (Throw e, after w 1 [Get url]).
Proof.
  intros url R Hslot Hts Hgs.
  unfold _current_day, get_latest_status, get_stats, pbind, http_get, plift, pret.
  cbv zeta. fold url. rewrite R, Hslot, Hts.
  destruct Hgs as [->|(statuses & -> & ->)]; reflexivity.
Qed.

Lemma current_day_needs_grid_status_witness :
  _current_day (site demand_csv stats_without_status) initial_world
  = (Throw (Std (KeyError "gridstatus")),
     after initial_world 1 [Get "https://www.caiso.com/outlook/SP/stats.txt"]).
Proof.
  apply (current_day_needs_grid_status (site demand_csv stats_without_status) initial_world
           stats_without_status (JStr "2023-01-01 00:15:00") (pacific 15)
           (Std (KeyError "gridstatus"))).
  - reflexivity.
  - reflexivity.
  - reflexivity.
  - left. reflexivity.
Defined.


(** The latest fuel mix is the last row of the live file, whatever it
    holds, without its time: the mix has every column of the file but Time,
    in the order of the file, each with its last entry, and the time is made
    of the last entry of the Time column and of the current day. *)
Theorem latest_fuel_mix_is_last_row_without_time {N} {num : Numbers N} {V} (src : Sources N V)
    w csv k
    tcol today w2 ts :
  let url := BASE ++ "/fuelsource.csv" in
  read_csv src (requests_made w) url = Return csv ->
  nrows (frame csv) = S k ->
  column "Time" (frame csv) = Some tcol ->
  _current_day src (after w 1 [Get url]) = (Return today, w2) ->
  _make_timestamp src (last tcol (Num None)) today US_Pacific = Return ts ->
  exists mix,
    get_latest_fuel_mix src w
    = (Return {| fm_time := ts; fm_mix := mix; fm_iso := "California ISO" |}, w2)
    /\ assoc (Str "Time") mix = None
    /\ (forall l, l <> Str "Time" ->
          assoc l mix
          = option_map (fun col => last col (Num None)) (assoc l (columns (frame csv))))
    /\ map fst mix
       = filter (fun l => negb (scalar_eqb (Str "Time") l)) (labels (frame csv)).
Proof.
  intros url R Hrows C Hday Hts.
  set (row := map (fun col : scalar N * list (cell N V) =>
                     (fst col, last (snd col) (Num None)))
                  (columns (frame csv))).
  exists (filter (fun kv => negb (scalar_eqb (Str "Time") (fst kv))) row).
  split; [|split; [|split]].
  - unfold get_latest_fuel_mix. cbv zeta. unfold pbind at 1, http_get. fold url. rewrite R.
    unfold iloc_last. rewrite Hrows. fold row.
    unfold pbind, plift, pret, dict_pop.
    assert (Ht : assoc (Str "Time") row = Some (last tcol (Num None))).
    { unfold row. rewrite (assoc_map_snd (fun c : list (cell N V) => last c (Num None))).
      unfold column in C. now rewrite C. }
    rewrite Ht, Hday, Hts. reflexivity.
  - rewrite assoc_without. now rewrite scalar_eqb_refl.
  - intros l Hl. rewrite assoc_without.
    destruct (scalar_eqb_spec l (Str "Time")); [contradiction|].
    unfold row. now rewrite (assoc_map_snd (fun c : list (cell N V) => last c (Num None))).
  - unfold row, labels. clear. induction (columns (frame csv)) as [|[l0 c0] cols IH];
      [reflexivity|].
    cbn [map filter fst snd]. destruct (scalar_eqb (Str "Time") l0); cbn [negb map fst].
    + exact IH.
    + f_equal. exact IH.
Qed.

Lemma latest_fuel_mix_is_last_row_without_time_witness :
  exists mix,
    get_latest_fuel_mix (site demand_csv stats) initial_world
    = (Return {| fm_time := pacific 15; fm_mix := mix; fm_iso := "California ISO" |},
       after (after initial_world 1 [Get "https://www.caiso.com/outlook/SP/fuelsource.csv"]) 1
         [Get "https://www.caiso.com/outlook/SP/stats.txt"])
    /\ assoc (Str "Time") mix = None
    /\ (forall l, l <> Str "Time" ->
          assoc l mix
          = option_map (fun col => last col (Num None)) (assoc l (columns (frame fuel_csv))))
    /\ map fst mix = [Str "Solar"; Str "Wind"].
Proof.
  apply (latest_fuel_mix_is_last_row_without_time (site demand_csv stats) initial_world
           fuel_csv 3 five_minutes first_of_january).
  - reflexivity.
  - reflexivity.
  - reflexivity.
  - reflexivity.
  - reflexivity.
Defined.

